(** * excel-interviewer: the answer evaluation path

    A shallow embedding of the Python modules

      - [interviews/utils.py]                      ([make_json_safe])
      - [interviews/services/runner.py]            ([run_checks])
      - [interviews/services/sonar_reasoning.py]   ([_extract_candidate_text],
        [_safe_parse_json], [judge_answer], [ping])
      - [interviews/views_candidate.py]            ([submit_answer])

    together with the part of the Python runtime these functions rely on:
    dynamically typed values, exceptions, [json.loads] and [json.dumps].

    Everything outside the repository (the HTTP endpoint, pandas, the
    database, the storage service, the clock, the interpreter's [str()] and
    [float()] on text) is gathered in a record [World]; the functions of the
    repository are ordinary Rocq functions of a world and their arguments. *)

From Stdlib Require Import ZArith NArith List Bool String Ascii Lia SpecFloat.
Import ListNotations.

(** ** Python values *)

Module Py.

(** A Python [str] is a sequence of Unicode code points. *)
Definition pystr := list N.

Definition txt (s : string) : pystr :=
  map N_of_ascii (list_ascii_of_string s).

Definition cp (a : ascii) : N := N_of_ascii a.

(** The double quote, and text written with apostrophes where the Python
    source (or a JSON document) has double quotes: [txtq] of the eight
    characters [{'a': 1}] is the JSON document with the one member [a]. *)
Definition dquote : N := 34.

Definition txtq (s : string) : pystr :=
  map (fun c => if N.eqb c 39 then dquote else c) (txt s).

Fixpoint pystr_eqb (a b : pystr) : bool :=
  match a, b with
  | [], [] => true
  | x :: a', y :: b' => N.eqb x y && pystr_eqb a' b'
  | _, _ => false
  end.

(** Python's [float] is IEEE 754 binary64; [spec_float] with precision 53
    and exponent bound 1024 is the Standard Library's model of it. *)
Definition float := spec_float.
Definition prec : Z := 53.
Definition emax : Z := 1024.

(** The dynamically typed values the evaluation path handles.  A dict is an
    insertion-ordered list of entries; a UUID and a date (or datetime) are
    identified with the text that [str()], respectively [isoformat()], gives
    for them; [PObj] stands for an object of any other class, with its truth
    value. *)
Unset Elimination Schemes.
Inductive pyval :=
| PNone
| PBool (b : bool)
| PInt (z : Z)
| PFloat (f : float)
| PStr (s : pystr)
| PList (l : list pyval)
| PTuple (l : list pyval)
| PDict (d : list (pyval * pyval))
| PUuid (u : pystr)
| PDate (iso : pystr)
| PObj (cls : pystr) (truth : bool).
Set Elimination Schemes.

(** Induction over values, with the elements of the containers (for a dict,
    the values of its entries) as premises. *)
Section pyval_induction.
Variable P : pyval -> Prop.
Hypothesis HNone : P PNone.
Hypothesis HBool : forall b, P (PBool b).
Hypothesis HInt : forall z, P (PInt z).
Hypothesis HFloat : forall f, P (PFloat f).
Hypothesis HStr : forall s, P (PStr s).
Hypothesis HList : forall l, Forall P l -> P (PList l).
Hypothesis HTuple : forall l, Forall P l -> P (PTuple l).
Hypothesis HDict : forall d, Forall (fun kv => P (snd kv)) d -> P (PDict d).
Hypothesis HUuid : forall u, P (PUuid u).
Hypothesis HDate : forall iso, P (PDate iso).
Hypothesis HObj : forall c t, P (PObj c t).

Fixpoint pyval_ind (v : pyval) : P v :=
  match v with
  | PNone => HNone
  | PBool b => HBool b
  | PInt z => HInt z
  | PFloat f => HFloat f
  | PStr s => HStr s
  | PList l =>
      HList l ((fix elems (l : list pyval) : Forall P l :=
                match l with
                | [] => Forall_nil P
                | x :: l' => Forall_cons x (pyval_ind x) (elems l')
                end) l)
  | PTuple l =>
      HTuple l ((fix elems (l : list pyval) : Forall P l :=
                 match l with
                 | [] => Forall_nil P
                 | x :: l' => Forall_cons x (pyval_ind x) (elems l')
                 end) l)
  | PDict d =>
      HDict d ((fix entries (d : list (pyval * pyval))
                : Forall (fun kv => P (snd kv)) d :=
                match d with
                | [] => Forall_nil _
                | kv :: d' =>
                    Forall_cons (P := fun kv => P (snd kv)) kv
                      (pyval_ind (snd kv)) (entries d')
                end) d)
  | PUuid u => HUuid u
  | PDate iso => HDate iso
  | PObj c t => HObj c t
  end.
End pyval_induction.

(** *** Exceptions *)

(** The exception classes that occur.  All of them derive from [Exception];
    [External] is an exception raised by a collaborator (requests, pandas,
    the database layer), with its class name and its message. *)
Inductive exn :=
| TypeError
| AttributeError
| KeyError
| IndexError
| ValueError
| OverflowError
| UnboundLocalError
| JSONDecodeError
| UnicodeDecodeError
| DoesNotExist
| External (cls msg : pystr).

(** The outcome of running a piece of Python: a value or a raised
    exception. *)
Inductive res (A : Type) :=
| Ok (a : A)
| Raise (e : exn).
Arguments Ok {A} a.
Arguments Raise {A} e.

Definition bind {A B} (m : res A) (k : A -> res B) : res B :=
  match m with
  | Ok a => k a
  | Raise e => Raise e
  end.

Declare Scope py_scope.
Delimit Scope py_scope with py.
Notation "x <- m ;; k" := (bind m (fun x => k))
  (at level 61, m at next level, right associativity) : py_scope.

(** *** Truth value, [or], [len], indexing, [.get] *)

(** [bool(v)] *)
Definition truthy (v : pyval) : bool :=
  match v with
  | PNone => false
  | PBool b => b
  | PInt z => negb (Z.eqb z 0)
  | PFloat (S754_zero _) => false
  | PFloat _ => true
  | PStr s => match s with [] => false | _ => true end
  | PList l | PTuple l => match l with [] => false | _ => true end
  | PDict d => match d with [] => false | _ => true end
  | PUuid _ | PDate _ => true
  | PObj _ t => t
  end.

(** [a or b] *)
Definition py_or (a b : pyval) : pyval := if truthy a then a else b.

Definition is_none (v : pyval) : bool :=
  match v with PNone => true | _ => false end.

Definition is_dict (v : pyval) : bool :=
  match v with PDict _ => true | _ => false end.

Definition is_list (v : pyval) : bool :=
  match v with PList _ => true | _ => false end.

(** Lookup of a [str] key in the entries of a dict: only a [str] key can be
    equal to a [str]. *)
Fixpoint dict_find (d : list (pyval * pyval)) (k : pystr) : option pyval :=
  match d with
  | [] => None
  | (PStr k', v) :: d' => if pystr_eqb k' k then Some v else dict_find d' k
  | _ :: d' => dict_find d' k
  end.

(** [d[k] = v] on the entries: an existing key keeps its position. *)
Fixpoint dict_set (d : list (pyval * pyval)) (k : pystr) (v : pyval)
  : list (pyval * pyval) :=
  match d with
  | [] => [(PStr k, v)]
  | (PStr k', v') :: d' =>
      if pystr_eqb k' k then (PStr k', v) :: d'
      else (PStr k', v') :: dict_set d' k v
  | kv :: d' => kv :: dict_set d' k v
  end.

(** [d.pop(k, None)] on the entries (the popped value is dropped). *)
Fixpoint dict_pop (d : list (pyval * pyval)) (k : pystr)
  : list (pyval * pyval) :=
  match d with
  | [] => []
  | (PStr k', v') :: d' =>
      if pystr_eqb k' k then d' else (PStr k', v') :: dict_pop d' k
  | kv :: d' => kv :: dict_pop d' k
  end.

(** [o.get(k, default)]: only a dict has a [get] method. *)
Definition py_get (o : pyval) (k : pystr) (default : pyval) : res pyval :=
  match o with
  | PDict d => Ok (match dict_find d k with Some v => v | None => default end)
  | _ => Raise AttributeError
  end.

(** Is a dict key equal to the integer [0]?  ([0 == False == 0.0].) *)
Definition key_is_zero (k : pyval) : bool :=
  match k with
  | PInt 0 => true
  | PBool false => true
  | PFloat (S754_zero _) => true
  | _ => false
  end.

(** [o[0]] *)
Definition py_index0 (o : pyval) : res pyval :=
  match o with
  | PList l | PTuple l =>
      match l with x :: _ => Ok x | [] => Raise IndexError end
  | PStr s => match s with c :: _ => Ok (PStr [c]) | [] => Raise IndexError end
  | PDict d =>
      match find (fun kv => key_is_zero (fst kv)) d with
      | Some kv => Ok (snd kv)
      | None => Raise KeyError
      end
  | _ => Raise TypeError
  end.

(** [len(o)] *)
Definition py_len (o : pyval) : res Z :=
  match o with
  | PStr s => Ok (Z.of_nat (List.length s))
  | PList l | PTuple l => Ok (Z.of_nat (List.length l))
  | PDict d => Ok (Z.of_nat (List.length d))
  | _ => Raise TypeError
  end.

(** [s[:400] + '...'] on text. *)
Definition excerpt400 (s : pystr) : pystr := (firstn 400 s ++ txt "...")%list.

(** [o[:400] + '...']: slicing and concatenation with a [str] succeed on a
    [str] only. *)
Definition py_excerpt400 (o : pyval) : res pyval :=
  match o with
  | PStr s => Ok (PStr (excerpt400 s))
  | _ => Raise TypeError
  end.

(** *** Numbers *)

Definition f_zero : float := S754_zero false.

(** [float(z)] for an [int]: round to nearest even, [OverflowError] when
    the result is out of range. *)
Definition float_of_int (z : Z) : res float :=
  match binary_normalize prec emax z 0 false with
  | S754_infinity _ => Raise OverflowError
  | f => Ok f
  end.

(** The binary64 nearest to [n / d] ([n >= 0], [d > 0]) with sign [s]. *)
Definition float_of_ratio (s : bool) (n d : Z) : float :=
  match n with
  | Z0 => S754_zero s
  | _ =>
      let '(q, e, l) := SFdiv_core_binary prec emax n 0 d 0 in
      binary_round_aux prec emax s q e l
  end.

(** The binary64 nearest to [m * 10^e] with sign [s]: what [float()] yields
    for a decimal literal. *)
Definition float_of_decimal (s : bool) (m e : Z) : float :=
  if (0 <=? e)%Z then float_of_ratio s (m * 10 ^ e) 1
  else float_of_ratio s m (10 ^ (- e)).

Definition f_100 : float := Eval cbv in float_of_decimal false 100 0.

(** [a < b] on floats. *)
Definition flt (a b : float) : bool := SFltb a b.
Definition fle (a b : float) : bool := SFleb a b.

(** [min(a, b)] and [max(a, b)] of two floats, as the built-ins compute
    them: the first argument is kept unless the second is strictly
    smaller (larger). *)
Definition py_min (a b : float) : float := if flt b a then b else a.
Definition py_max (a b : float) : float := if flt a b then b else a.

(** Decimal text of a natural number and of an integer
    ([str(z)] for an [int]). *)
Fixpoint digits_fuel (fuel : nat) (n : N) (acc : pystr) : pystr :=
  match fuel with
  | O => acc
  | S fuel' =>
      let acc' := (48 + N.modulo n 10)%N :: acc in
      if (n <? 10)%N then acc' else digits_fuel fuel' (n / 10)%N acc'
  end.

Definition str_of_N (n : N) : pystr :=
  digits_fuel (S (N.to_nat (N.log2 n))) n [].

Definition str_of_int (z : Z) : pystr :=
  match z with
  | Zneg p => cp "-" :: str_of_N (Npos p)
  | _ => str_of_N (Z.to_N z)
  end.

(** *** What the interpreter supplies

    Three built-ins are left to the interpreter: [str()] on a float, a
    container, a date or an object of another class (for a float, the
    shortest decimal that reads back; for a container, its elements with
    text quoted and escaped), [float()] on text, and [str(e)] on one of the
    interpreter's own exceptions. *)
Record Runtime := {
  repr_of : pyval -> pystr;
  float_of_text : pystr -> res float;
  exn_text : exn -> pystr
}.

(** [str(v)] *)
Definition py_str (R : Runtime) (v : pyval) : pystr :=
  match v with
  | PStr s => s
  | PInt z => str_of_int z
  | PBool true => txt "True"
  | PBool false => txt "False"
  | PNone => txt "None"
  | PUuid u => u
  | _ => repr_of R v
  end.

(** [str(e)] for an exception. *)
Definition exn_str (R : Runtime) (e : exn) : pystr :=
  match e with
  | External _ msg => msg
  | _ => exn_text R e
  end.

(** [float(v)] *)
Definition py_float (R : Runtime) (v : pyval) : res float :=
  match v with
  | PFloat f => Ok f
  | PInt z => float_of_int z
  | PBool true => float_of_int 1
  | PBool false => Ok f_zero
  | PStr s => float_of_text R s
  | _ => Raise TypeError
  end.

End Py.

(** ** The [json] module of the standard library *)

Module Json.
Import Py.
Local Open Scope N_scope.

(** *** [json.loads]

    The decoder of CPython, in its default (strict) mode: [NaN], [Infinity]
    and [-Infinity] are accepted, control characters inside a string are
    not, a duplicated key keeps its last value.  The nesting depth is not
    bounded here. *)

Definition is_ws (c : N) : bool :=
  (c =? 32) || (c =? 9) || (c =? 10) || (c =? 13).

Fixpoint skip_ws (s : pystr) : pystr :=
  match s with
  | c :: r => if is_ws c then skip_ws r else s
  | [] => []
  end.

Definition is_digit (c : N) : bool := (48 <=? c) && (c <=? 57).

(** The longest prefix of digits, and what follows it. *)
Fixpoint span_digits (s : pystr) : pystr * pystr :=
  match s with
  | c :: r =>
      if is_digit c then let (d, r') := span_digits r in (c :: d, r')
      else ([], s)
  | [] => ([], [])
  end.

Definition digits_value (d : pystr) : Z :=
  fold_left (fun acc c => (acc * 10 + Z.of_N (c - 48))%Z) d 0%Z.

Definition hex_val (c : N) : option N :=
  if is_digit c then Some (c - 48)
  else if (97 <=? c) && (c <=? 102) then Some (c - 87)
  else if (65 <=? c) && (c <=? 70) then Some (c - 55)
  else None.

Definition hex4 (a b c d : N) : option N :=
  match hex_val a, hex_val b, hex_val c, hex_val d with
  | Some x, Some y, Some z, Some w => Some (((x * 16 + y) * 16 + z) * 16 + w)
  | _, _, _, _ => None
  end.

Definition is_high_surrogate (u : N) : bool := (55296 <=? u) && (u <=? 56319).
Definition is_low_surrogate (u : N) : bool := (56320 <=? u) && (u <=? 57343).
Definition join_surrogates (hi lo : N) : N :=
  65536 + (hi - 55296) * 1024 + (lo - 56320).

(** The character a one-letter escape stands for. *)
Definition unescape (e : N) : option N :=
  if e =? dquote then Some (dquote)
  else if e =? cp "\" then Some (cp "\")
  else if e =? cp "/" then Some (cp "/")
  else if e =? cp "b" then Some 8
  else if e =? cp "f" then Some 12
  else if e =? cp "n" then Some 10
  else if e =? cp "r" then Some 13
  else if e =? cp "t" then Some 9
  else None.

(** The text of a string literal, read from just after its opening quote:
    the decoded text and what follows the closing quote. *)
Fixpoint scanstring (s : pystr) (acc : pystr) : option (pystr * pystr) :=
  match s with
  | [] => None
  | c :: r =>
      if c =? dquote then Some (rev acc, r)
      else if c =? cp "\" then
        match r with
        | [] => None
        | e :: r1 =>
            if e =? cp "u" then
              match r1 with
              | h1 :: h2 :: h3 :: h4 :: r2 =>
                  match hex4 h1 h2 h3 h4 with
                  | None => None
                  | Some u =>
                      if is_high_surrogate u then
                        match r2 with
                        | b :: v :: g1 :: g2 :: g3 :: g4 :: r3 =>
                            if (b =? cp "\") && (v =? cp "u") then
                              match hex4 g1 g2 g3 g4 with
                              | None => None
                              | Some u2 =>
                                  if is_low_surrogate u2
                                  then scanstring r3 (join_surrogates u u2 :: acc)
                                  else scanstring r2 (u :: acc)
                              end
                            else scanstring r2 (u :: acc)
                        | _ => scanstring r2 (u :: acc)
                        end
                      else scanstring r2 (u :: acc)
                  end
              | _ => None
              end
            else
              match unescape e with
              | Some x => scanstring r1 (x :: acc)
              | None => None
              end
        end
      else if c <? 32 then None
      else scanstring r (c :: acc)
  end.

(** [strip_prefix p s]: what follows [p] in [s], when [s] starts with [p]. *)
Fixpoint strip_prefix (p s : pystr) : option pystr :=
  match p, s with
  | [], _ => Some s
  | x :: p', y :: s' => if x =? y then strip_prefix p' s' else None
  | _ :: _, [] => None
  end.

Definition match_literal (s : pystr) : option (pyval * pystr) :=
  match strip_prefix (txt "null") s with
  | Some r => Some (PNone, r)
  | None =>
  match strip_prefix (txt "true") s with
  | Some r => Some (PBool true, r)
  | None =>
  match strip_prefix (txt "false") s with
  | Some r => Some (PBool false, r)
  | None =>
  match strip_prefix (txt "NaN") s with
  | Some r => Some (PFloat S754_nan, r)
  | None =>
  match strip_prefix (txt "Infinity") s with
  | Some r => Some (PFloat (S754_infinity false), r)
  | None =>
  match strip_prefix (txt "-Infinity") s with
  | Some r => Some (PFloat (S754_infinity true), r)
  | None => None
  end end end end end end.

(** A number: an optional minus sign, then [0] or a digit from 1 to 9 with
    any digits after it, then a fraction when a dot is followed by a digit,
    then an exponent when [e] or [E] is followed by an optional sign and at
    least one digit.  With a fraction or an exponent the number
    is a [float], otherwise an [int]. *)
Definition match_number (s : pystr) : option (pyval * pystr) :=
  let (neg, s1) :=
    match s with
    | c :: r => if c =? cp "-" then (true, r) else (false, s)
    | [] => (false, s)
    end in
  match s1 with
  | [] => None
  | c :: r =>
      let int_part :=
        if c =? cp "0" then Some ([c], r)
        else if is_digit c then let (d, r') := span_digits r in Some (c :: d, r')
        else None in
      match int_part with
      | None => None
      | Some (ds, r1) =>
          let (frac, r2) :=
            match r1 with
            | dot :: d1 :: r' =>
                if (dot =? cp ".") && is_digit d1
                then let (d, r'') := span_digits (d1 :: r') in (d, r'')
                else ([], r1)
            | _ => ([], r1)
            end in
          let '(ex, r3) :=
            match r2 with
            | e :: r' =>
                if (e =? cp "e") || (e =? cp "E") then
                  let (eneg, r'') :=
                    match r' with
                    | sg :: t =>
                        if sg =? cp "-" then (true, t)
                        else if sg =? cp "+" then (false, t)
                        else (false, r')
                    | [] => (false, r')
                    end in
                  let (d, t) := span_digits r'' in
                  match d with
                  | [] => (None, r2)
                  | _ => (Some (if eneg then (- digits_value d)%Z
                                else digits_value d), t)
                  end
                else (None, r2)
            | [] => (None, r2)
            end in
          match frac, ex with
          | [], None =>
              let v := digits_value ds in
              Some (PInt (if neg then (- v)%Z else v), r3)
          | _, _ =>
              let m := digits_value (ds ++ frac) in
              let e := ((match ex with Some x => x | None => 0 end)
                        - Z.of_nat (List.length frac))%Z in
              Some (PFloat (float_of_decimal neg m e), r3)
          end
      end
  end.

(** The outcome of scanning: a value and the rest of the text, a decoding
    error, or the fuel (a bound on the number of nested calls, fixed from
    the length of the text) used up. *)
Inductive scan :=
| Scanned (v : pyval) (rest : pystr)
| Malformed
| NoFuel.

Fixpoint scan_once (fuel : nat) (s : pystr) : scan :=
  match fuel with
  | O => NoFuel
  | S fuel' =>
      match s with
      | [] => Malformed
      | c :: r =>
          if c =? dquote then
            match scanstring r [] with
            | Some (k, rest) => Scanned (PStr k) rest
            | None => Malformed
            end
          else if c =? cp "{" then
            match skip_ws r with
            | c1 :: r2 =>
                if c1 =? cp "}" then Scanned (PDict []) r2
                else parse_object fuel' (c1 :: r2) []
            | [] => Malformed
            end
          else if c =? cp "[" then
            match skip_ws r with
            | c1 :: r2 =>
                if c1 =? cp "]" then Scanned (PList []) r2
                else parse_array fuel' (c1 :: r2) []
            | [] => Malformed
            end
          else
            match match_literal s with
            | Some (v, rest) => Scanned v rest
            | None =>
                match match_number s with
                | Some (v, rest) => Scanned v rest
                | None => Malformed
                end
            end
      end
  end

(** The elements of an array, from the start of an element. *)
with parse_array (fuel : nat) (s : pystr) (acc : list pyval) : scan :=
  match fuel with
  | O => NoFuel
  | S fuel' =>
      match scan_once fuel' s with
      | Scanned v rest =>
          match skip_ws rest with
          | c :: r =>
              if c =? cp "]" then Scanned (PList (rev (v :: acc))) r
              else if c =? cp "," then parse_array fuel' (skip_ws r) (v :: acc)
              else Malformed
          | [] => Malformed
          end
      | other => other
      end
  end

(** The members of an object, from the start of a key. *)
with parse_object (fuel : nat) (s : pystr) (acc : list (pyval * pyval))
  : scan :=
  match fuel with
  | O => NoFuel
  | S fuel' =>
      match s with
      | q :: r =>
          if q =? dquote then
            match scanstring r [] with
            | Some (k, rest) =>
                match skip_ws rest with
                | col :: r1 =>
                    if col =? cp ":" then
                      match scan_once fuel' (skip_ws r1) with
                      | Scanned v rest2 =>
                          let acc' := dict_set acc k v in
                          match skip_ws rest2 with
                          | c :: r3 =>
                              if c =? cp "}" then Scanned (PDict acc') r3
                              else if c =? cp ","
                              then parse_object fuel' (skip_ws r3) acc'
                              else Malformed
                          | [] => Malformed
                          end
                      | other => other
                      end
                    else Malformed
                | [] => Malformed
                end
            | None => Malformed
            end
          else Malformed
      | [] => Malformed
      end
  end.

(** [json.loads(s)] for a [str]: one value between optional white space. *)
Definition loads_str (s : pystr) : res pyval :=
  match scan_once (2 * List.length s + 1) (skip_ws s) with
  | Scanned v rest =>
      match skip_ws rest with
      | [] => Ok v
      | _ => Raise JSONDecodeError
      end
  | _ => Raise JSONDecodeError
  end.

(** What enough fuel guarantees of a scan: it does not run out, and a
    scanned value leaves a strictly shorter text. *)
Definition scan_ok (s : pystr) (r : scan) : Prop :=
  r <> NoFuel /\
  forall v rest, r = Scanned v rest -> (List.length rest < List.length s)%nat.

(** [json.loads(v)]: a [TypeError] for what is not text. *)
Definition loads (v : pyval) : res pyval :=
  match v with
  | PStr s => loads_str s
  | _ => Raise TypeError
  end.

(** *** [json.dumps]

    The encoder with its default options: ASCII output, [', '] and [': ']
    as separators, [NaN] and the infinities allowed, keys that are not
    [str], [int], [float], [bool] or [None] refused. *)

Definition hex_digit (n : N) : N := if n <? 10 then 48 + n else 87 + n.

(** [\uXXXX] with four lower-case hexadecimal digits. *)
Definition u_escape (c : N) : pystr :=
  [cp "\"; cp "u"; hex_digit (c / 4096 mod 16); hex_digit (c / 256 mod 16);
   hex_digit (c / 16 mod 16); hex_digit (c mod 16)].

Definition escape_char (c : N) : pystr :=
  if c =? dquote then [cp "\"; dquote]
  else if c =? cp "\" then [cp "\"; cp "\"]
  else if c =? 10 then [cp "\"; cp "n"]
  else if c =? 13 then [cp "\"; cp "r"]
  else if c =? 9 then [cp "\"; cp "t"]
  else if c =? 8 then [cp "\"; cp "b"]
  else if c =? 12 then [cp "\"; cp "f"]
  else if (32 <=? c) && (c <=? 126) then [c]
  else if c <? 65536 then u_escape c
  else
    let n := c - 65536 in
    (u_escape (55296 + (n / 1024) mod 1024) ++ u_escape (56320 + n mod 1024))%list.

Definition encode_str (s : pystr) : pystr :=
  (dquote :: flat_map escape_char s ++ [dquote])%list.

Definition float_str (R : Runtime) (f : float) : pystr :=
  match f with
  | S754_nan => txt "NaN"
  | S754_infinity false => txt "Infinity"
  | S754_infinity true => txt "-Infinity"
  | _ => repr_of R (PFloat f)
  end.

(** The text a dict key is written as. *)
Definition key_str (R : Runtime) (k : pyval) : res pystr :=
  match k with
  | PStr s => Ok s
  | PFloat f => Ok (float_str R f)
  | PBool true => Ok (txt "true")
  | PBool false => Ok (txt "false")
  | PNone => Ok (txt "null")
  | PInt z => Ok (str_of_int z)
  | _ => Raise TypeError
  end.

Fixpoint join (sep : pystr) (l : list pystr) : pystr :=
  match l with
  | [] => []
  | [x] => x
  | x :: l' => (x ++ sep ++ join sep l')%list
  end.

Section dumps.
Variable R : Runtime.
Local Open Scope py_scope.

Fixpoint dumps (v : pyval) : res pystr :=
  match v with
  | PNone => Ok (txt "null")
  | PBool true => Ok (txt "true")
  | PBool false => Ok (txt "false")
  | PInt z => Ok (str_of_int z)
  | PFloat f => Ok (float_str R f)
  | PStr s => Ok (encode_str s)
  | PList l | PTuple l =>
      items <- (fix elems (l : list pyval) : res (list pystr) :=
                  match l with
                  | [] => Ok []
                  | x :: l' =>
                      a <- dumps x ;; b <- elems l' ;; Ok (a :: b)
                  end) l ;;
      Ok (cp "[" :: join (txt ", ") items ++ [cp "]"])%list
  | PDict d =>
      items <- (fix members (d : list (pyval * pyval)) : res (list pystr) :=
                  match d with
                  | [] => Ok []
                  | kv :: d' =>
                      k <- key_str R (fst kv) ;;
                      a <- dumps (snd kv) ;;
                      b <- members d' ;;
                      Ok ((encode_str k ++ txt ": " ++ a)%list :: b)
                  end) d ;;
      Ok (cp "{" :: join (txt ", ") items ++ [cp "}"])%list
  | PUuid _ | PDate _ | PObj _ _ => Raise TypeError
  end.
End dumps.

End Json.

(** ** The world outside the repository *)

Module Env.
Import Py.

(** A [requests.Response]: the status line and the decoded body. *)
Record Response := {
  status_code : Z;
  text : pystr
}.

(** [resp.json()] *)
Definition resp_json (resp : Response) : res pyval :=
  Json.loads_str (text resp).

(** One call of [requests.post(url, json=..., headers=..., timeout=...)]. *)
Record HttpCall := {
  call_url : pystr;
  call_json : pyval;
  call_headers : pyval;
  call_timeout : pyval
}.

(** Rows of the database the submit view reads and writes. *)
Record Question := {
  question_id : pystr;
  question_title : pystr;
  question_spec : pyval;
  question_rubric : pyval
}.

Record Assignment := {
  assignment_id : pystr
}.

Record Submission := {
  submission_id : pystr;
  submission_assignment : Assignment;
  submission_question : Question;
  submission_answer : pyval;
  submission_file_url : pyval;
  submission_created_at : pystr
}.

Record Grade := {
  grade_id : pystr;
  grade_submission : Submission;
  grade_judge : pyval;
  grade_score : float
}.

Record World := {
  runtime : Runtime;
  (** [SONAR_API_KEY], read from the process environment when the module
      is loaded: Python's [None] or a text, possibly empty. *)
  SONAR_API_KEY : option pystr;
  (** [settings.DEBUG] *)
  DEBUG : bool;
  (** The endpoint: what [requests.post] returns or raises for a call. *)
  requests_post : HttpCall -> res Response;
  (** The clock: the milliseconds [ping] measures around a call. *)
  elapsed_ms : HttpCall -> Z;
  (** pandas: the number of rows [pd.read_csv] reads from a text, or the
      exception it raises. *)
  read_csv : pystr -> res nat;
  (** The database: [Assignment.objects.get(id=...)] and
      [Question.objects.get(id=...)]; the primary keys given to the next
      Submission and the next Grade; [timezone.now()] in ISO format. *)
  get_assignment : pyval -> res Assignment;
  get_question : pyval -> res Question;
  next_submission_id : pystr;
  next_grade_id : pystr;
  now_iso : pystr;
  (** The INSERT behind [Submission.objects.create] and
      [Grade.objects.create]: the database stores the row, or refuses it
      and the call raises (a JSON column takes no [NaN], for one). *)
  save_submission : Submission -> res unit;
  save_grade : Grade -> res unit;
  (** The storage service: [generate_signed_url(path, expires_in=300)]. *)
  generate_signed_url : pyval -> Z -> res pyval
}.

(** The same world with another pandas. *)
Definition with_read_csv (W : World) (rc : pystr -> res nat) : World :=
  {| runtime := runtime W;
     SONAR_API_KEY := SONAR_API_KEY W;
     DEBUG := DEBUG W;
     requests_post := requests_post W;
     elapsed_ms := elapsed_ms W;
     read_csv := rc;
     get_assignment := get_assignment W;
     get_question := get_question W;
     next_submission_id := next_submission_id W;
     next_grade_id := next_grade_id W;
     now_iso := now_iso W;
     save_submission := save_submission W;
     save_grade := save_grade W;
     generate_signed_url := generate_signed_url W |}.

(** A dict literal with [str] keys. *)
Definition dict_of (l : list (string * pyval)) : pyval :=
  PDict (map (fun kv => (PStr (txt (fst kv)), snd kv)) l).

End Env.

(** ** interviews/utils.py *)

Module utils.
Import Py.

(** Recursively convert UUIDs and datetimes to strings; the keys of a dict
    are kept as they are, a tuple becomes a list. *)
Fixpoint make_json_safe (obj : pyval) : pyval :=
  match obj with
  | PUuid u => PStr u
  | PDate iso => PStr iso
  | PDict d => PDict (map (fun kv => (fst kv, make_json_safe (snd kv))) d)
  | PList l | PTuple l => PList (map make_json_safe l)
  | _ => obj
  end.

(** No UUID, date or tuple is left where a value stands: at the top, as an
    element of a list, or as the value of a dict entry. *)
Fixpoint converted (obj : pyval) : bool :=
  match obj with
  | PUuid _ | PDate _ | PTuple _ => false
  | PList l => forallb converted l
  | PDict d => forallb (fun kv => converted (snd kv)) d
  | _ => true
  end.


Unset Elimination Schemes.
Set Elimination Schemes.

End utils.

(** ** interviews/services/runner.py *)

Module runner.
Import Py Env.
Local Open Scope string_scope.
Local Open Scope py_scope.

Definition contains_newline (s : pystr) : bool := existsb (N.eqb 10) s.

(** The body of the [try] block: the value of [passed] and the entries
    appended to [checks], or the exception that leaves the block. *)
Definition run_checks_try (W : World) (candidate_answer : pyval)
  : res (bool * list pyval) :=
  if truthy candidate_answer then
    match candidate_answer with
    | PStr s =>
        if contains_newline s then
          rows <- read_csv W s ;;
          let nonempty := (0 <? rows)%nat in
          Ok (nonempty,
              [dict_of [("name", PStr (txt "rows_present"));
                        ("passed", PBool nonempty);
                        ("rows", PInt (Z.of_nat rows))]])
        else
          Ok (true, [dict_of [("name", PStr (txt "non_empty_submission"));
                              ("passed", PBool true)]])
    | _ =>
        Ok (true, [dict_of [("name", PStr (txt "non_empty_submission"));
                            ("passed", PBool true)]])
    end
  else Ok (false, []).

Definition runner_result (passed : bool) (checks : list pyval) : pyval :=
  dict_of [("passed", PBool passed);
           ("checks", PList checks);
           ("score_runner", PFloat (if passed then f_100 else f_zero))].

(** The check entry the [except] clause appends. *)
Definition exception_check (W : World) (e : exn) : pyval :=
  dict_of [("name", PStr (txt "exception"));
           ("passed", PBool false);
           ("error", PStr (exn_str (runtime W) e))].

Definition run_checks (W : World) (spec candidate_answer : pyval) : res pyval :=
  match run_checks_try W candidate_answer with
  | Ok (passed, checks) => Ok (runner_result passed checks)
  | Raise e => Ok (runner_result false [exception_check W e])
  end.

End runner.

(** ** interviews/services/schemas.py *)

Module schemas.
Import Py.

(** The shape [JudgeResult] asks of a judge result: a [float] score, within
    0 and 100, and three lists. *)
Definition score_in_range (f : float) : bool := fle f_zero f && fle f f_100.

Definition judge_result_shape (r : pyval) : bool :=
  match r with
  | PDict d =>
      match dict_find d (txt "score"), dict_find d (txt "mistakes"),
            dict_find d (txt "improvements"), dict_find d (txt "citations")
      with
      | Some (PFloat f), Some m, Some i, Some c =>
          score_in_range f && is_list m && is_list i && is_list c
      | _, _, _, _ => false
      end
  | _ => false
  end.

End schemas.

(** ** interviews/services/sonar_reasoning.py *)

Module sonar_reasoning.
Import Py Env.
Local Open Scope string_scope.
Local Open Scope py_scope.

Definition API_URL : pystr := txt "https://api.perplexity.ai/chat/completions".
Definition MODEL : pystr := txt "sonar-reasoning".

(** [not SONAR_API_KEY] is false exactly for a non-empty text. *)
Definition has_api_key (W : World) : bool :=
  match SONAR_API_KEY W with
  | Some (_ :: _) => true
  | _ => false
  end.

Definition api_key_text (W : World) : pystr :=
  match SONAR_API_KEY W with
  | Some k => k
  | None => txt "None"
  end.

Definition headers (W : World) : pyval :=
  dict_of [("Authorization", PStr (txt "Bearer " ++ api_key_text W)%list);
           ("Content-Type", PStr (txt "application/json"))].

(** The chat-style location of the model's text: the [content] (or [text])
    of the [message] of the first of the [choices].  [None] when the
    function falls through to its last line. *)
Definition chat_content (data : pyval) : res (option pyval) :=
  if is_dict data then
    c <- py_get data (txt "choices") PNone ;;
    let choices := py_or c (PList []) in
    if truthy choices then
      first <- py_index0 choices ;;
      if is_dict first then
        m <- py_get first (txt "message") PNone ;;
        let message := py_or m (PDict []) in
        c1 <- py_get message (txt "content") PNone ;;
        content <- (if truthy c1 then Ok c1
                    else py_get message (txt "text") PNone) ;;
        if truthy content then Ok (Some content) else Ok None
      else Ok None
    else Ok None
  else Ok None.

Definition _extract_candidate_text (W : World) (resp : Response) : res pyval :=
  match resp_json resp with
  | Raise _ => Ok (py_or (PStr (text resp)) (PStr []))
  | Ok data =>
      found <- chat_content data ;;
      match found with
      | Some content => Ok content
      | None => s <- Json.dumps (runtime W) data ;; Ok (PStr s)
      end
  end.

(** [text.rfind('{')]: the index of the last opening brace. *)
Fixpoint rfind_brace (s : pystr) : option nat :=
  match s with
  | [] => None
  | c :: r =>
      match rfind_brace r with
      | Some i => Some (S i)
      | None => if N.eqb c (cp "{") then Some O else None
      end
  end.

(** The [for i, ch in enumerate(candidate)] loop, entered at index [i] with
    [rest = candidate[i:]]: the value the function returns from inside the
    loop, or [None] after a [break] or at the end of the text. *)
Fixpoint brace_scan (candidate rest : pystr) (i : nat) (depth : Z) : pyval :=
  match rest with
  | [] => PNone
  | ch :: rest' =>
      if N.eqb ch (cp "{") then brace_scan candidate rest' (S i) (depth + 1)
      else if N.eqb ch (cp "}") then
        let depth' := (depth - 1)%Z in
        if (depth' =? 0)%Z then
          match Json.loads_str (firstn (S i) candidate) with
          | Ok v => v
          | Raise _ => PNone
          end
        else brace_scan candidate rest' (S i) depth'
      else brace_scan candidate rest' (S i) depth
  end.

Definition _safe_parse_json (text : pyval) : res pyval :=
  if negb (truthy text) then Ok PNone
  else
    match Json.loads text with
    | Ok v => Ok v
    | Raise _ =>
        match text with
        | PStr s =>
            match rfind_brace s with
            | Some last_open =>
                let candidate := skipn last_open s in
                Ok (brace_scan candidate candidate 0 0)
            | None => Ok PNone
            end
        | _ => Raise AttributeError
        end
    end.

Definition system_prompt : pystr :=
  txt ("You are Sonar-reasoning. RETURN ONLY a single valid JSON object and nothing else. "
    ++ "The JSON must contain keys: score (number 0..100), verdict (string), mistakes (array), improvements (array), citations (array). "
    ++ "Do not include any commentary, analysis, or text outside the JSON. "
    ++ "If you cannot produce values for a key, return an empty array or empty string as appropriate.").

Definition nl : pystr := [10%N].

Definition user_prompt (question submission runner_result : pystr) : pystr :=
  (txt "Question:" ++ nl ++ question ++ nl ++ nl
   ++ txt "Submission:" ++ nl ++ submission ++ nl ++ nl
   ++ txt "Runner checks:" ++ nl ++ runner_result ++ nl ++ nl
   ++ txt "Return ONLY the JSON object with keys: score, verdict, mistakes, improvements, citations.")%list.

Definition judge_payload (user : pystr) : pyval :=
  dict_of [("model", PStr MODEL);
           ("temperature", PFloat f_zero);
           ("messages",
            PList [dict_of [("role", PStr (txt "system"));
                            ("content", PStr system_prompt)];
                   dict_of [("role", PStr (txt "user"));
                            ("content", PStr user)]])].

Definition judge_call (W : World) (user : pystr) : HttpCall :=
  {| call_url := API_URL;
     call_json := judge_payload user;
     call_headers := headers W;
     call_timeout := PInt 60 |}.

(** The three results the function builds when the judge is unavailable. *)
Definition no_api_key_result : pyval :=
  dict_of [("score", PFloat f_zero);
           ("verdict", PStr (txt "Sonar unavailable (no API key)"));
           ("mistakes", PList []);
           ("improvements",
            PList [PStr (txt "Sonar API key not configured on server.")]);
           ("citations", PList []);
           ("debug", dict_of [("reason", PStr (txt "no_api_key"))])].

Definition network_error_result (W : World) (e : exn) : pyval :=
  dict_of [("score", PFloat f_zero);
           ("verdict", PStr (txt "Sonar unavailable (network error)"));
           ("mistakes", PList []);
           ("improvements",
            PList [PStr (txt "network_error: " ++ exn_str (runtime W) e)%list]);
           ("citations", PList []);
           ("debug", dict_of [("exception", PStr (exn_str (runtime W) e))])].

Definition unparsable_result (status raw_excerpt : pyval) : pyval :=
  dict_of [("score", PFloat f_zero);
           ("verdict", PStr (txt "Sonar unavailable (unparsable response)"));
           ("mistakes", PList []);
           ("improvements",
            PList [PStr (txt "Sonar returned an unparsable response.")]);
           ("citations", PList []);
           ("debug", dict_of [("http_status", status);
                              ("raw_excerpt", raw_excerpt)])].

(** The excerpt of the [except] branch: the first 400 characters of the
    body followed by three dots, or the empty text for an empty body. *)
Definition fallback_excerpt (resp : Response) : pyval :=
  match text resp with
  | [] => PStr []
  | t => PStr (excerpt400 t)
  end.

(** The [try] block around the extraction: the binding of the local
    [candidate_text] ([None] while it is unbound) and [raw_excerpt]. *)
Definition extract_block (W : World) (resp : Response)
  : option pyval * pyval :=
  match _extract_candidate_text W resp with
  | Raise _ => (None, fallback_excerpt resp)
  | Ok candidate_text =>
      match (n <- py_len candidate_text ;;
             if (n >? 400)%Z then py_excerpt400 candidate_text
             else Ok candidate_text) with
      | Ok raw_excerpt => (Some candidate_text, raw_excerpt)
      | Raise _ => (Some candidate_text, fallback_excerpt resp)
      end
  end.

(** [float(score)] with [0.0] on any exception, then the clamp
    [max(0.0, min(100.0, score))]. *)
Definition clamp_score (W : World) (score : pyval) : float :=
  let score :=
    match py_float (runtime W) score with
    | Ok f => f
    | Raise _ => f_zero
    end in
  py_max f_zero (py_min f_100 score).

(** [if not isinstance(x, list): x = [str(x)]] *)
Definition ensure_list (W : World) (x : pyval) : pyval :=
  if is_list x then x else PList [PStr (py_str (runtime W) x)].

(** The normalisation of a parsed response into the expected fields. *)
Definition normalize (W : World) (parsed status raw_excerpt : pyval)
  : res pyval :=
  grade <- py_get parsed (txt "grade") (PInt 0) ;;
  score <- py_get parsed (txt "score") grade ;;
  summary <- py_get parsed (txt "summary") (PStr []) ;;
  verdict <- py_get parsed (txt "verdict") summary ;;
  let verdict := py_or verdict (PStr []) in
  errors <- py_get parsed (txt "errors") (PList []) ;;
  mistakes <- py_get parsed (txt "mistakes") errors ;;
  let mistakes := py_or mistakes (PList []) in
  advice <- py_get parsed (txt "advice") (PList []) ;;
  improvements <- py_get parsed (txt "improvements") advice ;;
  let improvements := py_or improvements (PList []) in
  citations <- py_get parsed (txt "citations") (PList []) ;;
  let citations := py_or citations (PList []) in
  let score := clamp_score W score in
  let mistakes := ensure_list W mistakes in
  let improvements := ensure_list W improvements in
  let citations := ensure_list W citations in
  let debug := dict_of [("http_status", status);
                        ("raw_excerpt", raw_excerpt)] in
  Ok (dict_of [("score", PFloat score);
               ("verdict", verdict);
               ("mistakes", mistakes);
               ("improvements", improvements);
               ("citations", citations);
               ("debug", debug)]).

(** What [judge_answer] does with the response of the endpoint. *)
Definition judge_response (W : World) (resp : Response) : res pyval :=
  let status := PInt (status_code resp) in
  let '(candidate_text, raw_excerpt) := extract_block W resp in
  match candidate_text with
  | None => Raise UnboundLocalError
  | Some candidate_text =>
      parsed <- _safe_parse_json candidate_text ;;
      if negb (truthy parsed) then Ok (unparsable_result status raw_excerpt)
      else normalize W parsed status raw_excerpt
  end.

(** The user prompt, with its three [json.dumps]. *)
Definition judge_prompt (W : World) (question submission runner_result : pyval)
  : res pystr :=
  q <- Json.dumps (runtime W) question ;;
  s <- Json.dumps (runtime W) submission ;;
  r <- Json.dumps (runtime W) runner_result ;;
  Ok (user_prompt q s r).

(** [judge_answer]: the calls made to the endpoint, and the returned dict
    or the exception that leaves the function. *)
Definition judge_answer (W : World) (question submission runner_result : pyval)
  : list HttpCall * res pyval :=
  if negb (has_api_key W) then ([], Ok no_api_key_result)
  else
    match judge_prompt W question submission runner_result with
    | Raise e => ([], Raise e)
    | Ok user =>
        let call := judge_call W user in
        match requests_post W call with
        | Raise e => ([call], Ok (network_error_result W e))
        | Ok resp => ([call], judge_response W resp)
        end
    end.

(** *** The health check *)

Definition ping_system_prompt : pystr :=
  txtq "You are a diagnostic helper. Reply quickly with the single JSON: {'ok': true} (no extra text).".

Definition ping_call (W : World) (timeout : pyval) : HttpCall :=
  {| call_url := API_URL;
     call_json :=
       dict_of [("model", PStr MODEL);
                ("temperature", PFloat f_zero);
                ("messages",
                 PList [dict_of [("role", PStr (txt "system"));
                                 ("content", PStr ping_system_prompt)];
                        dict_of [("role", PStr (txt "user"));
                                 ("content", PStr (txt "health-check"))]]);
                ("max_tokens", PInt 8)];
     call_headers := headers W;
     call_timeout := timeout |}.

(** [ping]: the function opens with [info.pop('raw_excerpt', None)] under
    [if not settings.DEBUG], at a point where the local [info] is not yet
    bound. *)
Definition ping (W : World) (timeout : pyval)
  : list HttpCall * res (bool * pyval) :=
  if negb (DEBUG W) then ([], Raise UnboundLocalError)
  else if negb (has_api_key W) then
    ([], Ok (false, dict_of [("error", PStr (txt "no_api_key"))]))
  else
    let call := ping_call W timeout in
    match requests_post W call with
    | Raise e =>
        ([call],
         Ok (false, dict_of [("exception", PStr (exn_str (runtime W) e));
                             ("time_ms", PInt (elapsed_ms W call))]))
    | Ok resp =>
        let status := status_code resp in
        let excerpt :=
          if (400 <? List.length (text resp))%nat then excerpt400 (text resp)
          else text resp in
        let parsed :=
          match resp_json resp with
          | Ok v => v
          | Raise _ => PNone
          end in
        let ok :=
          (200 <=? status)%Z && (status <? 300)%Z && negb (is_none parsed) in
        ([call],
         Ok (ok, dict_of [("http_status", PInt status);
                          ("time_ms", PInt (elapsed_ms W call));
                          ("parsed", PBool (truthy parsed));
                          ("raw_excerpt", PStr excerpt)]))
    end.

End sonar_reasoning.

(** ** interviews/views_candidate.py *)

Module views_candidate.
Import Py Env.
Local Open Scope string_scope.
Local Open Scope py_scope.

(** A POST request: its body as text, [None] when the bytes of the body
    are not valid UTF-8. *)
Record Request := {
  body : option pystr
}.

Inductive HttpResponse :=
| HttpResponseBadRequest (message : pystr)
| JsonResponse (data : pyval).

(** What one call of the view leaves behind: the rows it stored (the view
    runs outside a transaction, so a row stored before an exception
    stays), the calls it made to the endpoint, and the response it returns
    or the exception that leaves it. *)
Record Outcome := {
  created_submission : option Submission;
  created_grade : option Grade;
  http_calls : list HttpCall;
  returned : res HttpResponse
}.

Definition no_effect (r : res HttpResponse) : Outcome :=
  {| created_submission := None; created_grade := None;
     http_calls := []; returned := r |}.

(** [json.loads(request.body.decode('utf-8'))] *)
Definition parse_body (request : Request) : res pyval :=
  match body request with
  | None => Raise UnicodeDecodeError
  | Some t => Json.loads_str t
  end.

(** The two lookups under
    [except (Assignment.DoesNotExist, Question.DoesNotExist)]. *)
Definition lookup (W : World) (assignment_id question_id : pyval)
  : res (Assignment * Question) :=
  assignment <- get_assignment W assignment_id ;;
  question <- get_question W question_id ;;
  Ok (assignment, question).

Definition question_payload (question : Question) : pyval :=
  utils.make_json_safe
    (dict_of [("id", PUuid (question_id question));
              ("title", PStr (question_title question));
              ("spec", py_or (question_spec question) (PDict []));
              ("rubric", py_or (question_rubric question) (PDict []))]).

(** The signed URL handed to the judge: asked from the storage service when
    the submission has a file, the stored URL when the service fails. *)
Definition sonar_file_url (W : World) (submission : Submission) : pyval :=
  if truthy (submission_file_url submission) then
    match generate_signed_url W (submission_file_url submission) 300 with
    | Ok u => u
    | Raise _ => submission_file_url submission
    end
  else PNone.

Definition submission_payload (W : World) (submission : Submission) : pyval :=
  utils.make_json_safe
    (dict_of [("submission_id", PUuid (submission_id submission));
              ("answer", submission_answer submission);
              ("file_url", py_or (sonar_file_url W submission)
                                 (submission_file_url submission));
              ("created_at", PDate (submission_created_at submission))]).

(** The dict the view falls back to when [judge_answer] raises. *)
Definition judge_error_result (W : World) (e : exn) : pyval :=
  dict_of [("score", PInt 0);
           ("verdict", PStr (txt "error"));
           ("mistakes", PList []);
           ("improvements",
            PList [PStr (txt "judge_error: " ++ exn_str (runtime W) e)%list]);
           ("citations", PList [])].

(** The judging step: the judge is called with [None] as runner result. *)
Definition call_judge (W : World) (question : Question) (submission : Submission)
  : list HttpCall * pyval :=
  let '(calls, r) :=
    sonar_reasoning.judge_answer W (question_payload question)
      (submission_payload W submission) PNone in
  match r with
  | Ok judge_result => (calls, judge_result)
  | Raise e => (calls, judge_error_result W e)
  end.

(** [float(safe_judge.get('score', 0) or 0)] *)
Definition final_score (W : World) (safe_judge : pyval) : res float :=
  s <- py_get safe_judge (txt "score") (PInt 0) ;;
  py_float (runtime W) (py_or s (PInt 0)).

(** [response['judge'].pop('debug', None)] outside a debugging context. *)
Definition strip_debug (W : World) (judge : pyval) : pyval :=
  match judge with
  | PDict d => if negb (DEBUG W) then PDict (dict_pop d (txt "debug")) else judge
  | _ => judge
  end.

Definition submit_answer (W : World) (request : Request) : Outcome :=
  match parse_body request with
  | Raise _ => no_effect (Ok (HttpResponseBadRequest (txt "Invalid JSON")))
  | Ok payload =>
  match (a <- py_get payload (txt "assignment_id") PNone ;;
         q <- py_get payload (txt "question_id") PNone ;;
         ans <- py_get payload (txt "answer") PNone ;;
         f <- py_get payload (txt "file_url") PNone ;;
         Ok (a, q, ans, f)) with
  | Raise e => no_effect (Raise e)
  | Ok (assignment_id, question_id, answer, file_url) =>
  if negb (truthy assignment_id && truthy question_id) then
    no_effect (Ok (HttpResponseBadRequest
                     (txt "assignment_id and question_id required")))
  else
  match lookup W assignment_id question_id with
  | Raise DoesNotExist =>
      no_effect (Ok (HttpResponseBadRequest
                       (txt "Invalid assignment or question id")))
  | Raise e => no_effect (Raise e)
  | Ok (assignment, question) =>
  let submission :=
    {| submission_id := next_submission_id W;
       submission_assignment := assignment;
       submission_question := question;
       submission_answer := if is_none answer then PDict [] else answer;
       submission_file_url := py_or file_url PNone;
       submission_created_at := now_iso W |} in
  match save_submission W submission with
  | Raise e => no_effect (Raise e)
  | Ok _ =>
  let '(calls, judge_result) := call_judge W question submission in
  let safe_judge := utils.make_json_safe judge_result in
  match final_score W safe_judge with
  | Raise e =>
      {| created_submission := Some submission; created_grade := None;
         http_calls := calls; returned := Raise e |}
  | Ok score =>
  let grade :=
    {| grade_id := next_grade_id W;
       grade_submission := submission;
       grade_judge := safe_judge;
       grade_score := score |} in
  match save_grade W grade with
  | Raise e =>
      {| created_submission := Some submission; created_grade := None;
         http_calls := calls; returned := Raise e |}
  | Ok _ =>
  let response :=
    dict_of [("ok", PBool true);
             ("submission_id", PStr (submission_id submission));
             ("grade_id", PStr (grade_id grade));
             ("score", PFloat score);
             ("runner", PNone);
             ("judge", strip_debug W safe_judge);
             ("file_url", submission_file_url submission)] in
  {| created_submission := Some submission; created_grade := Some grade;
     http_calls := calls; returned := Ok (JsonResponse response) |}
  end end end end end end.

(** The evaluation flow as the specification describes it: the runner is
    run on the submitted answer and its result is the [runner] field of the
    grading response. *)
Definition runner_result_reported (W : World) (request : Request) : Prop :=
  forall submission grade calls response,
    submit_answer W request =
      {| created_submission := Some submission; created_grade := Some grade;
         http_calls := calls; returned := Ok (JsonResponse response) |} ->
    exists r,
      runner.run_checks W (question_spec (submission_question submission))
        (submission_answer submission) = Ok r /\
      py_get response (txt "runner") PNone = Ok r.

End views_candidate.

(** ** Sample worlds

    Concrete worlds for the examples.  The interpreter of the samples is a
    stub: no example depends on the text [repr_of] gives, and none reaches
    [float_of_text] or [exn_text].  The database of the samples holds one
    assignment and one question, and its JSON columns refuse [NaN] and the
    infinities. *)

Module samples.
Import Py Env.
Local Open Scope string_scope.

Definition stub_runtime : Runtime :=
  {| repr_of := fun _ => txt "<repr>";
     float_of_text := fun _ => Raise ValueError;
     exn_text := fun _ => txt "<exception>" |}.

(** An endpoint that cannot be reached. *)
Definition endpoint_down : HttpCall -> res Response :=
  fun _ => Raise (External (txt "ConnectTimeout") (txt "timed out")).

(** An endpoint that answers every call with one status and one body. *)
Definition endpoint_replying (status : Z) (body : pystr)
  : HttpCall -> res Response :=
  fun _ => Ok {| status_code := status; text := body |}.

Definition sample_assignment : Assignment :=
  {| assignment_id := txt "0a000000-0000-4000-8000-000000000001" |}.

Definition sample_question : Question :=
  {| question_id := txt "0b000000-0000-4000-8000-000000000002";
     question_title := txt "VLOOKUP";
     question_spec := dict_of [("prompt", PStr (txt "Explain VLOOKUP"))];
     question_rubric := PDict [] |}.

(** The canonical text of a UUID: hexadecimal digits in groups of 8, 4, 4,
    4 and 12, with a hyphen between two groups. *)
Definition is_hex (c : N) : bool :=
  ((48 <=? c) && (c <=? 57) || (97 <=? c) && (c <=? 102)
   || (65 <=? c) && (c <=? 70))%N.

Definition lower_hex (c : N) : N :=
  if ((65 <=? c) && (c <=? 70))%N then (c + 32)%N else c.

Fixpoint uuid_chars (i : nat) (s : pystr) : bool :=
  match s with
  | [] => Nat.eqb i 36
  | c :: r =>
      (if Nat.eqb i 8 || Nat.eqb i 13 || Nat.eqb i 18 || Nat.eqb i 23
       then N.eqb c 45 else is_hex c)
      && uuid_chars (S i) r
  end.

Definition canonical_uuid (s : pystr) : bool := uuid_chars 0 s.

(** A table with one row, queried by primary key as the view does, with
    the canonical text of a UUID: the row, or [DoesNotExist].  Any other
    value is refused here with the [ValidationError] the [UUIDField]
    raises for a value that is no UUID; the examples use no other
    spelling of an id. *)
Definition find_row {A : Type} (id : pystr) (row : A) (v : pyval) : res A :=
  match v with
  | PStr s =>
      if canonical_uuid s then
        if pystr_eqb (map lower_hex s) id then Ok row else Raise DoesNotExist
      else Raise (External (txt "ValidationError") (txt "is not a valid UUID."))
  | _ => Raise (External (txt "ValidationError") (txt "is not a valid UUID."))
  end.

(** No [NaN] and no infinity in a value. *)
Fixpoint finite_json (v : pyval) : bool :=
  match v with
  | PFloat (S754_nan) | PFloat (S754_infinity _) => false
  | PList l | PTuple l => forallb finite_json l
  | PDict d => forallb (fun kv => finite_json (snd kv)) d
  | _ => true
  end.

(** A JSON column: the value is serialised by [json.dumps], and the
    database refuses a text that is not JSON, as the tokens [NaN] and
    [Infinity] make it. *)
Definition json_column (v : pyval) : res unit :=
  match Json.dumps stub_runtime v with
  | Raise e => Raise e
  | Ok _ =>
      if finite_json v then Ok tt
      else Raise (External (txt "IntegrityError")
                    (txt "CHECK constraint failed: JSON_VALID"))
  end.

Definition world (key : option pystr) (debug : bool)
    (endpoint : HttpCall -> res Response) : World :=
  {| runtime := stub_runtime;
     SONAR_API_KEY := key;
     DEBUG := debug;
     requests_post := endpoint;
     elapsed_ms := fun _ => 12%Z;
     read_csv := fun _ => Ok 3%nat;   (* every table has three rows *)
     get_assignment :=
       find_row (assignment_id sample_assignment) sample_assignment;
     get_question := find_row (question_id sample_question) sample_question;
     next_submission_id := txt "0c000000-0000-4000-8000-000000000003";
     next_grade_id := txt "0d000000-0000-4000-8000-000000000004";
     now_iso := txt "2025-01-01T00:00:00+00:00";
     save_submission := fun s => json_column (submission_answer s);
     save_grade := fun g => json_column (grade_judge g);
     generate_signed_url := fun u _ => Ok u |}.

Definition some_key : option pystr := Some (txt "k").

(** A pandas that rejects every text. *)
Definition csv_error : pystr -> res nat :=
  fun _ => Raise (External (txt "ParserError") (txt "Error tokenizing data")).

(** The chat envelope around a text [content] that needs no escaping. *)
Definition chat_body (content : pystr) : pystr :=
  (txtq "{'choices': [{'message': {'content': '" ++ content ++ txtq "'}}]}")%list.

(** A reply whose text wraps, in prose, an object that uses the alias keys,
    an out-of-range grade and a bare string for the mistakes. *)
Definition alias_reply : pystr :=
  chat_body (txtq "Sure: {\'grade\': 250, \'errors\': \'typo\'} done").

(** A table of one header line and three rows. *)
Definition csv_text : pystr :=
  (txt "a,b" ++ [10%N] ++ txt "1,2" ++ [10%N] ++ txt "3,4" ++ [10%N]
   ++ txt "5,6")%list.

(** The body of a request for the sample assignment and question. *)
Definition submit_body (answer : pystr) : pystr :=
  (txtq "{'assignment_id': '0a000000-0000-4000-8000-000000000001', "
   ++ txtq "'question_id': '0b000000-0000-4000-8000-000000000002', "
   ++ txtq "'answer': " ++ answer ++ txt "}")%list.

Definition submit_request : views_candidate.Request :=
  {| views_candidate.body := Some (submit_body (txtq "'x'")) |}.

(** The same request with [NaN] as answer. *)
Definition nan_request : views_candidate.Request :=
  {| views_candidate.body := Some (submit_body (txt "NaN")) |}.

(** The same request with ids that are not UUIDs. *)
Definition bad_id_request : views_candidate.Request :=
  {| views_candidate.body :=
       Some (txtq "{'assignment_id': 'a', 'question_id': 'q', 'answer': 'x'}") |}.

(** A reply of the judge with a [NaN] among the mistakes. *)
Definition nan_reply : pystr :=
  chat_body (txtq "{\'score\': 50, \'mistakes\': [NaN]}").

End samples.

(** ** Values of JSON documents *)

Module json_values.
Import Py.

(** The values a JSON document denotes: [None], booleans, numbers, text,
    lists of such values and dicts from text to such values. *)
Fixpoint jsonish (v : pyval) : bool :=
  match v with
  | PNone | PBool _ | PInt _ | PFloat _ | PStr _ => true
  | PList l => forallb jsonish l
  | PDict d =>
      forallb (fun kv => match fst kv with
                         | PStr _ => jsonish (snd kv)
                         | _ => false
                         end) d
  | PTuple _ | PUuid _ | PDate _ | PObj _ _ => false
  end.

(** The keys [json.dumps] accepts in a dict. *)
Definition dumpable_key (k : pyval) : bool :=
  match k with
  | PStr _ | PInt _ | PFloat _ | PBool _ | PNone => true
  | _ => false
  end.

(** No object of another class where a value stands, and only keys
    [json.dumps] accepts. *)
Fixpoint plain (v : pyval) : bool :=
  match v with
  | PObj _ _ => false
  | PList l | PTuple l => forallb plain l
  | PDict d => forallb (fun kv => dumpable_key (fst kv) && plain (snd kv)) d
  | _ => true
  end.

(** The entries of a dict of a JSON document: text keys, JSON values. *)
Definition members_ok (d : list (pyval * pyval)) : bool :=
  forallb (fun kv => match fst kv with
                     | PStr _ => jsonish (snd kv)
                     | _ => false
                     end) d.

End json_values.

(** ** interviews/services/pplx.py *)

Module pplx.
Import Py Env.
Local Open Scope string_scope.
Local Open Scope py_scope.

(** What the question generator needs beyond the world of the judge: its
    own credential, [int()] on text, and the message of the [HTTPError]
    that [raise_for_status] builds for a response. *)
Record PplxWorld := {
  world : World;
  PPLX_API_KEY : option pystr;
  int_of_text : pystr -> res Z;
  http_error_text : Response -> pystr
}.

Definition API_URL : pystr := txt "https://api.perplexity.ai/chat/completions".
Definition MODEL : pystr := txt "sonar-pro".

Definition has_api_key (E : PplxWorld) : bool :=
  match PPLX_API_KEY E with
  | Some (_ :: _) => true
  | _ => false
  end.

Definition api_key_text (E : PplxWorld) : pystr :=
  match PPLX_API_KEY E with
  | Some k => k
  | None => txt "None"
  end.

(** The character class of the pattern as the [re] module reads it: in the
    raw string the backslashes are doubled, so the class holds the
    backslash and the letters [s] and [S]. *)
Definition in_class (c : N) : bool :=
  N.eqb c (cp "\") || N.eqb c (cp "s") || N.eqb c (cp "S").

(** The longest run of characters of the class, and what follows it. *)
Fixpoint class_run (s : pystr) : pystr * pystr :=
  match s with
  | c :: r =>
      if in_class c then let (run, rest) := class_run r in (c :: run, rest)
      else ([], s)
  | [] => ([], [])
  end.

(** [re.search] of the pattern in a text: group 1 of the leftmost match,
    an opening brace, a run of the class and a closing brace.  The star is
    greedy, and giving back characters of the run cannot help: the class
    does not hold the closing brace. *)
Fixpoint re_search (s : pystr) : option pystr :=
  match s with
  | [] => None
  | c :: r =>
      if N.eqb c (cp "{") then
        let (run, rest) := class_run r in
        match rest with
        | x :: _ =>
            if N.eqb x (cp "}") then Some (c :: run ++ [x])%list
            else re_search r
        | [] => re_search r
        end
      else re_search r
  end.

Definition _safe_parse_json (text : pyval) : res pyval :=
  match Json.loads text with
  | Ok v => Ok v
  | Raise _ =>
      match text with
      | PStr s =>
          match re_search s with
          | Some group =>
              match Json.loads_str group with
              | Ok v => Ok v
              | Raise _ => Ok PNone
              end
          | None => Ok PNone
          end
      | _ => Raise TypeError
      end
  end.

(** [int(f)] for a float: truncation towards zero. *)
Definition int_of_float (f : float) : res Z :=
  match f with
  | S754_zero _ => Ok 0%Z
  | S754_nan => Raise ValueError
  | S754_infinity _ => Raise OverflowError
  | S754_finite s m e =>
      let a := if (0 <=? e)%Z then (Zpos m * 2 ^ e)%Z
               else (Zpos m / 2 ^ (- e))%Z in
      Ok (if s then (- a)%Z else a)
  end.

(** [int(v)] *)
Definition py_int (E : PplxWorld) (v : pyval) : res Z :=
  match v with
  | PInt z => Ok z
  | PBool b => Ok (if b then 1%Z else 0%Z)
  | PFloat f => int_of_float f
  | PStr s => int_of_text E s
  | _ => Raise TypeError
  end.

(** [resp.raise_for_status()] *)
Definition raise_for_status (E : PplxWorld) (resp : Response) : res unit :=
  if ((400 <=? status_code resp) && (status_code resp <? 600))%Z
  then Raise (External (txt "HTTPError") (http_error_text E resp))
  else Ok tt.

Definition key_points : pyval :=
  dict_of [("key_points",
            PList [PStr (txt "lookup mechanics"); PStr (txt "limitations");
                   PStr (txt "alternatives")])].

Definition ideal_answer_stub : pystr :=
  txt "VLOOKUP retrieves values vertically; INDEX/MATCH is more flexible.".

(** The stub returned without a credential. *)
Definition stub_question (admin_prompt : pystr) : pyval :=
  dict_of [("type", PStr (txt "theory"));
           ("title", PStr (txt "VLOOKUP concept (stub)"));
           ("spec", dict_of [("prompt", PStr admin_prompt)]);
           ("rubric", key_points);
           ("ideal_answer", PStr ideal_answer_stub);
           ("version", PInt 1)].

(** The defaults returned when nothing could be parsed. *)
Definition default_question (admin_prompt : pystr) : pyval :=
  dict_of [("type", PStr (txt "theory"));
           ("title", PStr (txt "Generated: " ++ firstn 40 admin_prompt)%list);
           ("spec", dict_of [("prompt", PStr admin_prompt)]);
           ("rubric", PDict []);
           ("ideal_answer", PStr []);
           ("version", PInt 1)].

(** The stub of the [except] clause, with the text of the exception. *)
Definition fallback_question (E : PplxWorld) (admin_prompt : pystr) (e : exn)
  : pyval :=
  dict_of [("type", PStr (txt "theory"));
           ("title", PStr (txt "VLOOKUP concept (fallback)"));
           ("spec", dict_of [("prompt", PStr admin_prompt);
                             ("error", PStr (exn_str (runtime (world E)) e))]);
           ("rubric", key_points);
           ("ideal_answer", PStr ideal_answer_stub);
           ("version", PInt 1)].

Definition system : pystr :=
  (txt "You are Sonar-pro, a question generator for Excel interviews. "
   ++ txt "Return only valid JSON in the response body with these fields: "
   ++ txtq "{'type':'theory'|'practical','title':str,'spec':object,'rubric':object,'ideal_answer':str,'version':int}."
   ++ txt "If you cannot produce a dataset for practical Q, set spec.dataset to null.")%list.

Definition generate_call (E : PplxWorld) (admin_prompt : pystr) : HttpCall :=
  {| call_url := API_URL;
     call_json :=
       dict_of [("model", PStr MODEL);
                ("temperature", PFloat (float_of_decimal false 2 (-1)));
                ("messages",
                 PList [dict_of [("role", PStr (txt "system"));
                                 ("content", PStr system)];
                        dict_of [("role", PStr (txt "user"));
                                 ("content", PStr admin_prompt)]])];
     call_headers :=
       dict_of [("Authorization",
                 PStr (txt "Bearer " ++ api_key_text E)%list);
                ("Content-Type", PStr (txt "application/json"))];
     call_timeout := PInt 60 |}.

(** The [content] the function looks for in the chat envelope, [None]
    when there is none. *)
Definition chat_content (data : pyval) : res pyval :=
  if is_dict data then
    c <- py_get data (txt "choices") PNone ;;
    let choices := py_or c (PList []) in
    if truthy choices then
      first <- py_index0 choices ;;
      if is_dict first then
        m <- py_get first (txt "message") PNone ;;
        let message := py_or m (PDict []) in
        c1 <- py_get message (txt "content") PNone ;;
        c2 <- (if truthy c1 then Ok c1
               else py_get message (txt "text") PNone) ;;
        Ok (py_or c2 PNone)
      else Ok PNone
    else Ok PNone
  else Ok PNone.

(** The normalisation of the parsed fields. *)
Definition normalize_question (E : PplxWorld) (admin_prompt : pystr)
    (parsed : pyval) : res pyval :=
  type <- py_get parsed (txt "type") (PStr (txt "theory")) ;;
  name <- py_get parsed (txt "name") (PStr (txt "Untitled Question")) ;;
  title <- py_get parsed (txt "title") name ;;
  prompt <- py_get parsed (txt "prompt")
              (dict_of [("prompt", PStr admin_prompt)]) ;;
  spec <- py_get parsed (txt "spec") prompt ;;
  rubric <- py_get parsed (txt "rubric") (PDict []) ;;
  answer <- py_get parsed (txt "answer") (PStr []) ;;
  ideal_answer <- py_get parsed (txt "ideal_answer") answer ;;
  v <- py_get parsed (txt "version") (PInt 1) ;;
  version <- py_int E v ;;
  Ok (dict_of [("type", type);
               ("title", title);
               ("spec", spec);
               ("rubric", rubric);
               ("ideal_answer", ideal_answer);
               ("version", PInt version)]).

(** The [try] block, from the response on. *)
Definition generate_try (E : PplxWorld) (admin_prompt : pystr)
    (resp : Response) : res pyval :=
  _ <- raise_for_status E resp ;;
  data <- resp_json resp ;;
  content <- chat_content data ;;
  parsed <- (if truthy content then _safe_parse_json content else Ok PNone) ;;
  parsed <- (if negb (truthy parsed)
             then (if is_dict data then py_get data (txt "metadata") PNone
                   else Ok PNone)
             else Ok parsed) ;;
  if negb (truthy parsed) then Ok (default_question admin_prompt)
  else normalize_question E admin_prompt parsed.

(** [generate_question]: the calls made to the endpoint and the dict
    returned. *)
Definition generate_question (E : PplxWorld) (admin_prompt : pystr)
  : list HttpCall * res pyval :=
  if negb (has_api_key E) then ([], Ok (stub_question admin_prompt))
  else
    let call := generate_call E admin_prompt in
    match requests_post (world E) call with
    | Raise e => ([call], Ok (fallback_question E admin_prompt e))
    | Ok resp =>
        match generate_try E admin_prompt resp with
        | Ok r => ([call], Ok r)
        | Raise e => ([call], Ok (fallback_question E admin_prompt e))
        end
    end.

(** The shape of a generated question: the six keys, with an [int] as
    version. *)
Definition question_shape (r : pyval) : bool :=
  match r with
  | PDict d =>
      match dict_find d (txt "type"), dict_find d (txt "title"),
            dict_find d (txt "spec"), dict_find d (txt "rubric"),
            dict_find d (txt "ideal_answer"), dict_find d (txt "version")
      with
      | Some _, Some _, Some _, Some _, Some _, Some (PInt _) => true
      | _, _, _, _, _, _ => false
      end
  | _ => false
  end.

End pplx.

(** ** interviews/views_admin.py *)

Module views_admin.
Import Py Env.
Local Open Scope string_scope.

(** The user of a request, as [staff_member_required] looks at it. *)
Record User := {
  is_active : bool;
  is_staff : bool
}.

Inductive AdminResponse :=
| RedirectToLogin
| JsonResponse (data : pyval).

(** [sonar_health]: the decorator sends anyone who is not an active staff
    member to the login page; the view calls [ping()] with its default
    timeout. *)
Definition sonar_health (W : World) (user : User)
  : list HttpCall * res AdminResponse :=
  if is_active user && is_staff user then
    match sonar_reasoning.ping W (PInt 8) with
    | (calls, Ok (ok, info)) =>
        (calls, Ok (JsonResponse (dict_of [("ok", PBool ok); ("info", info)])))
    | (calls, Raise e) => (calls, Raise e)
    end
  else ([], Ok RedirectToLogin).

End views_admin.

(** ** interviews/views_reports.py *)

Module views_reports.
Import Py Env.
Local Open Scope string_scope.

Record Candidate := {
  candidate_id : Z;
  candidate_name : pystr;
  candidate_email : pystr
}.

Record Pack := {
  pack_id : Z;
  pack_name : pystr
}.

(** An assignment with the rows it points to. *)
Record AssignmentRow := {
  row_id : pystr;
  row_candidate : Candidate;
  row_pack : Pack
}.

(** The queries of the report view: the assignment of an id, its
    submissions in the order of [created_at], the first grade of a
    submission, and the average the database computes over the grades of
    those submissions ([None] when there is none). *)
Record ReportDb := {
  find_assignment : pyval -> res AssignmentRow;
  submissions_of : AssignmentRow -> list Submission;
  first_grade : Submission -> option Grade;
  average_score : AssignmentRow -> pyval
}.

Inductive ReportResponse :=
| HttpResponseNotAllowed
| HttpResponseBadRequest (message : pystr)
| JsonResponse (data : pyval).

(** One turn of the loop over the submissions.  The model [Grade] has no
    attribute [runner] (the field is commented out in models.py), so
    reading [grade.runner] raises. *)
Definition submission_entry (D : ReportDb) (sub : Submission) : res pyval :=
  match first_grade D sub with
  | Some grade => Raise AttributeError
  | None =>
      Ok (dict_of [("submission_id", PUuid (submission_id sub));
                   ("question_id",
                    PUuid (question_id (submission_question sub)));
                   ("question_title",
                    PStr (question_title (submission_question sub)));
                   ("answer", submission_answer sub);
                   ("score", PNone);
                   ("runner", PNone);
                   ("judge", PNone);
                   ("created_at", PStr (submission_created_at sub))])
  end.

Fixpoint submissions_out (D : ReportDb) (subs : list Submission)
  : res (list pyval) :=
  match subs with
  | [] => Ok []
  | sub :: subs' =>
      match submission_entry D sub with
      | Raise e => Raise e
      | Ok entry =>
          match submissions_out D subs' with
          | Raise e => Raise e
          | Ok entries => Ok (entry :: entries)
          end
      end
  end.

Definition assignment_report (D : ReportDb) (is_get : bool)
    (assignment_id : pyval) : res ReportResponse :=
  if negb is_get then Ok HttpResponseNotAllowed
  else
    match find_assignment D assignment_id with
    | Raise DoesNotExist =>
        Ok (HttpResponseBadRequest (txt "Invalid assignment id"))
    | Raise e => Raise e
    | Ok assignment =>
        let avg_score := py_or (average_score D assignment) (PFloat f_zero) in
        match submissions_out D (submissions_of D assignment) with
        | Raise e => Raise e
        | Ok entries =>
            Ok (JsonResponse
                  (dict_of
                     [("ok", PBool true);
                      ("assignment_id", PUuid (row_id assignment));
                      ("candidate",
                       dict_of
                         [("id", PInt (candidate_id (row_candidate assignment)));
                          ("name", PStr (candidate_name (row_candidate assignment)));
                          ("email", PStr (candidate_email (row_candidate assignment)))]);
                      ("pack",
                       dict_of
                         [("id", PInt (pack_id (row_pack assignment)));
                          ("name", PStr (pack_name (row_pack assignment)))]);
                      ("average_score", avg_score);
                      ("submissions", PList entries)]))
        end
    end.

End views_reports.

(** ** The submit view, piece by piece *)

Module submission_flow.
Import Py Env.
Local Open Scope string_scope.

(** [payload.get(k)] for the payload of a request. *)
Definition payload_field (d : list (pyval * pyval)) (k : string) : pyval :=
  match dict_find d (txt k) with
  | Some v => v
  | None => PNone
  end.

(** The row [Submission.objects.create] makes of a payload. *)
Definition new_submission (W : World) (assignment : Assignment)
    (question : Question) (d : list (pyval * pyval)) : Submission :=
  {| submission_id := next_submission_id W;
     submission_assignment := assignment;
     submission_question := question;
     submission_answer :=
       if is_none (payload_field d "answer") then PDict []
       else payload_field d "answer";
     submission_file_url := py_or (payload_field d "file_url") PNone;
     submission_created_at := now_iso W |}.

(** The row [Grade.objects.create] makes. *)
Definition new_grade (W : World) (submission : Submission)
    (judge_result : pyval) (score : float) : Grade :=
  {| grade_id := next_grade_id W;
     grade_submission := submission;
     grade_judge := utils.make_json_safe judge_result;
     grade_score := score |}.

(** The grading response for a Submission and its Grade. *)
Definition grading_response (W : World) (submission : Submission)
    (grade : Grade) : pyval :=
  dict_of [("ok", PBool true);
           ("submission_id", PStr (submission_id submission));
           ("grade_id", PStr (grade_id grade));
           ("score", PFloat (grade_score grade));
           ("runner", PNone);
           ("judge", views_candidate.strip_debug W (grade_judge grade));
           ("file_url", submission_file_url submission)].

(** What the view makes of the judge: the judge's result, six keys with a
    score in range that is not the negative zero, or the dict of the
    [except] clause. *)
Inductive judged_form : pyval -> Prop :=
| judged_result f verdict m i c debug :
    schemas.score_in_range f = true ->
    f <> S754_zero true ->
    judged_form
      (dict_of [("score", PFloat f); ("verdict", verdict); ("mistakes", m);
                ("improvements", i); ("citations", c); ("debug", debug)])
| judged_error improvements :
    judged_form
      (dict_of [("score", PInt 0); ("verdict", PStr (txt "error"));
                ("mistakes", PList []); ("improvements", improvements);
                ("citations", PList [])]).

End submission_flow.

(** ** More sample worlds *)

Module samples_more.
Import Py Env.
Local Open Scope string_scope.

(** A world for the question generator, on top of a sample world with the
    given endpoint.  [int()] on text is a stub no example reaches. *)
Definition pplx_world (key : option pystr)
    (endpoint : HttpCall -> res Response) : pplx.PplxWorld :=
  {| pplx.world := samples.world None true endpoint;
     pplx.PPLX_API_KEY := key;
     pplx.int_of_text := fun _ => Raise ValueError;
     pplx.http_error_text := fun _ => txt "500 Server Error" |}.

(** A reply whose text wraps an object in prose. *)
Definition prose_reply : pystr :=
  samples.chat_body (txtq "Here it is: {\'type\': \'practical\'} Enjoy.").

(** A reply whose text is a JSON document. *)
Definition question_reply : pystr :=
  samples.chat_body (txtq "{\'title\': \'Pivot tables\', \'version\': 2}").

(** The fields of the sample request. *)
Definition submit_fields : list (pyval * pyval) :=
  [(PStr (txt "assignment_id"),
    PStr (assignment_id samples.sample_assignment));
   (PStr (txt "question_id"), PStr (question_id samples.sample_question));
   (PStr (txt "answer"), PStr (txt "x"))].

Definition sample_submission : Submission :=
  submission_flow.new_submission
    (samples.world None false samples.endpoint_down)
    samples.sample_assignment samples.sample_question
    [(PStr (txt "answer"), PStr (txt "x"))].

Definition sample_grade : Grade :=
  {| grade_id := txt "0d000000-0000-4000-8000-000000000004";
     grade_submission := sample_submission;
     grade_judge := sonar_reasoning.no_api_key_result;
     grade_score := f_zero |}.

Definition sample_row : views_reports.AssignmentRow :=
  {| views_reports.row_id := txt "0a000000-0000-4000-8000-000000000001";
     views_reports.row_candidate :=
       {| views_reports.candidate_id := 1;
          views_reports.candidate_name := txt "Demo User";
          views_reports.candidate_email := txt "demo@example.com" |};
     views_reports.row_pack :=
       {| views_reports.pack_id := 1;
          views_reports.pack_name := txt "Starter Pack" |} |}.

(** A database with one assignment and one submission, graded or not. *)
Definition report_db (graded : bool) : views_reports.ReportDb :=
  {| views_reports.find_assignment := fun _ => Ok sample_row;
     views_reports.submissions_of := fun _ => [sample_submission];
     views_reports.first_grade :=
       fun _ => if graded then Some sample_grade else None;
     views_reports.average_score :=
       fun _ => if graded then PFloat f_zero else PNone |}.

Definition staff : views_admin.User :=
  {| views_admin.is_active := true; views_admin.is_staff := true |}.

End samples_more.

(** * Properties *)

Import Py Env.

(** ** The decoder never runs out of fuel *)

Section decoder_fuel.
Import Json.

Lemma skip_ws_length (s : pystr) :
  (List.length (skip_ws s) <= List.length s)%nat.
Proof.
  induction s as [|c r IH]; simpl; [lia|].
  destruct (is_ws c); simpl; lia.
Qed.

Lemma span_digits_length (s : pystr) :
  (List.length (snd (span_digits s)) <= List.length s)%nat.
Proof.
  induction s as [|c r IH]; simpl; [lia|].
  destruct (is_digit c); simpl; [|lia].
  destruct (span_digits r); simpl in *; lia.
Qed.

Lemma span_digits_rest (s d r : pystr) :
  span_digits s = (d, r) -> (List.length r <= List.length s)%nat.
Proof.
  intros H. pose proof (span_digits_length s) as L.
  rewrite H in L. exact L.
Qed.

Lemma strip_prefix_length (p s r : pystr) :
  strip_prefix p s = Some r ->
  (List.length r + List.length p = List.length s)%nat.
Proof.
  revert s; induction p as [|x p IH]; intros [|y s] H; simpl in *;
    try discriminate; try (injection H as <-; simpl; lia).
  destruct (N.eqb x y); [|discriminate].
  apply IH in H. lia.
Qed.

(** A string literal ends strictly before the end of what was scanned. *)
Lemma scanstring_length (n : nat) :
  forall s acc k rest,
    (List.length s <= n)%nat ->
    scanstring s acc = Some (k, rest) ->
    (List.length rest < List.length s)%nat.
Proof.
  induction n as [|n IH]; intros s acc k rest Hn H.
  - destruct s; [discriminate | simpl in Hn; lia].
  - destruct s as [|c r]; [discriminate|].
    simpl in Hn. cbn [scanstring] in H.
    destruct (N.eqb c dquote).
    { injection H as _ <-. simpl; lia. }
    destruct (N.eqb c (cp "\")).
    2:{ destruct (N.ltb c 32); [discriminate|].
        apply IH in H; simpl; lia. }
    destruct r as [|e r1]; [discriminate|].
    destruct (N.eqb e (cp "u")).
    2:{ destruct (unescape e); [|discriminate].
        apply IH in H; simpl in *; lia. }
    destruct r1 as [|h1 [|h2 [|h3 [|h4 r2]]]]; try discriminate.
    destruct (hex4 h1 h2 h3 h4) as [u|]; [|discriminate].
    assert (Hr2 : forall a, scanstring r2 a = Some (k, rest) ->
                            (List.length rest < List.length r2)%nat).
    { intros a Ha. apply IH in Ha; simpl in *; lia. }
    destruct (is_high_surrogate u).
    2:{ apply Hr2 in H. simpl; lia. }
    destruct r2 as [|b [|v [|g1 [|g2 [|g3 [|g4 r3]]]]]];
      try (apply Hr2 in H; simpl in *; lia).
    destruct (N.eqb b (cp "\") && N.eqb v (cp "u")).
    2:{ apply Hr2 in H. simpl in *; lia. }
    destruct (hex4 g1 g2 g3 g4) as [u2|]; [|discriminate].
    destruct (is_low_surrogate u2).
    2:{ apply Hr2 in H. simpl in *; lia. }
    apply IH in H; simpl in *; lia.
Qed.

Lemma match_literal_length (s : pystr) v rest :
  match_literal s = Some (v, rest) ->
  (List.length rest < List.length s)%nat.
Proof.
  unfold match_literal.
  repeat match goal with
  | |- context [strip_prefix ?p s] =>
      let E := fresh "E" in
      destruct (strip_prefix p s) eqn:E;
      [ apply strip_prefix_length in E; intros [= _ <-];
        cbn in E; lia | ]
  end.
  discriminate.
Qed.

Lemma match_number_length (s : pystr) v rest :
  match_number s = Some (v, rest) ->
  (List.length rest < List.length s)%nat.
Proof.
  unfold match_number.
  set (sign := match s with
               | c :: r => if N.eqb c (cp "-") then (true, r) else (false, s)
               | [] => (false, s)
               end).
  assert (Hs : (List.length (snd sign) <= List.length s)%nat).
  { subst sign. destruct s as [|c r]; [simpl; lia|].
    destruct (N.eqb c (cp "-")); simpl; lia. }
  destruct sign as [neg s1]. simpl in Hs.
  destruct s1 as [|c r]; [discriminate|].
  set (int_part := if N.eqb c (cp "0") then Some ([c], r)
                   else if is_digit c
                        then let (d, r') := span_digits r in Some (c :: d, r')
                        else None).
  assert (Hi : forall ds r1, int_part = Some (ds, r1) ->
                             (List.length r1 <= List.length r)%nat).
  { subst int_part. intros ds r1.
    destruct (N.eqb c (cp "0")); [intros [= _ <-]; lia|].
    destruct (is_digit c); [|discriminate].
    destruct (span_digits r) as [d r'] eqn:E.
    intros [= _ <-]. eapply span_digits_rest; eauto. }
  destruct int_part as [[ds r1]|]; [|discriminate].
  specialize (Hi ds r1 eq_refl).
  set (fr := match r1 with
             | dot :: d1 :: r' =>
                 if N.eqb dot (cp ".") && is_digit d1
                 then let (d, r'') := span_digits (d1 :: r') in (d, r'')
                 else ([], r1)
             | _ => ([], r1)
             end).
  assert (Hf : (List.length (snd fr) <= List.length r1)%nat).
  { subst fr. destruct r1 as [|dot [|d1 r']]; try (simpl; lia).
    destruct (N.eqb dot (cp ".") && is_digit d1); [|simpl; lia].
    destruct (span_digits (d1 :: r')) as [d r''] eqn:E.
    apply span_digits_rest in E. simpl in *; lia. }
  destruct fr as [frac r2]. simpl in Hf.
  match goal with
  | |- context [let '(ex, r3) := ?X in _] => set (ep := X)
  end.
  assert (He : (List.length (snd ep) <= List.length r2)%nat).
  { subst ep. destruct r2 as [|e r']; [simpl; lia|].
    destruct (N.eqb e (cp "e") || N.eqb e (cp "E")); [|simpl; lia].
    match goal with
    | |- context [let (eneg, r'') := ?Y in _] => set (sg := Y)
    end.
    assert (Hg : (List.length (snd sg) <= List.length r')%nat).
    { subst sg. destruct r' as [|c0 t]; [simpl; lia|].
      destruct (N.eqb c0 (cp "-")); [simpl; lia|].
      destruct (N.eqb c0 (cp "+")); simpl; lia. }
    destruct sg as [eneg r'']. simpl in Hg.
    destruct (span_digits r'') as [d t] eqn:E.
    apply span_digits_rest in E.
    destruct d; simpl; lia. }
  destruct ep as [ex r3]. simpl in He.
  destruct frac, ex; intros [= _ <-]; simpl in *; lia.
Qed.

Lemma scan_ok_malformed s : scan_ok s Malformed.
Proof. split; [discriminate | intros ? ? [=]]. Qed.

Lemma scan_ok_scanned s v rest :
  (List.length rest < List.length s)%nat -> scan_ok s (Scanned v rest).
Proof. intros H; split; [discriminate | intros ? ? [= _ <-]; exact H]. Qed.

Lemma scan_ok_shorter s s' r :
  (List.length s' <= List.length s)%nat -> scan_ok s' r -> scan_ok s r.
Proof.
  intros L [H1 H2]; split; [exact H1|].
  intros v rest E. specialize (H2 v rest E). lia.
Qed.

Lemma scan_fuel (fuel : nat) :
  (forall s, (2 * List.length s + 1 <= fuel)%nat ->
             scan_ok s (scan_once fuel s)) /\
  (forall s acc, (2 * List.length s + 2 <= fuel)%nat ->
                 scan_ok s (parse_array fuel s acc)) /\
  (forall s acc, (2 * List.length s + 2 <= fuel)%nat ->
                 scan_ok s (parse_object fuel s acc)).
Proof.
  induction fuel as [|fuel (IHv & IHa & IHo)].
  { repeat split; intros; lia. }
  split; [|split].
  - intros s Hf. cbn [scan_once].
    destruct s as [|c r]; [apply scan_ok_malformed|].
    simpl in Hf.
    destruct (N.eqb c dquote).
    { destruct (scanstring r []) as [[k rest]|] eqn:E;
        [|apply scan_ok_malformed].
      apply scan_ok_scanned.
      apply (scanstring_length (List.length r)) in E; simpl; lia. }
    destruct (N.eqb c (cp "{")).
    { pose proof (skip_ws_length r) as L.
      destruct (skip_ws r) as [|c1 r2] eqn:E; [apply scan_ok_malformed|].
      simpl in L.
      destruct (N.eqb c1 (cp "}")).
      - apply scan_ok_scanned. simpl; lia.
      - apply scan_ok_shorter with (s' := c1 :: r2); [simpl; lia|].
        apply IHo. simpl; lia. }
    destruct (N.eqb c (cp "[")).
    { pose proof (skip_ws_length r) as L.
      destruct (skip_ws r) as [|c1 r2] eqn:E; [apply scan_ok_malformed|].
      simpl in L.
      destruct (N.eqb c1 (cp "]")).
      - apply scan_ok_scanned. simpl; lia.
      - apply scan_ok_shorter with (s' := c1 :: r2); [simpl; lia|].
        apply IHa. simpl; lia. }
    destruct (match_literal (c :: r)) as [[v rest]|] eqn:E.
    { apply scan_ok_scanned. apply match_literal_length in E. exact E. }
    destruct (match_number (c :: r)) as [[v rest]|] eqn:E'.
    { apply scan_ok_scanned. apply match_number_length in E'. exact E'. }
    apply scan_ok_malformed.
  - intros s acc Hf. cbn [parse_array].
    destruct (IHv s ltac:(lia)) as [Hnf Hlen].
    destruct (scan_once fuel s) as [v rest| |] eqn:E;
      [|apply scan_ok_malformed|congruence].
    specialize (Hlen v rest eq_refl).
    pose proof (skip_ws_length rest) as L.
    destruct (skip_ws rest) as [|c r] eqn:E1; [apply scan_ok_malformed|].
    simpl in L.
    destruct (N.eqb c (cp "]")); [apply scan_ok_scanned; lia|].
    destruct (N.eqb c (cp ",")); [|apply scan_ok_malformed].
    pose proof (skip_ws_length r) as L'.
    apply scan_ok_shorter with (s' := skip_ws r); [lia|].
    apply IHa. lia.
  - intros s acc Hf. cbn [parse_object].
    destruct s as [|q r]; [apply scan_ok_malformed|].
    simpl in Hf.
    destruct (N.eqb q dquote); [|apply scan_ok_malformed].
    destruct (scanstring r []) as [[k rest]|] eqn:E;
      [|apply scan_ok_malformed].
    apply (scanstring_length (List.length r)) in E; [|lia].
    pose proof (skip_ws_length rest) as L.
    destruct (skip_ws rest) as [|col r1] eqn:E1; [apply scan_ok_malformed|].
    simpl in L.
    destruct (N.eqb col (cp ":")); [|apply scan_ok_malformed].
    pose proof (skip_ws_length r1) as L1.
    destruct (IHv (skip_ws r1) ltac:(lia)) as [Hnf Hlen].
    destruct (scan_once fuel (skip_ws r1)) as [v rest2| |] eqn:E2;
      [|apply scan_ok_malformed|congruence].
    specialize (Hlen v rest2 eq_refl).
    pose proof (skip_ws_length rest2) as L2.
    destruct (skip_ws rest2) as [|c r3] eqn:E3; [apply scan_ok_malformed|].
    simpl in L2.
    destruct (N.eqb c (cp "}")); [apply scan_ok_scanned; simpl; lia|].
    destruct (N.eqb c (cp ",")); [|apply scan_ok_malformed].
    pose proof (skip_ws_length r3) as L3.
    apply scan_ok_shorter with (s' := skip_ws r3); [simpl; lia|].
    apply IHo. lia.
Qed.

(** The fuel [loads_str] gives the scanner is never used up: a
    [JSONDecodeError] of the model is a malformed text. *)
Lemma loads_fuel_suffices (s : pystr) :
  scan_once (2 * List.length s + 1) (skip_ws s) <> NoFuel.
Proof.
  pose proof (skip_ws_length s) as L.
  destruct (scan_fuel (2 * List.length s + 1)) as (Hv & _ & _).
  apply (Hv (skip_ws s)). lia.
Qed.

(** A [JSONDecodeError] of the model is a text that is malformed or has
    something after its value. *)
Lemma loads_str_error (s : pystr) (e : exn) :
  loads_str s = Raise e ->
  e = JSONDecodeError /\
  (scan_once (2 * List.length s + 1) (skip_ws s) = Malformed \/
   exists v rest,
     scan_once (2 * List.length s + 1) (skip_ws s) = Scanned v rest /\
     skip_ws rest <> []).
Proof.
  unfold loads_str.
  pose proof (loads_fuel_suffices s) as Hf.
  destruct (scan_once (2 * List.length s + 1) (skip_ws s)) as [v rest| |];
    [| intros [= <-]; auto | congruence].
  destruct (skip_ws rest) eqn:E; [discriminate|].
  intros [= <-]. split; [reflexivity|].
  right. exists v, rest. split; [reflexivity | congruence].
Qed.
End decoder_fuel.

(** ** Decimal text of integers *)

Section decimal_text.
Import Json.

Lemma digits_value_snoc (ds : pystr) (d : N) :
  digits_value (ds ++ [d]) = (digits_value ds * 10 + Z.of_N (d - 48))%Z.
Proof. unfold digits_value. rewrite fold_left_app. reflexivity. Qed.

(** With one unit of fuel per decimal digit, [digits_fuel] puts the
    digits of [n], most significant first, in front of [acc]. *)
Lemma digits_fuel_value (fuel : nat) :
  forall n acc,
    (n < 10 ^ N.of_nat fuel)%N ->
    exists ds, digits_fuel fuel n acc = (ds ++ acc)%list /\
               digits_value ds = Z.of_N n.
Proof.
  induction fuel as [|fuel IH]; intros n acc Hn.
  { change (N.of_nat 0) with 0%N in Hn. rewrite N.pow_0_r in Hn.
    exists []. split; [reflexivity|].
    change (digits_value []) with 0%Z. lia. }
  cbn [digits_fuel].
  destruct (N.ltb n 10) eqn:E.
  - apply N.ltb_lt in E. exists [(48 + n mod 10)%N]. split; [reflexivity|].
    rewrite N.mod_small by exact E.
    change (digits_value [(48 + n)%N]) with (0 * 10 + Z.of_N (48 + n - 48))%Z.
    lia.
  - apply N.ltb_ge in E.
    assert (Hq : (n / 10 < 10 ^ N.of_nat fuel)%N).
    { apply N.Div0.div_lt_upper_bound.
      rewrite Nat2N.inj_succ, N.pow_succ_r' in Hn. exact Hn. }
    destruct (IH (n / 10)%N ((48 + n mod 10)%N :: acc) Hq) as (ds & Hd & Hv).
    exists (ds ++ [(48 + n mod 10)%N])%list. split.
    + rewrite Hd, <- app_assoc. reflexivity.
    + rewrite digits_value_snoc, Hv.
      pose proof (N.mod_lt n 10 ltac:(lia)) as Hm.
      pose proof (N.div_mod n 10 ltac:(lia)) as Hdm.
      clear - Hm Hdm.
      generalize dependent (n / 10)%N. generalize dependent (n mod 10)%N.
      intros r Hr q Hq. lia.
Qed.

(** The decimal text of a natural number reads back as the number: the
    fuel [str_of_N] takes is enough for all the digits. *)
Lemma str_of_N_value (n : N) : digits_value (str_of_N n) = Z.of_N n.
Proof.
  unfold str_of_N.
  assert (Hn : (n < 10 ^ N.of_nat (S (N.to_nat (N.log2 n))))%N).
  { rewrite Nat2N.inj_succ, N2Nat.id.
    destruct (N.eq_dec n 0) as [->|Hz]; [cbn; lia|].
    pose proof (N.log2_spec n ltac:(lia)) as [_ Hlt].
    eapply N.lt_le_trans; [exact Hlt|].
    apply N.pow_le_mono_l. lia. }
  destruct (digits_fuel_value _ n [] Hn) as (ds & Hd & Hv).
  rewrite Hd, app_nil_r. exact Hv.
Qed.

End decimal_text.

(** ** The judge client *)

Section judge_client.
Import sonar_reasoning schemas samples.
Local Open Scope string_scope.

Lemma flt_fle (a b : float) : flt a b = true -> fle a b = true.
Proof.
  unfold flt, fle, SFltb, SFleb.
  destruct (SFcompare a b) as [[]|]; congruence.
Qed.

(** The clamp lands in the range, whatever the float: below, inside or
    above the range, infinite, or not a number. *)
Lemma clamp_in_range (x : float) :
  score_in_range (py_max f_zero (py_min f_100 x)) = true.
Proof.
  unfold score_in_range, py_max, py_min.
  destruct (flt x f_100) eqn:Hhi.
  - destruct (flt f_zero x) eqn:Hlo.
    + rewrite (flt_fle _ _ Hlo), (flt_fle _ _ Hhi). reflexivity.
    + reflexivity.
  - reflexivity.
Qed.

Lemma clamp_score_in_range W v : score_in_range (clamp_score W v) = true.
Proof. unfold clamp_score. apply clamp_in_range. Qed.

Lemma ensure_list_is_list W v : is_list (ensure_list W v) = true.
Proof.
  unfold ensure_list. destruct (is_list v) eqn:E; [exact E | reflexivity].
Qed.

(** A dict with the six keys of a judge result has the shape as soon as
    its score is in range and its three sequences are lists. *)
Lemma six_keys_shape (f : float) (verdict m i c debug : pyval) :
  score_in_range f = true ->
  is_list m = true -> is_list i = true -> is_list c = true ->
  judge_result_shape
    (dict_of [("score", PFloat f); ("verdict", verdict); ("mistakes", m);
              ("improvements", i); ("citations", c); ("debug", debug)])
  = true.
Proof.
  intros Hf Hm Hi Hc. cbn. rewrite Hf, Hm, Hi, Hc. reflexivity.
Qed.

Lemma normalize_shape W parsed status raw r :
  normalize W parsed status raw = Ok r -> judge_result_shape r = true.
Proof.
  destruct parsed; try discriminate.
  unfold normalize. cbn [py_get bind].
  intros [= <-].
  apply six_keys_shape;
    auto using clamp_score_in_range, ensure_list_is_list.
Qed.

Lemma normalize_dict W d status raw :
  exists r, normalize W (PDict d) status raw = Ok r.
Proof. unfold normalize. cbn [py_get bind]. eexists; reflexivity. Qed.

Lemma normalize_non_dict W v status raw :
  is_dict v = false -> normalize W v status raw = Raise AttributeError.
Proof. destruct v; try discriminate; reflexivity. Qed.

Lemma judge_response_shape W resp r :
  judge_response W resp = Ok r -> judge_result_shape r = true.
Proof.
  unfold judge_response.
  destruct (extract_block W resp) as [[ct|] raw]; [|discriminate].
  destruct (_safe_parse_json ct) as [parsed|]; [|discriminate].
  cbn [bind].
  destruct (truthy parsed).
  - apply normalize_shape.
  - intros [= <-]. apply six_keys_shape; reflexivity.
Qed.

Lemma judge_answer_with_response W q s rr user resp :
  has_api_key W = true ->
  judge_prompt W q s rr = Ok user ->
  requests_post W (judge_call W user) = Ok resp ->
  judge_answer W q s rr = ([judge_call W user], judge_response W resp).
Proof.
  intros Hk Hp Hr. unfold judge_answer. rewrite Hk, Hp, Hr. reflexivity.
Qed.

Lemma extract_block_text W resp t :
  _extract_candidate_text W resp = Ok (PStr t) ->
  exists raw, extract_block W resp = (Some (PStr t), raw).
Proof.
  intros H. unfold extract_block. rewrite H. cbn [py_len bind].
  destruct (Z.of_nat (List.length t) >? 400)%Z; cbn; eexists; reflexivity.
Qed.

Lemma loads_str_nonempty t v : Json.loads_str t = Ok v -> t <> [].
Proof. intros H ->. discriminate H. Qed.

(** C1.  [judge_answer] is claimed never to raise.  It does: whenever the
    endpoint is reached and the text taken from its response is a JSON
    document whose value is true in a condition but is not an object (a
    list, a number, a string), [_safe_parse_json] hands that value back,
    and the first [parsed.get] raises [AttributeError] out of
    [judge_answer]. *)
Theorem judge_answer_raises_on_non_object_json W q s rr user resp t v :
  has_api_key W = true ->
  judge_prompt W q s rr = Ok user ->
  requests_post W (judge_call W user) = Ok resp ->
  _extract_candidate_text W resp = Ok (PStr t) ->
  Json.loads_str t = Ok v ->
  truthy v = true ->
  is_dict v = false ->
  judge_answer W q s rr = ([judge_call W user], Raise AttributeError).
Proof.
  intros Hk Hp Hr Hx Hl Ht Hd.
  rewrite (judge_answer_with_response _ _ _ _ _ _ Hk Hp Hr).
  f_equal. unfold judge_response.
  destruct (extract_block_text _ _ _ Hx) as [raw ->].
  unfold _safe_parse_json.
  pose proof (loads_str_nonempty _ _ Hl) as Hne.
  destruct t as [|c t]; [congruence|].
  cbn [truthy negb Json.loads]. rewrite Hl. cbn [bind]. rewrite Ht.
  cbn [negb].
  apply normalize_non_dict. exact Hd.
Qed.

(** The endpoint answers 200 with the chat envelope around the text
    [[1]]. *)
Lemma judge_answer_raises_witness :
  judge_answer
    (world some_key true (endpoint_replying 200 (chat_body (txt "[1]"))))
    (PDict []) (PDict []) PNone
  = ([judge_call
        (world some_key true (endpoint_replying 200 (chat_body (txt "[1]"))))
        (user_prompt (txt "{}") (txt "{}") (txt "null"))],
     Raise AttributeError).
Proof.
  apply (judge_answer_raises_on_non_object_json
           (world some_key true (endpoint_replying 200 (chat_body (txt "[1]"))))
           (PDict []) (PDict []) PNone
           (user_prompt (txt "{}") (txt "{}") (txt "null"))
           {| status_code := 200; text := chat_body (txt "[1]") |}
           (txt "[1]") (PList [PInt 1]));
    reflexivity.
Defined.

(** Two more ways out of [judge_answer]: the local [candidate_text] is
    read unbound when the extraction raises, and [json.dumps] raises on an
    argument that cannot be serialised. *)
Lemma judge_answer_unbound_candidate_text W q s rr user resp e :
  has_api_key W = true ->
  judge_prompt W q s rr = Ok user ->
  requests_post W (judge_call W user) = Ok resp ->
  _extract_candidate_text W resp = Raise e ->
  judge_answer W q s rr = ([judge_call W user], Raise UnboundLocalError).
Proof.
  intros Hk Hp Hr Hx.
  rewrite (judge_answer_with_response _ _ _ _ _ _ Hk Hp Hr).
  unfold judge_response, extract_block. rewrite Hx. reflexivity.
Qed.

Lemma judge_answer_not_serializable W q s rr e :
  has_api_key W = true ->
  judge_prompt W q s rr = Raise e ->
  judge_answer W q s rr = ([], Raise e).
Proof. intros Hk Hp. unfold judge_answer. rewrite Hk, Hp. reflexivity. Qed.

Example judge_answer_message_not_a_dict :
  snd (judge_answer
         (world some_key true
            (endpoint_replying 200 (txtq "{'choices': [{'message': 'hi'}]}")))
         (PDict []) (PDict []) PNone)
  = Raise UnboundLocalError.
Proof. vm_compute. reflexivity. Qed.

Example judge_answer_uuid_in_question :
  judge_answer (world some_key true endpoint_down)
    (dict_of [("id", PUuid (txt "0b000000-0000-4000-8000-000000000002"))])
    (PDict []) PNone
  = ([], Raise TypeError).
Proof. vm_compute. reflexivity. Qed.

(** C2.  Every value [judge_answer] returns has a [float] score between 0
    and 100 and lists as [mistakes], [improvements] and [citations]; and
    the normalisation of any parsed object, whatever its fields hold,
    returns such a value. *)
Theorem judge_answer_result_shape :
  (forall W question submission runner_result calls r,
      judge_answer W question submission runner_result = (calls, Ok r) ->
      judge_result_shape r = true) /\
  (forall W d status raw_excerpt,
      exists r, normalize W (PDict d) status raw_excerpt = Ok r /\
                judge_result_shape r = true).
Proof.
  split.
  - intros W q s rr calls r. unfold judge_answer.
    destruct (has_api_key W); cbn [negb].
    + destruct (judge_prompt W q s rr) as [user|]; [|discriminate].
      destruct (requests_post W (judge_call W user)) as [resp|e].
      * intros [= _ H]. eapply judge_response_shape; eauto.
      * intros [= _ <-]. apply six_keys_shape; reflexivity.
    + intros [= _ <-]. reflexivity.
  - intros W d status raw.
    destruct (normalize_dict W d status raw) as [r Hr].
    exists r; split; [exact Hr | eapply normalize_shape; eauto].
Qed.

(** A reply with alias keys, a grade of 250 and a bare string as errors:
    the score is 100.0 and the mistakes are a one-element list. *)
Lemma judge_answer_result_shape_witness :
  exists calls r,
    judge_answer (world some_key true (endpoint_replying 200 alias_reply))
      (PDict []) (PDict []) PNone = (calls, Ok r) /\
    judge_result_shape r = true /\
    py_get r (txt "score") PNone = Ok (PFloat f_100) /\
    py_get r (txt "mistakes") PNone = Ok (PList [PStr (txt "typo")]).
Proof.
  eexists. eexists. split; [vm_compute; reflexivity|].
  split.
  - eapply (proj1 judge_answer_result_shape
              (world some_key true (endpoint_replying 200 alias_reply))
              (PDict []) (PDict []) PNone).
    vm_compute. reflexivity.
  - split; reflexivity.
Defined.

(** C4.  A response with a status outside 2xx is claimed to give the
    network-error result.  The status is never looked at: a response whose
    body is not JSON and has no opening brace gives the
    unparsable-response result, with the status recorded in [debug],
    whatever the status is. *)
Theorem judge_answer_status_not_checked W q s rr user status body :
  has_api_key W = true ->
  judge_prompt W q s rr = Ok user ->
  requests_post W (judge_call W user)
    = Ok {| status_code := status; text := body |} ->
  Json.loads_str body = Raise JSONDecodeError ->
  rfind_brace body = None ->
  (0 < List.length body <= 400)%nat ->
  judge_answer W q s rr
  = ([judge_call W user],
     Ok (unparsable_result (PInt status) (PStr body))).
Proof.
  intros Hk Hp Hr Hl Hb [Hne Hlen].
  rewrite (judge_answer_with_response _ _ _ _ _ _ Hk Hp Hr).
  f_equal. unfold judge_response, extract_block, _extract_candidate_text,
    resp_json.
  cbn [text status_code]. rewrite Hl.
  destruct body as [|c body]; [simpl in Hne; lia|].
  cbn [py_or truthy py_len bind].
  replace (Z.of_nat (List.length (c :: body)) >? 400)%Z with false
    by (symmetry; rewrite Z.gtb_ltb; apply Z.ltb_ge; lia).
  unfold _safe_parse_json. cbn [truthy negb Json.loads]. rewrite Hl, Hb.
  reflexivity.
Qed.

(** The endpoint answers 500 with a plain-text body. *)
Lemma judge_answer_status_witness :
  judge_answer
    (world some_key true (endpoint_replying 500 (txt "Internal Server Error")))
    (PDict []) (PDict []) PNone
  = ([judge_call
        (world some_key true
           (endpoint_replying 500 (txt "Internal Server Error")))
        (user_prompt (txt "{}") (txt "{}") (txt "null"))],
     Ok (unparsable_result (PInt 500) (PStr (txt "Internal Server Error")))).
Proof.
  apply (judge_answer_status_not_checked
           (world some_key true
              (endpoint_replying 500 (txt "Internal Server Error")))
           (PDict []) (PDict []) PNone
           (user_prompt (txt "{}") (txt "{}") (txt "null"))
           500%Z (txt "Internal Server Error"));
    try reflexivity.
  simpl; lia.
Defined.

(** With a JSON error body the same response even passes for a judgement:
    score 0.0, empty verdict, no mention of a failure. *)
Example judge_answer_error_object_500 :
  snd (judge_answer
         (world some_key true (endpoint_replying 500 (txtq "{'error': 'x'}")))
         (PDict []) (PDict []) PNone)
  = Ok (dict_of [("score", PFloat (S754_zero false));
                 ("verdict", PStr []);
                 ("mistakes", PList []);
                 ("improvements", PList []);
                 ("citations", PList []);
                 ("debug",
                  dict_of [("http_status", PInt 500);
                           ("raw_excerpt", PStr (txtq "{'error': 'x'}"))])]).
Proof. vm_compute. reflexivity. Qed.

(** The members of an object scan to a dict. *)
Lemma parse_object_is_dict (fuel : nat) :
  forall s acc v rest,
    Json.parse_object fuel s acc = Json.Scanned v rest -> is_dict v = true.
Proof.
  induction fuel as [|fuel IH]; intros s acc v rest; [discriminate|].
  cbn [Json.parse_object].
  destruct s as [|q r]; [discriminate|].
  destruct (N.eqb q dquote); [|discriminate].
  destruct (Json.scanstring r []) as [[k rest0]|]; [|discriminate].
  destruct (Json.skip_ws rest0) as [|col r1]; [discriminate|].
  destruct (N.eqb col (cp ":")); [|discriminate].
  destruct (Json.scan_once fuel (Json.skip_ws r1)) as [v0 rest2| |];
    try discriminate.
  destruct (Json.skip_ws rest2) as [|c r3]; [discriminate|].
  destruct (N.eqb c (cp "}")); [intros [= <- _]; reflexivity|].
  destruct (N.eqb c (cp ",")); [|discriminate].
  apply IH.
Qed.

(** A document that starts with an opening brace denotes an object. *)
Lemma loads_brace_is_dict (r : pystr) v :
  Json.loads_str (cp "{" :: r) = Ok v -> is_dict v = true.
Proof.
  unfold Json.loads_str.
  change (Json.skip_ws (cp "{" :: r)) with (cp "{" :: r).
  destruct (2 * List.length (cp "{" :: r) + 1)%nat as [|fuel]; [discriminate|].
  cbn [Json.scan_once].
  change (N.eqb (cp "{") dquote) with false.
  change (N.eqb (cp "{") (cp "{")) with true. cbv iota.
  destruct (Json.skip_ws r) as [|c1 r2]; [discriminate|].
  destruct (N.eqb c1 (cp "}")).
  - destruct (Json.skip_ws r2); [intros [= <-]; reflexivity | discriminate].
  - destruct (Json.parse_object fuel (c1 :: r2) []) as [v0 rest| |] eqn:E;
      try discriminate.
    destruct (Json.skip_ws rest); [|discriminate].
    intros [= <-]. eapply parse_object_is_dict; eauto.
Qed.

(** What follows the last opening brace has no opening brace. *)
Lemma rfind_brace_skipn (s : pystr) (i : nat) :
  rfind_brace s = Some i ->
  exists tail, skipn i s = cp "{" :: tail /\ rfind_brace tail = None.
Proof.
  revert i; induction s as [|c r IH]; intros i; [discriminate|].
  cbn [rfind_brace].
  destruct (rfind_brace r) as [j|] eqn:E.
  - intros [= <-]. destruct (IH j eq_refl) as (tail & H1 & H2).
    exists tail. split; [exact H1 | exact H2].
  - destruct (N.eqb c (cp "{")) eqn:Ec; [|discriminate].
    intros [= <-]. exists r. apply N.eqb_eq in Ec. subst c.
    split; [reflexivity | exact E].
Qed.

Lemma rfind_brace_none_head c r :
  rfind_brace (c :: r) = None ->
  N.eqb c (cp "{") = false /\ rfind_brace r = None.
Proof.
  cbn [rfind_brace]. destruct (rfind_brace r); [discriminate|].
  destruct (N.eqb c (cp "{")); [discriminate|]. auto.
Qed.

(** Past the opening brace the scan is at depth 1 and meets no other
    opening brace: it stops at the first closing brace, and what it
    returns, if not [None], is the value of a prefix of [candidate]. *)
Lemma brace_scan_depth_one (candidate : pystr) :
  forall rest i,
    rfind_brace rest = None ->
    brace_scan candidate rest i 1 = PNone \/
    exists n,
      (i < n)%nat /\
      Json.loads_str (firstn n candidate)
      = Ok (brace_scan candidate rest i 1).
Proof.
  induction rest as [|ch rest IH]; intros i Hno; [left; reflexivity|].
  apply rfind_brace_none_head in Hno. destruct Hno as [Hch Hno].
  cbn [brace_scan]. rewrite Hch.
  destruct (N.eqb ch (cp "}")) eqn:Ec.
  - change (1 - 1 =? 0)%Z with true. cbv iota.
    destruct (Json.loads_str (firstn (S i) candidate)) as [v|] eqn:El;
      [|left; reflexivity].
    right. exists (S i). split; [lia | exact El].
  - destruct (IH (S i) Hno) as [H|(n & Hn & Hl)]; [left; exact H|].
    right. exists n. split; [lia | exact Hl].
Qed.

(** When the direct parse fails, the extractor returns [None] or the value
    of a block that starts at the last opening brace of the text: a block
    with no other opening brace, so an object none of whose members is an
    object. *)
Lemma safe_parse_json_fallback_flat (s : pystr) (e : exn) (v : pyval) :
  Json.loads_str s = Raise e ->
  _safe_parse_json (PStr s) = Ok v ->
  v = PNone \/
  exists i tail n,
    skipn i s = cp "{" :: tail /\
    rfind_brace tail = None /\
    Json.loads_str (cp "{" :: firstn n tail) = Ok v /\
    is_dict v = true.
Proof.
  intros Hl. unfold _safe_parse_json.
  destruct (negb (truthy (PStr s))); [intros [= <-]; left; reflexivity|].
  cbn [Json.loads]. rewrite Hl.
  destruct (rfind_brace s) as [i|] eqn:Ei; [|intros [= <-]; left; reflexivity].
  destruct (rfind_brace_skipn s i Ei) as (tail & Hs & Ht).
  rewrite Hs. cbn [brace_scan].
  change (N.eqb (cp "{") (cp "{")) with true. cbv iota.
  change (0 + 1)%Z with 1%Z.
  intros [= <-].
  destruct (brace_scan_depth_one (cp "{" :: tail) tail 1 Ht)
    as [H|(n & Hn & Hv)]; [left; exact H|].
  right. destruct n as [|n]; [lia|].
  cbn [firstn] in Hv.
  exists i, tail, n.
  repeat split; try assumption.
  eapply loads_brace_is_dict. exact Hv.
Qed.

(** The extractor's result on a text is an object or [None], unless the
    whole text is a JSON document: then it is the value of the document,
    of whatever type. *)
Lemma safe_parse_json_result (s : pystr) (v : pyval) :
  _safe_parse_json (PStr s) = Ok v ->
  Json.loads_str s = Ok v \/ v = PNone \/ is_dict v = true.
Proof.
  intros H. destruct (Json.loads_str s) as [w|e] eqn:El.
  - left. unfold _safe_parse_json in H.
    destruct s as [|c r]; [discriminate El|].
    cbn [truthy negb Json.loads] in H. rewrite El in H. exact H.
  - right.
    destruct (safe_parse_json_fallback_flat s e v El H)
      as [Hn|(i & tail & n & _ & _ & _ & Hd)]; auto.
Qed.
(** C5.  On the text [{'a': {'b': 1}} trailing] the extractor is claimed to
    return the outer object.  The direct parse fails on the trailing
    word, the scan starts at the last opening brace, which is the inner
    one, and the inner object [{'b': 1}] is returned. *)
Theorem safe_parse_json_truncates_nested :
  _safe_parse_json (PStr (txtq "{'a': {'b': 1}} trailing"))
  = Ok (dict_of [("b", PInt 1)]).
Proof. vm_compute. reflexivity. Qed.

Example safe_parse_json_prefix_suffix :
  _safe_parse_json (PStr (txtq "prefix {'a':1} suffix"))
  = Ok (dict_of [("a", PInt 1)]).
Proof. vm_compute. reflexivity. Qed.

Example safe_parse_json_no_json :
  _safe_parse_json (PStr (txt "no json here")) = Ok PNone.
Proof. vm_compute. reflexivity. Qed.

Lemma safe_parse_json_text_total (s : pystr) :
  exists v, _safe_parse_json (PStr s) = Ok v.
Proof.
  unfold _safe_parse_json.
  destruct (negb (truthy (PStr s))); [eexists; reflexivity|].
  destruct (Json.loads (PStr s)); [eexists; reflexivity|].
  destruct (rfind_brace s); eexists; reflexivity.
Qed.

(** C6.  On text the extractor never raises, but its result is not always
    an object or [None]: a text that is a JSON document is returned as the
    value it denotes, a list for [[1]], an [int] for [5].  Only when the
    whole text is not a JSON document is the result an object or
    [None]. *)
Theorem safe_parse_json_not_always_object :
  (forall s,
      exists v, _safe_parse_json (PStr s) = Ok v /\
                (Json.loads_str s = Ok v \/ v = PNone \/ is_dict v = true)) /\
  _safe_parse_json (PStr (txt "[1]")) = Ok (PList [PInt 1]) /\
  _safe_parse_json (PStr (txt "5")) = Ok (PInt 5).
Proof.
  split.
  - intros s. destruct (safe_parse_json_text_total s) as [v Hv].
    exists v. split; [exact Hv | apply safe_parse_json_result; exact Hv].
  - split; vm_compute; reflexivity.
Qed.

(** C7.  Without a credential [ping] is claimed to return
    [(False, {'error': 'no_api_key'})] in every context.  It does so, with
    no call to the endpoint, in a debugging context only: outside one, the
    first statement reads the local [info] before it is bound and the
    function raises [UnboundLocalError]. *)
Theorem ping_without_key W timeout :
  has_api_key W = false ->
  ping W timeout
  = if DEBUG W
    then ([], Ok (false, dict_of [("error", PStr (txt "no_api_key"))]))
    else ([], Raise UnboundLocalError).
Proof.
  intros Hk. unfold ping. rewrite Hk. destruct (DEBUG W); reflexivity.
Qed.

Lemma ping_without_key_witness :
  ping (world None false endpoint_down) (PInt 8)
  = ([], Raise UnboundLocalError).
Proof.
  apply (ping_without_key (world None false endpoint_down) (PInt 8)).
  reflexivity.
Defined.

(** Outside a debugging context [ping] raises with a credential too. *)
Lemma ping_raises_outside_debug W timeout :
  DEBUG W = false -> ping W timeout = ([], Raise UnboundLocalError).
Proof. intros Hd. unfold ping. rewrite Hd. reflexivity. Qed.

(** C8.  Without a credential (the variable unset, or set to the empty
    text) [judge_answer] makes no call to the endpoint and returns the
    no-API-key result: score 0.0, verdict 'Sonar unavailable (no API
    key)', reason 'no_api_key'. *)
Theorem judge_answer_without_key W q s rr :
  has_api_key W = false ->
  judge_answer W q s rr = ([], Ok no_api_key_result) /\
  py_get no_api_key_result (txt "score") PNone
    = Ok (PFloat (S754_zero false)) /\
  py_get no_api_key_result (txt "verdict") PNone
    = Ok (PStr (txt "Sonar unavailable (no API key)")) /\
  py_get no_api_key_result (txt "debug") PNone
    = Ok (dict_of [("reason", PStr (txt "no_api_key"))]).
Proof.
  intros Hk. unfold judge_answer. rewrite Hk.
  repeat split; reflexivity.
Qed.

Lemma judge_answer_without_key_witness :
  judge_answer (world (Some []) true endpoint_down)
    (dict_of [("id", PUuid (txt "0b000000-0000-4000-8000-000000000002"))])
    (PDict []) PNone
  = ([], Ok no_api_key_result).
Proof.
  apply (judge_answer_without_key (world (Some []) true endpoint_down)
           (dict_of [("id", PUuid (txt "0b000000-0000-4000-8000-000000000002"))])
           (PDict []) PNone).
  reflexivity.
Defined.

End judge_client.

(** ** The deterministic runner *)

Section deterministic_runner.
Import runner samples.
Local Open Scope string_scope.

(** C9.  [run_checks] never raises: it always returns a runner result;
    an exception inside its [try] block becomes the single check entry
    [exception], with the text of the exception, [passed] false and
    [score_runner] 0.0; and an empty answer gives [passed] false, no check
    and [score_runner] 0.0. *)
Theorem run_checks_never_raises W spec candidate_answer :
  (exists passed checks,
      run_checks W spec candidate_answer
      = Ok (dict_of [("passed", PBool passed);
                     ("checks", PList checks);
                     ("score_runner",
                      PFloat (if passed then f_100 else S754_zero false))])) /\
  (forall e,
      run_checks_try W candidate_answer = Raise e ->
      run_checks W spec candidate_answer
      = Ok (dict_of [("passed", PBool false);
                     ("checks",
                      PList [dict_of [("name", PStr (txt "exception"));
                                      ("passed", PBool false);
                                      ("error",
                                       PStr (exn_str (runtime W) e))]]);
                     ("score_runner", PFloat (S754_zero false))])) /\
  (truthy candidate_answer = false ->
   run_checks W spec candidate_answer
   = Ok (dict_of [("passed", PBool false);
                  ("checks", PList []);
                  ("score_runner", PFloat (S754_zero false))])).
Proof.
  unfold run_checks. repeat split.
  - destruct (run_checks_try W candidate_answer) as [[passed checks]|e].
    + exists passed, checks. reflexivity.
    + exists false, [exception_check W e]. reflexivity.
  - intros e ->. reflexivity.
  - intros Hf. unfold run_checks_try. rewrite Hf. reflexivity.
Qed.

(** A table pandas rejects, and the empty text. *)
Lemma run_checks_never_raises_witness :
  run_checks (with_read_csv (world None true endpoint_down) csv_error)
    (PDict []) (PStr csv_text)
  = Ok (dict_of [("passed", PBool false);
                 ("checks",
                  PList [dict_of [("name", PStr (txt "exception"));
                                  ("passed", PBool false);
                                  ("error",
                                   PStr (txt "Error tokenizing data"))]]);
                 ("score_runner", PFloat (S754_zero false))])
  /\
  run_checks (world None true endpoint_down) (PDict []) (PStr [])
  = Ok (dict_of [("passed", PBool false);
                 ("checks", PList []);
                 ("score_runner", PFloat (S754_zero false))]).
Proof.
  split.
  - apply (proj1 (proj2 (run_checks_never_raises
             (with_read_csv (world None true endpoint_down) csv_error)
             (PDict []) (PStr csv_text)))
             (External (txt "ParserError") (txt "Error tokenizing data"))).
    reflexivity.
  - apply (proj2 (proj2 (run_checks_never_raises
             (world None true endpoint_down) (PDict []) (PStr [])))).
    reflexivity.
Defined.

(** A table of three rows passes with the entry [rows_present]. *)
Example run_checks_three_rows :
  run_checks (world None true endpoint_down) (PDict []) (PStr csv_text)
  = Ok (dict_of [("passed", PBool true);
                 ("checks",
                  PList [dict_of [("name", PStr (txt "rows_present"));
                                  ("passed", PBool true);
                                  ("rows", PInt 3)]]);
                 ("score_runner", PFloat f_100)]).
Proof. vm_compute. reflexivity. Qed.

End deterministic_runner.

(** ** [make_json_safe] *)

Section json_safety.
Import utils.
Local Open Scope string_scope.



Lemma make_json_safe_converted (obj : pyval) :
  converted (make_json_safe obj) = true.
Proof.
  induction obj as [| | | | |l IH|l IH|d IH| | |] using pyval_ind;
    try reflexivity; cbn [make_json_safe converted];
    rewrite forallb_forall; intros y Hy; apply in_map_iff in Hy;
    destruct Hy as (x & <- & Hx); rewrite Forall_forall in IH;
    cbn [snd]; auto.
Qed.






Example make_json_safe_nested :
  make_json_safe
    (dict_of [("id", PUuid (txt "0b000000-0000-4000-8000-000000000002"));
              ("when", PTuple [PDate (txt "2025-01-01"); PInt 1])])
  = dict_of [("id", PStr (txt "0b000000-0000-4000-8000-000000000002"));
             ("when", PList [PStr (txt "2025-01-01"); PInt 1])].
Proof. reflexivity. Qed.

End json_safety.

(** ** The submit view *)

Section evaluation_flow_forms.
Import views_candidate samples schemas submission_flow.
Local Open Scope string_scope.

(** The clamp never gives the negative zero. *)
Lemma clamp_not_negative_zero (x : float) :
  py_max f_zero (py_min f_100 x) <> S754_zero true.
Proof.
  unfold py_max.
  destruct (flt f_zero (py_min f_100 x)) eqn:E; [|discriminate].
  intros H. rewrite H in E. discriminate E.
Qed.

(** The form of every value [judge_answer] returns. *)
Lemma judge_answer_result_form W q s rr calls r :
  sonar_reasoning.judge_answer W q s rr = (calls, Ok r) ->
  (List.length calls <= 1)%nat /\
  exists f verdict m i c debug,
    r = dict_of [("score", PFloat f); ("verdict", verdict); ("mistakes", m);
                 ("improvements", i); ("citations", c); ("debug", debug)] /\
    score_in_range f = true /\
    f <> S754_zero true.
Proof.
  unfold sonar_reasoning.judge_answer.
  destruct (sonar_reasoning.has_api_key W); cbn [negb].
  2:{ intros [= <- <-]. split; [simpl; lia|].
      do 6 eexists. split; [reflexivity|]. split; [reflexivity | discriminate]. }
  destruct (sonar_reasoning.judge_prompt W q s rr) as [user|]; [|discriminate].
  destruct (requests_post W (sonar_reasoning.judge_call W user)) as [resp|e].
  2:{ intros [= <- <-]. split; [simpl; lia|].
      do 6 eexists. split; [reflexivity|]. split; [reflexivity | discriminate]. }
  intros [= <- H]. split; [simpl; lia|].
  unfold sonar_reasoning.judge_response in H.
  destruct (sonar_reasoning.extract_block W resp) as [[ct|] raw];
    [|discriminate].
  destruct (sonar_reasoning._safe_parse_json ct) as [p|]; [|discriminate].
  cbn [bind] in H. destruct (truthy p); cbn [negb] in H.
  - destruct p; try discriminate H.
    unfold sonar_reasoning.normalize in H. cbn [py_get bind] in H.
    injection H as <-. do 6 eexists. split; [reflexivity|].
    split; [apply clamp_score_in_range|].
    unfold sonar_reasoning.clamp_score. apply clamp_not_negative_zero.
  - injection H as <-. do 6 eexists. split; [reflexivity|].
    split; [reflexivity | discriminate].
Qed.

Lemma judge_answer_calls W q s rr :
  (List.length (fst (sonar_reasoning.judge_answer W q s rr)) <= 1)%nat.
Proof.
  unfold sonar_reasoning.judge_answer.
  destruct (sonar_reasoning.has_api_key W); cbn [negb fst]; [|simpl; lia].
  destruct (sonar_reasoning.judge_prompt W q s rr) as [user|];
    [|simpl; lia].
  destruct (requests_post W (sonar_reasoning.judge_call W user));
    simpl; lia.
Qed.

Lemma call_judge_form W question submission calls judge_result :
  call_judge W question submission = (calls, judge_result) ->
  (List.length calls <= 1)%nat /\ judged_form judge_result.
Proof.
  unfold call_judge.
  destruct (sonar_reasoning.judge_answer W (question_payload question)
              (submission_payload W submission) PNone) as [cs r] eqn:E.
  pose proof (judge_answer_calls W (question_payload question)
                (submission_payload W submission) PNone) as Hc.
  rewrite E in Hc. cbn [fst] in Hc.
  destruct r as [j|e]; intros [= <- <-]; (split; [exact Hc|]).
  - destruct (judge_answer_result_form _ _ _ _ _ _ E)
      as (_ & f & v & m & i & c & dbg & -> & Hf & Hz).
    constructor; assumption.
  - constructor.
Qed.

(** The score the view computes is the score of the judge. *)
Lemma final_score_form W judge_result :
  judged_form judge_result ->
  exists score,
    final_score W (utils.make_json_safe judge_result) = Ok score /\
    score_in_range score = true /\
    (py_get judge_result (txt "score") PNone = Ok (PFloat score) \/
     py_get judge_result (txt "score") PNone = Ok (PInt 0) /\
     score = S754_zero false).
Proof.
  intros [f v m i c dbg Hf Hz | imp].
  - assert (Hs : py_get
                   (utils.make_json_safe
                      (dict_of [("score", PFloat f); ("verdict", v);
                                ("mistakes", m); ("improvements", i);
                                ("citations", c); ("debug", dbg)]))
                   (txt "score") (PInt 0) = Ok (PFloat f)) by reflexivity.
    unfold final_score. rewrite Hs. cbn [bind].
    unfold py_or. destruct (truthy (PFloat f)) eqn:Ht.
    + exists f. split; [reflexivity|]. split; [exact Hf | left; reflexivity].
    + exists (S754_zero false). split; [reflexivity|].
      split; [reflexivity|]. left.
      destruct f as [[|]| | |]; try discriminate Ht;
        [congruence | reflexivity].
  - exists (S754_zero false). split; [reflexivity|].
    split; [reflexivity | right; split; reflexivity].
Qed.

(** The ways a call of the view ends: without a trace, or with a stored
    Submission and a Grade the database stores or refuses. *)
Lemma submit_answer_cases W request :
  (exists r, submit_answer W request = no_effect r /\
             forall response, r <> Ok (JsonResponse response)) \/
  (exists d assignment question calls judge_result score,
      parse_body request = Ok (PDict d) /\
      truthy (payload_field d "assignment_id") = true /\
      truthy (payload_field d "question_id") = true /\
      lookup W (payload_field d "assignment_id") (payload_field d "question_id")
      = Ok (assignment, question) /\
      save_submission W (new_submission W assignment question d) = Ok tt /\
      call_judge W question (new_submission W assignment question d)
      = (calls, judge_result) /\
      (List.length calls <= 1)%nat /\
      judged_form judge_result /\
      final_score W (utils.make_json_safe judge_result) = Ok score /\
      score_in_range score = true /\
      submit_answer W request
      = match save_grade W
                (new_grade W (new_submission W assignment question d)
                   judge_result score) with
        | Ok _ =>
            {| created_submission :=
                 Some (new_submission W assignment question d);
               created_grade :=
                 Some (new_grade W (new_submission W assignment question d)
                         judge_result score);
               http_calls := calls;
               returned :=
                 Ok (JsonResponse
                       (grading_response W
                          (new_submission W assignment question d)
                          (new_grade W
                             (new_submission W assignment question d)
                             judge_result score))) |}
        | Raise e =>
            {| created_submission :=
                 Some (new_submission W assignment question d);
               created_grade := None;
               http_calls := calls;
               returned := Raise e |}
        end).
Proof.
  unfold submit_answer.
  destruct (parse_body request) as [payload|e] eqn:Eb.
  2:{ left. eexists. split; [reflexivity | discriminate]. }
  destruct payload as [| | | | | | |d| | |];
    try (left; eexists; split; [reflexivity | discriminate]).
  cbn [py_get bind].
  fold (payload_field d "assignment_id"). fold (payload_field d "question_id").
  fold (payload_field d "answer"). fold (payload_field d "file_url").
  destruct (truthy (payload_field d "assignment_id")) eqn:Ea;
    [|left; eexists; split; [reflexivity | discriminate]].
  destruct (truthy (payload_field d "question_id")) eqn:Eq;
    [|left; eexists; split; [reflexivity | discriminate]].
  cbn [andb negb].
  destruct (lookup W (payload_field d "assignment_id")
              (payload_field d "question_id")) as [[assignment question]|e]
    eqn:El.
  2:{ left. destruct e; eexists; (split; [reflexivity | discriminate]). }
  fold (new_submission W assignment question d).
  destruct (save_submission W (new_submission W assignment question d))
    as [[]|e] eqn:Es.
  2:{ left. eexists. split; [reflexivity | discriminate]. }
  destruct (call_judge W question (new_submission W assignment question d))
    as [calls jr] eqn:Ej.
  destruct (call_judge_form _ _ _ _ _ Ej) as [Hc Hform].
  destruct (final_score_form W jr Hform) as (score & Hs & Hr & _).
  rewrite Hs. right.
  exists d, assignment, question, calls, jr, score.
  repeat split; assumption.
Qed.

End evaluation_flow_forms.

Section evaluation_flow.
Import views_candidate samples samples_more schemas submission_flow.
Local Open Scope string_scope.

(** C3, as stated, fails: without a credential and outside a debugging
    context the request for the sample assignment and question, with the
    answer [x], is graded; the runner would pass the answer, and the
    [runner] field of the response is [None]. *)
Lemma submit_answer_runner_field_null :
  (exists submission grade response,
      submit_answer (world None false endpoint_down) submit_request =
        {| created_submission := Some submission;
           created_grade := Some grade;
           http_calls := [];
           returned := Ok (JsonResponse response) |} /\
      runner.run_checks (world None false endpoint_down)
        (question_spec (submission_question submission))
        (submission_answer submission)
      = Ok (dict_of [("passed", PBool true);
                     ("checks",
                      PList [dict_of [("name",
                                       PStr (txt "non_empty_submission"));
                                      ("passed", PBool true)]]);
                     ("score_runner", PFloat f_100)]) /\
      py_get response (txt "runner") (PInt 0) = Ok PNone) /\
  ~ runner_result_reported (world None false endpoint_down) submit_request.
Proof.
  split.
  - eexists. eexists. eexists.
    split; [vm_compute; reflexivity|].
    split; vm_compute; reflexivity.
  - intros H.
    destruct (H _ _ _ _ ltac:(vm_compute; reflexivity)) as (r & Hrun & Hget).
    vm_compute in Hrun. vm_compute in Hget.
    rewrite <- Hget in Hrun. discriminate Hrun.
Qed.

(** C3, amended.  The submit view is judge-only.  It never runs the
    deterministic runner: its outcome does not depend on what pandas would
    do.  When it grades a submission, the judge has been called with
    [None] as runner result and no other call was made; the judge field of
    the persisted Grade is the judge's result (or the fallback for a judge
    that raised) made JSON safe; the score of the Grade is the score of
    the judge's result (0.0 for a judge that raised); and the response is
    the dict of the seven keys, with the score of the Grade under [score],
    [None] under [runner] and the judge of the Grade under [judge]
    (without its debug bag outside a debugging context). *)
Theorem submit_answer_judge_only W request :
  (forall rc,
      submit_answer (with_read_csv W rc) request = submit_answer W request) /\
  (forall submission grade calls response,
      submit_answer W request =
        {| created_submission := Some submission;
           created_grade := Some grade;
           http_calls := calls;
           returned := Ok (JsonResponse response) |} ->
      let judged :=
        sonar_reasoning.judge_answer W
          (question_payload (submission_question submission))
          (submission_payload W submission) PNone in
      calls = fst judged /\
      grade_submission grade = submission /\
      grade_judge grade
      = utils.make_json_safe
          match snd judged with
          | Ok judge_result => judge_result
          | Raise e => judge_error_result W e
          end /\
      match snd judged with
      | Ok judge_result =>
          py_get judge_result (txt "score") PNone
          = Ok (PFloat (grade_score grade))
      | Raise _ => grade_score grade = S754_zero false
      end /\
      final_score W (grade_judge grade) = Ok (grade_score grade) /\
      response
      = dict_of [("ok", PBool true);
                 ("submission_id", PStr (submission_id submission));
                 ("grade_id", PStr (grade_id grade));
                 ("score", PFloat (grade_score grade));
                 ("runner", PNone);
                 ("judge", strip_debug W (grade_judge grade));
                 ("file_url", submission_file_url submission)]).
Proof.
  split; [intros rc; reflexivity|].
  intros submission grade calls response H.
  destruct (submit_answer_cases W request)
    as [(r & Hr & _) | (d & a & q & cs & jr & score & _ & _ & _ & _ & _ & Hj
                        & _ & Hform & Hscore & _ & Hs)].
  { rewrite Hr in H. discriminate H. }
  rewrite Hs in H.
  destruct (save_grade W (new_grade W (new_submission W a q d) jr score));
    [|discriminate H].
  injection H as <- <- <- <-.
  cbn zeta.
  change (submission_question (new_submission W a q d)) with q.
  unfold call_judge in Hj.
  destruct (sonar_reasoning.judge_answer W (question_payload q)
              (submission_payload W (new_submission W a q d)) PNone)
    as [cs' r'] eqn:Eja.
  cbn [fst snd new_grade grade_judge grade_score grade_submission].
  destruct (final_score_form W jr Hform) as (score' & Hs' & _ & Hsc).
  rewrite Hscore in Hs'. injection Hs' as <-.
  destruct r' as [j|e]; injection Hj as <- <-.
  - repeat split; try reflexivity; try exact Hscore.
    destruct Hsc as [Hsc|[Hsc _]]; [exact Hsc|].
    destruct (judge_answer_result_form _ _ _ _ _ _ Eja)
      as (_ & f & v & m & i & c & dbg & -> & _).
    discriminate Hsc.
  - repeat split; try reflexivity; try exact Hscore.
    destruct Hsc as [Hsc|[_ Hsc]]; [discriminate Hsc | exact Hsc].
Qed.

(** The sample request, with no credential and outside a debugging
    context. *)
Lemma submit_answer_judge_only_witness :
  exists submission grade calls response,
    submit_answer (world None false endpoint_down) submit_request =
      {| created_submission := Some submission;
         created_grade := Some grade;
         http_calls := calls;
         returned := Ok (JsonResponse response) |} /\
    calls = [] /\
    grade_score grade = S754_zero false /\
    response
    = dict_of [("ok", PBool true);
               ("submission_id", PStr (submission_id submission));
               ("grade_id", PStr (grade_id grade));
               ("score", PFloat (grade_score grade));
               ("runner", PNone);
               ("judge", strip_debug (world None false endpoint_down)
                           (grade_judge grade));
               ("file_url", submission_file_url submission)].
Proof.
  eexists. eexists. eexists. eexists.
  split; [vm_compute; reflexivity|].
  split; [reflexivity|]. split; [reflexivity|].
  refine (proj2 (proj2 (proj2 (proj2 (proj2
    (proj2 (submit_answer_judge_only (world None false endpoint_down)
              submit_request) _ _ _ _ _)))))).
  vm_compute. reflexivity.
Defined.

(** Ids that are not UUIDs never reach the grading: the lookup raises. *)
Example submit_answer_bad_ids :
  submit_answer (world None false endpoint_down) bad_id_request
  = no_effect (Raise (External (txt "ValidationError")
                        (txt "is not a valid UUID."))).
Proof. vm_compute. reflexivity. Qed.

End evaluation_flow.

(** * Further properties *)

(** ** More on the judge client *)

Section judge_client_more.
Import sonar_reasoning schemas samples.
Local Open Scope string_scope.

Lemma pystr_eqb_refl (a : pystr) : pystr_eqb a a = true.
Proof. induction a as [|x a IH]; simpl; [reflexivity|]. rewrite N.eqb_refl. exact IH. Qed.

Lemma pystr_eqb_eq (a b : pystr) : pystr_eqb a b = true <-> a = b.
Proof.
  split; [|intros ->; apply pystr_eqb_refl].
  revert b; induction a as [|x a IH]; intros [|y b]; simpl; try discriminate;
    [reflexivity|].
  intros H. apply andb_true_iff in H. destruct H as [Hx Hr].
  apply N.eqb_eq in Hx. apply IH in Hr. congruence.
Qed.

Lemma pystr_eqb_sym (a b : pystr) : pystr_eqb a b = pystr_eqb b a.
Proof.
  destruct (pystr_eqb a b) eqn:E.
  - apply pystr_eqb_eq in E. subst. symmetry. apply pystr_eqb_refl.
  - destruct (pystr_eqb b a) eqn:E'; [|reflexivity].
    apply pystr_eqb_eq in E'. subst. rewrite pystr_eqb_refl in E. discriminate.
Qed.

(** Setting one key leaves the lookup of another key alone. *)
Lemma dict_find_set_other (d : list (pyval * pyval)) (k k' : pystr) v :
  pystr_eqb k k' = false ->
  dict_find (dict_set d k v) k' = dict_find d k'.
Proof.
  intros Hk. induction d as [|[key w] d IH]; simpl.
  - rewrite Hk. reflexivity.
  - destruct key; simpl; try exact IH.
    destruct (pystr_eqb s k) eqn:E1.
    + apply pystr_eqb_eq in E1. subst s. simpl. rewrite Hk. reflexivity.
    + simpl. destruct (pystr_eqb s k'); [reflexivity | exact IH].
Qed.

Lemma dict_find_set_same (d : list (pyval * pyval)) (k : pystr) v :
  dict_find (dict_set d k v) k = Some v.
Proof.
  induction d as [|[key w] d IH]; simpl.
  - rewrite pystr_eqb_refl. reflexivity.
  - destruct key; simpl; try exact IH.
    destruct (pystr_eqb s k) eqn:E1; simpl; rewrite E1; [reflexivity | exact IH].
Qed.

(** *** The calls to the endpoint *)

(** [judge_answer] never calls the endpoint twice.  It makes no call
    exactly when there is no credential or an argument cannot be
    serialised; its one call goes to the fixed URL with a timeout of 60
    seconds, the credential as bearer token and the prompt built from the
    three arguments. *)
Theorem judge_answer_single_call W q s rr :
  match fst (judge_answer W q s rr) with
  | [] =>
      has_api_key W = false \/ exists e, judge_prompt W q s rr = Raise e
  | [call] =>
      has_api_key W = true /\
      call_url call = API_URL /\
      call_timeout call = PInt 60 /\
      py_get (call_headers call) (txt "Authorization") PNone
      = Ok (PStr (txt "Bearer " ++ api_key_text W)%list) /\
      exists user,
        judge_prompt W q s rr = Ok user /\
        call_json call = judge_payload user
  | _ :: _ :: _ => False
  end.
Proof.
  unfold judge_answer.
  destruct (has_api_key W) eqn:Hk; cbn [negb fst]; [|left; reflexivity].
  destruct (judge_prompt W q s rr) as [user|e] eqn:Hp;
    [|cbn [fst]; right; exists e; reflexivity].
  destruct (requests_post W (judge_call W user)); cbn [fst];
    (split; [reflexivity|]); repeat split; exists user; split; reflexivity.
Qed.

(** *** Transport failure *)

(** When [requests.post] raises, whatever the exception, the result is the
    network-error result: score 0.0, the text of the exception in
    [improvements] and in [debug], after exactly one call. *)
Theorem judge_answer_network_error W q s rr user e :
  has_api_key W = true ->
  judge_prompt W q s rr = Ok user ->
  requests_post W (judge_call W user) = Raise e ->
  judge_answer W q s rr
  = ([judge_call W user],
     Ok (dict_of
           [("score", PFloat (S754_zero false));
            ("verdict", PStr (txt "Sonar unavailable (network error)"));
            ("mistakes", PList []);
            ("improvements",
             PList [PStr (txt "network_error: " ++ exn_str (runtime W) e)%list]);
            ("citations", PList []);
            ("debug", dict_of [("exception", PStr (exn_str (runtime W) e))])])).
Proof.
  intros Hk Hp Hr. unfold judge_answer. rewrite Hk, Hp, Hr. reflexivity.
Qed.

Lemma judge_answer_network_error_witness :
  judge_answer (world some_key true endpoint_down) (PDict []) (PDict []) PNone
  = ([judge_call (world some_key true endpoint_down)
        (user_prompt (txt "{}") (txt "{}") (txt "null"))],
     Ok (dict_of
           [("score", PFloat (S754_zero false));
            ("verdict", PStr (txt "Sonar unavailable (network error)"));
            ("mistakes", PList []);
            ("improvements", PList [PStr (txt "network_error: timed out")]);
            ("citations", PList []);
            ("debug", dict_of [("exception", PStr (txt "timed out"))])])).
Proof.
  apply (judge_answer_network_error (world some_key true endpoint_down)
           (PDict []) (PDict []) PNone
           (user_prompt (txt "{}") (txt "{}") (txt "null"))
           (External (txt "ConnectTimeout") (txt "timed out")));
    reflexivity.
Defined.

(** *** The six keys and the debug bag *)

Lemma normalize_six_keys W parsed status raw r :
  normalize W parsed status raw = Ok r ->
  exists f verdict m i c,
    r = dict_of [("score", PFloat f); ("verdict", verdict); ("mistakes", m);
                 ("improvements", i); ("citations", c);
                 ("debug", dict_of [("http_status", status);
                                    ("raw_excerpt", raw)])].
Proof.
  destruct parsed; try discriminate.
  unfold normalize. cbn [py_get bind]. intros [= <-].
  do 5 eexists. reflexivity.
Qed.

Lemma chat_content_truthy data c :
  chat_content data = Ok (Some c) -> truthy c = true.
Proof.
  unfold chat_content.
  destruct (is_dict data); [|discriminate].
  destruct (py_get data (txt "choices") PNone) as [ch|]; [|discriminate].
  cbn [bind].
  destruct (truthy (py_or ch (PList []))); [|discriminate].
  destruct (py_index0 (py_or ch (PList []))) as [first|]; [|discriminate].
  cbn [bind].
  destruct (is_dict first); [|discriminate].
  destruct (py_get first (txt "message") PNone) as [m|]; [|discriminate].
  cbn [bind].
  destruct (py_get (py_or m (PDict [])) (txt "content") PNone) as [c1|];
    [|discriminate].
  cbn [bind].
  destruct (truthy c1) eqn:E1; cbn [bind].
  - rewrite E1. intros [= <-]. exact E1.
  - destruct (py_get (py_or m (PDict [])) (txt "text") PNone) as [c2|];
      [|discriminate].
    cbn [bind]. destruct (truthy c2) eqn:E2; [|discriminate].
    intros [= <-]. exact E2.
Qed.

(** The candidate text is text, or a value that is true in a condition. *)
Lemma extract_candidate_text_kind W resp ct :
  _extract_candidate_text W resp = Ok ct ->
  (exists t, ct = PStr t) \/ truthy ct = true.
Proof.
  unfold _extract_candidate_text.
  destruct (resp_json resp) as [data|].
  - destruct (chat_content data) as [[c|]|] eqn:E; cbn [bind]; try discriminate.
    + intros [= <-]. right. eapply chat_content_truthy; eauto.
    + destruct (Json.dumps (runtime W) data); cbn [bind]; [|discriminate].
      intros [= <-]. left. eexists; reflexivity.
  - intros [= <-]. left. unfold py_or. destruct (truthy (PStr (text resp)));
      eexists; reflexivity.
Qed.

Lemma safe_parse_json_not_text ct p :
  _safe_parse_json ct = Ok p -> truthy ct = true -> exists t, ct = PStr t.
Proof.
  unfold _safe_parse_json. intros H Ht. rewrite Ht in H. cbn [negb] in H.
  destruct ct; try discriminate H. eexists; reflexivity.
Qed.

Lemma excerpt400_length (t : pystr) : (List.length (excerpt400 t) <= 403)%nat.
Proof.
  unfold excerpt400. rewrite length_app, length_firstn.
  change (List.length (txt "...")) with 3%nat. lia.
Qed.

Lemma fallback_excerpt_length resp :
  exists t, fallback_excerpt resp = PStr t /\ (List.length t <= 403)%nat.
Proof.
  unfold fallback_excerpt. destruct (text resp) as [|c r].
  - exists []. split; [reflexivity | simpl; lia].
  - eexists. split; [reflexivity | apply excerpt400_length].
Qed.

Lemma extract_block_excerpt W resp ct raw p :
  extract_block W resp = (Some ct, raw) ->
  _safe_parse_json ct = Ok p ->
  exists t, raw = PStr t /\ (List.length t <= 403)%nat.
Proof.
  unfold extract_block.
  destruct (_extract_candidate_text W resp) as [c|] eqn:E; [|discriminate].
  intros H Hp.
  assert (Hc : exists t, c = PStr t).
  { destruct (extract_candidate_text_kind _ _ _ E) as [Ht|Ht]; [exact Ht|].
    assert (c = ct) as -> by
      (destruct (bind (py_len c) _); injection H; auto).
    eapply safe_parse_json_not_text; eauto. }
  destruct Hc as [t ->]. cbn [py_len bind] in H.
  destruct (Z.of_nat (List.length t) >? 400)%Z eqn:En; cbn in H.
  - injection H as _ <-. eexists. split; [reflexivity | apply excerpt400_length].
  - injection H as _ <-. exists t. split; [reflexivity|].
    rewrite Z.gtb_ltb in En. apply Z.ltb_ge in En. lia.
Qed.

(** Every result built from a response of the endpoint has the six keys,
    and its [debug] bag holds the status of the response and an excerpt of
    at most 403 characters (400 and three dots). *)
Theorem judge_answer_debug_excerpt W q s rr user resp r :
  has_api_key W = true ->
  judge_prompt W q s rr = Ok user ->
  requests_post W (judge_call W user) = Ok resp ->
  judge_answer W q s rr = ([judge_call W user], Ok r) ->
  exists f verdict m i c t,
    r = dict_of [("score", PFloat f); ("verdict", verdict); ("mistakes", m);
                 ("improvements", i); ("citations", c);
                 ("debug", dict_of [("http_status", PInt (status_code resp));
                                    ("raw_excerpt", PStr t)])] /\
    (List.length t <= 403)%nat.
Proof.
  intros Hk Hp Hr. unfold judge_answer. rewrite Hk, Hp, Hr. cbn [negb].
  intros [= H]. unfold judge_response in H.
  destruct (extract_block W resp) as [[ct|] raw] eqn:Eb; [|discriminate].
  destruct (_safe_parse_json ct) as [p|] eqn:Ep; [|discriminate].
  destruct (extract_block_excerpt _ _ _ _ _ Eb Ep) as (t & -> & Hlen).
  cbn [bind] in H. destruct (truthy p).
  - cbn [negb] in H. destruct (normalize_six_keys _ _ _ _ _ H)
      as (f & v & m & i & c & ->).
    exists f, v, m, i, c, t. split; [reflexivity | exact Hlen].
  - cbn [negb] in H. injection H as <-.
    do 5 eexists. exists t. split; [reflexivity | exact Hlen].
Qed.

Lemma judge_answer_debug_excerpt_witness :
  exists f verdict m i c t,
    unparsable_result (PInt 500) (PStr (txt "Internal Server Error"))
    = dict_of [("score", PFloat f); ("verdict", verdict); ("mistakes", m);
               ("improvements", i); ("citations", c);
               ("debug", dict_of [("http_status", PInt 500);
                                  ("raw_excerpt", PStr t)])] /\
    (List.length t <= 403)%nat.
Proof.
  apply (judge_answer_debug_excerpt
           (world some_key true
              (endpoint_replying 500 (txt "Internal Server Error")))
           (PDict []) (PDict []) PNone
           (user_prompt (txt "{}") (txt "{}") (txt "null"))
           {| status_code := 500; text := txt "Internal Server Error" |}
           (unparsable_result (PInt 500) (PStr (txt "Internal Server Error"))));
    vm_compute; reflexivity.
Defined.

End judge_client_more.

Section judge_client_more2.
Import sonar_reasoning schemas samples.
Local Open Scope string_scope.

(** *** The clamp, case by case *)

(** A score strictly between 0 and 100 is kept; a score that is not
    below 100 (100 or more, plus infinity, and also not-a-number, for
    which every comparison is false) becomes 100.0; any other becomes 0.0;
    a value [float()] rejects becomes 0.0; and clamping twice changes
    nothing. *)
Theorem clamp_score_cases W :
  (forall x, flt f_zero x = true -> flt x f_100 = true ->
             clamp_score W (PFloat x) = x) /\
  (forall x, flt x f_100 = false -> clamp_score W (PFloat x) = f_100) /\
  (forall x, flt x f_100 = true -> flt f_zero x = false ->
             clamp_score W (PFloat x) = f_zero) /\
  clamp_score W (PFloat S754_nan) = f_100 /\
  (forall v e, py_float (runtime W) v = Raise e -> clamp_score W v = f_zero) /\
  (forall v, clamp_score W (PFloat (clamp_score W v)) = clamp_score W v).
Proof.
  assert (Hcl : forall x, clamp_score W (PFloat x)
                          = py_max f_zero (py_min f_100 x)) by reflexivity.
  repeat split.
  - intros x H0 H1. rewrite Hcl. unfold py_max, py_min. rewrite H1, H0.
    reflexivity.
  - intros x H1. rewrite Hcl. unfold py_max, py_min. rewrite H1. reflexivity.
  - intros x H1 H0. rewrite Hcl. unfold py_max, py_min. rewrite H1, H0.
    reflexivity.
  - intros v e H. unfold clamp_score. rewrite H. reflexivity.
  - intros v. rewrite Hcl. unfold clamp_score.
    destruct (py_float (runtime W) v) as [x|]; [|reflexivity].
    unfold py_max, py_min.
    destruct (flt x f_100) eqn:H1.
    + destruct (flt f_zero x) eqn:H0.
      * rewrite H1, H0. reflexivity.
      * reflexivity.
    + reflexivity.
Qed.

Lemma clamp_score_cases_witness :
  clamp_score (world None true endpoint_down)
    (PFloat (float_of_decimal false 855 (-1)))
  = float_of_decimal false 855 (-1)
  /\
  clamp_score (world None true endpoint_down) (PFloat (S754_infinity false))
  = f_100
  /\
  clamp_score (world None true endpoint_down)
    (PFloat (float_of_decimal true 3 0))
  = f_zero
  /\
  clamp_score (world None true endpoint_down) (PList [PInt 90]) = f_zero.
Proof.
  pose proof (clamp_score_cases (world None true endpoint_down))
    as (Hin & Hhi & Hlo & _ & Hbad & _).
  split; [apply Hin; reflexivity|].
  split; [apply Hhi; reflexivity|].
  split; [apply Hlo; reflexivity|].
  apply (Hbad (PList [PInt 90]) TypeError). reflexivity.
Defined.

(** *** Alias keys *)

(** A primary key that is present, whatever its value, hides its alias:
    adding or changing [grade], [summary], [errors] or [advice] in an
    object that has [score], [verdict], [mistakes] or [improvements]
    changes nothing in the result. *)
Theorem normalize_primary_hides_alias W d status raw v alias_value :
  (dict_find d (txt "score") = Some v ->
   normalize W (PDict (dict_set d (txt "grade") alias_value)) status raw
   = normalize W (PDict d) status raw) /\
  (dict_find d (txt "verdict") = Some v ->
   normalize W (PDict (dict_set d (txt "summary") alias_value)) status raw
   = normalize W (PDict d) status raw) /\
  (dict_find d (txt "mistakes") = Some v ->
   normalize W (PDict (dict_set d (txt "errors") alias_value)) status raw
   = normalize W (PDict d) status raw) /\
  (dict_find d (txt "improvements") = Some v ->
   normalize W (PDict (dict_set d (txt "advice") alias_value)) status raw
   = normalize W (PDict d) status raw).
Proof.
  unfold normalize, py_get. cbn [bind].
  repeat split; intros H;
    repeat match goal with
    | |- context [dict_find (dict_set d ?k alias_value) ?k'] =>
        first [ rewrite (dict_find_set_other d k k' alias_value eq_refl)
              | rewrite (dict_find_set_same d k alias_value) ]
    end;
    rewrite H; reflexivity.
Qed.

Lemma normalize_primary_hides_alias_witness :
  normalize (world None true endpoint_down)
    (PDict (dict_set [(PStr (txt "score"), PNone)] (txt "grade") (PInt 90)))
    (PInt 200) (PStr [])
  = normalize (world None true endpoint_down)
      (PDict [(PStr (txt "score"), PNone)]) (PInt 200) (PStr []).
Proof.
  apply (proj1 (normalize_primary_hides_alias
                  (world None true endpoint_down)
                  [(PStr (txt "score"), PNone)] (PInt 200) (PStr [])
                  PNone (PInt 90))).
  reflexivity.
Defined.

(** A null score next to a grade of 90 is a score of 0.0. *)
Example normalize_null_score_with_grade :
  normalize (world None true endpoint_down)
    (dict_of [("score", PNone); ("grade", PInt 90)]) (PInt 200) (PStr [])
  = Ok (dict_of [("score", PFloat (S754_zero false));
                 ("verdict", PStr []);
                 ("mistakes", PList []);
                 ("improvements", PList []);
                 ("citations", PList []);
                 ("debug", dict_of [("http_status", PInt 200);
                                    ("raw_excerpt", PStr [])])]).
Proof. vm_compute. reflexivity. Qed.

(** *** The health check in a debugging context *)

(** In a debugging context and with a credential [ping] never raises.  It
    makes exactly one call, with the timeout it was given, and reports
    success exactly when the response has a 2xx status and a body that is
    a JSON document other than [null]. *)
Theorem ping_in_debug W timeout :
  DEBUG W = true ->
  has_api_key W = true ->
  exists ok info,
    ping W timeout = ([ping_call W timeout], Ok (ok, info)) /\
    call_timeout (ping_call W timeout) = timeout /\
    (ok = true <->
     exists resp v,
       requests_post W (ping_call W timeout) = Ok resp /\
       (200 <= status_code resp < 300)%Z /\
       resp_json resp = Ok v /\ v <> PNone).
Proof.
  intros Hd Hk. unfold ping. rewrite Hd, Hk. cbn [negb].
  destruct (requests_post W (ping_call W timeout)) as [resp|e] eqn:Hr.
  - eexists. eexists. split; [reflexivity|]. split; [reflexivity|].
    split.
    + intros H. apply andb_true_iff in H. destruct H as [H Hn].
      apply andb_true_iff in H. destruct H as [H1 H2].
      apply Z.leb_le in H1. apply Z.ltb_lt in H2.
      destruct (resp_json resp) as [v|] eqn:Ej; [|discriminate Hn].
      exists resp, v. repeat split; try assumption; try lia.
      intros ->. discriminate Hn.
    + intros (resp' & v & [= <-] & [H1 H2] & Ej & Hv).
      rewrite Ej. apply andb_true_iff. split.
      * apply andb_true_iff. split; [apply Z.leb_le | apply Z.ltb_lt]; lia.
      * destruct v; try reflexivity. congruence.
  - eexists. eexists. split; [reflexivity|]. split; [reflexivity|].
    split; [discriminate|].
    intros (resp' & v & H & _). discriminate H.
Qed.

Lemma ping_in_debug_witness :
  exists ok info,
    ping (world some_key true (endpoint_replying 200 (txtq "{'ok': true}")))
      (PInt 8)
    = ([ping_call
          (world some_key true (endpoint_replying 200 (txtq "{'ok': true}")))
          (PInt 8)],
       Ok (ok, info)).
Proof.
  destruct (ping_in_debug
              (world some_key true (endpoint_replying 200 (txtq "{'ok': true}")))
              (PInt 8) eq_refl eq_refl) as (ok & info & H & _).
  exists ok, info. exact H.
Defined.

End judge_client_more2.

Section extractor_block.
Import sonar_reasoning samples.

(** *** The block the extractor parses *)

Lemma rfind_brace_none_iff (s : pystr) :
  rfind_brace s = None <-> Forall (fun c => c <> cp "{") s.
Proof.
  induction s as [|c r IH]; [split; [constructor | reflexivity]|].
  cbn [rfind_brace]. split.
  - destruct (rfind_brace r) eqn:E; [discriminate|].
    destruct (N.eqb c (cp "{")) eqn:Ec; [discriminate|]. intros _.
    constructor; [apply N.eqb_neq; exact Ec | apply IH; reflexivity].
  - intros H. inversion H as [|? ? Hc Hr]; subst.
    apply IH in Hr. rewrite Hr. apply N.eqb_neq in Hc. rewrite Hc. reflexivity.
Qed.

Lemma rfind_brace_app (pre tail : pystr) :
  rfind_brace tail = None ->
  rfind_brace (pre ++ cp "{" :: tail) = Some (List.length pre).
Proof.
  intros H. induction pre as [|c pre IH]; cbn [app rfind_brace List.length].
  - rewrite H. reflexivity.
  - rewrite IH. reflexivity.
Qed.

Lemma brace_scan_first_close (candidate post : pystr) :
  forall inner i,
    Forall (fun c => c <> cp "{" /\ c <> cp "}") inner ->
    brace_scan candidate (inner ++ cp "}" :: post) i 1
    = match Json.loads_str (firstn (S (i + List.length inner)) candidate) with
      | Ok v => v
      | Raise _ => PNone
      end.
Proof.
  induction inner as [|c inner IH]; intros i H; cbn [app brace_scan List.length].
  - change (N.eqb (cp "}") (cp "{")) with false.
    change (N.eqb (cp "}") (cp "}")) with true. cbv iota.
    change (1 - 1 =? 0)%Z with true. cbv iota.
    rewrite Nat.add_0_r. reflexivity.
  - inversion H as [|? ? [Ho Hc] Hr]; subst.
    apply N.eqb_neq in Ho, Hc. rewrite Ho, Hc.
    rewrite (IH (S i) Hr). rewrite Nat.add_succ_r. reflexivity.
Qed.

Lemma firstn_through {A} (inner : list A) (c : A) (post : list A) :
  firstn (S (List.length inner)) (inner ++ c :: post) = inner ++ [c].
Proof.
  induction inner as [|x inner IH]; [reflexivity|].
  simpl. f_equal. exact IH.
Qed.

(** When the whole text is not a JSON document, the extractor looks at one
    block only: from the last opening brace to the first closing brace
    after it.  It returns the value of that block if the block is JSON and
    [None] otherwise, whatever comes before the block and whatever closing
    braces come after it. *)
Theorem safe_parse_json_last_block (pre inner post : pystr) (e : exn) :
  Forall (fun c => c <> cp "{" /\ c <> cp "}") inner ->
  Forall (fun c => c <> cp "{") post ->
  Json.loads_str (pre ++ cp "{" :: inner ++ cp "}" :: post) = Raise e ->
  _safe_parse_json (PStr (pre ++ cp "{" :: inner ++ cp "}" :: post))
  = Ok match Json.loads_str (cp "{" :: inner ++ [cp "}"]) with
       | Ok v => v
       | Raise _ => PNone
       end.
Proof.
  intros Hin Hpost Hl. unfold _safe_parse_json.
  assert (Ht : truthy (PStr (pre ++ cp "{" :: inner ++ cp "}" :: post)) = true)
    by (destruct pre; reflexivity).
  rewrite Ht. cbn [negb Json.loads]. rewrite Hl.
  assert (Htail : rfind_brace (inner ++ cp "}" :: post) = None).
  { apply rfind_brace_none_iff. apply Forall_app. split.
    - revert Hin. apply Forall_impl. tauto.
    - constructor; [discriminate | exact Hpost]. }
  rewrite (rfind_brace_app pre _ Htail).
  rewrite skipn_app, skipn_all, Nat.sub_diag. cbn [app skipn].
  cbn [brace_scan]. change (N.eqb (cp "{") (cp "{")) with true. cbv iota.
  change (0 + 1)%Z with 1%Z.
  rewrite (brace_scan_first_close _ post inner 1 Hin).
  change (firstn (S (1 + List.length inner))
            (cp "{" :: inner ++ cp "}" :: post))
    with (cp "{" :: firstn (S (List.length inner)) (inner ++ cp "}" :: post)).
  rewrite firstn_through. reflexivity.
Qed.

Lemma safe_parse_json_last_block_witness :
  _safe_parse_json (PStr (txtq "prefix {'a':1} suffix"))
  = Ok (dict_of [("a"%string, PInt 1)])
  /\
  _safe_parse_json (PStr (txtq "x {'a': '}'} y")) = Ok PNone.
Proof.
  split.
  - apply (safe_parse_json_last_block (txt "prefix ") (txtq "'a':1")
             (txt " suffix") JSONDecodeError).
    + repeat constructor; discriminate.
    + repeat constructor; discriminate.
    + reflexivity.
  - apply (safe_parse_json_last_block (txt "x ") (txtq "'a': '")
             (txtq "'} y") JSONDecodeError).
    + repeat constructor; discriminate.
    + repeat constructor; discriminate.
    + reflexivity.
Defined.

End extractor_block.

(** ** What the decoder returns, and what the encoder accepts *)

Section json_documents.
Import Json json_values.

Lemma match_literal_jsonish s v rest :
  match_literal s = Some (v, rest) -> jsonish v = true.
Proof.
  unfold match_literal.
  repeat match goal with
  | |- context [strip_prefix ?p s] =>
      destruct (strip_prefix p s); [intros [= <- _]; reflexivity|]
  end.
  discriminate.
Qed.

Lemma match_number_jsonish s v rest :
  match_number s = Some (v, rest) -> jsonish v = true.
Proof.
  unfold match_number.
  repeat match goal with
  | |- context [match ?x with _ => _ end] =>
      match type of x with
      | sumbool _ _ => fail 1
      | _ => destruct x
      end
  | |- context [let (_, _) := ?x in _] => destruct x
  end; try discriminate; intros [= <- _]; reflexivity.
Qed.

Lemma dict_set_members_ok d k v :
  members_ok d = true -> jsonish v = true -> members_ok (dict_set d k v) = true.
Proof.
  intros Hd Hv. induction d as [|[key w] d IH]; simpl.
  - unfold members_ok. simpl. rewrite Hv. reflexivity.
  - unfold members_ok in *. simpl in Hd. apply andb_true_iff in Hd.
    destruct Hd as [Hkw Hd]. destruct key; try discriminate Hkw.
    destruct (pystr_eqb s k); simpl.
    + rewrite Hv, Hd. reflexivity.
    + rewrite Hkw. simpl. apply IH. exact Hd.
Qed.

Lemma forallb_rev {A} (f : A -> bool) (l : list A) :
  forallb f (rev l) = forallb f l.
Proof.
  induction l as [|x l IH]; [reflexivity|].
  simpl. rewrite forallb_app, IH. simpl. rewrite andb_true_r. apply andb_comm.
Qed.

(** Whatever the scanner returns is the value of a JSON document. *)
Lemma scan_jsonish (fuel : nat) :
  (forall s v rest, scan_once fuel s = Scanned v rest -> jsonish v = true) /\
  (forall s acc v rest,
      forallb jsonish acc = true ->
      parse_array fuel s acc = Scanned v rest -> jsonish v = true) /\
  (forall s acc v rest,
      members_ok acc = true ->
      parse_object fuel s acc = Scanned v rest -> jsonish v = true).
Proof.
  induction fuel as [|fuel (IHv & IHa & IHo)].
  { repeat split; intros; discriminate. }
  split; [|split].
  - intros s v rest. cbn [scan_once].
    destruct s as [|c r]; [discriminate|].
    destruct (N.eqb c dquote).
    { destruct (scanstring r []) as [[k rest0]|]; [|discriminate].
      intros [= <- _]. reflexivity. }
    destruct (N.eqb c (cp "{")).
    { destruct (skip_ws r) as [|c1 r2]; [discriminate|].
      destruct (N.eqb c1 (cp "}")); [intros [= <- _]; reflexivity|].
      apply IHo. reflexivity. }
    destruct (N.eqb c (cp "[")).
    { destruct (skip_ws r) as [|c1 r2]; [discriminate|].
      destruct (N.eqb c1 (cp "]")); [intros [= <- _]; reflexivity|].
      apply IHa. reflexivity. }
    destruct (match_literal (c :: r)) as [[v0 rest0]|] eqn:E.
    { intros [= <- _]. eapply match_literal_jsonish; eauto. }
    destruct (match_number (c :: r)) as [[v0 rest0]|] eqn:E'; [|discriminate].
    intros [= <- _]. eapply match_number_jsonish; eauto.
  - intros s acc v rest Hacc. cbn [parse_array].
    destruct (scan_once fuel s) as [v0 rest0| |] eqn:E; try discriminate.
    apply IHv in E.
    destruct (skip_ws rest0) as [|c r]; [discriminate|].
    destruct (N.eqb c (cp "]")).
    { intros [= <- _]. change (forallb jsonish (rev (v0 :: acc)) = true).
      rewrite forallb_rev. simpl. rewrite E, Hacc. reflexivity. }
    destruct (N.eqb c (cp ",")); [|discriminate].
    apply IHa. simpl. rewrite E, Hacc. reflexivity.
  - intros s acc v rest Hacc. cbn [parse_object].
    destruct s as [|q r]; [discriminate|].
    destruct (N.eqb q dquote); [|discriminate].
    destruct (scanstring r []) as [[k rest0]|]; [|discriminate].
    destruct (skip_ws rest0) as [|col r1]; [discriminate|].
    destruct (N.eqb col (cp ":")); [|discriminate].
    destruct (scan_once fuel (skip_ws r1)) as [v0 rest2| |] eqn:E;
      try discriminate.
    apply IHv in E.
    pose proof (dict_set_members_ok acc k v0 Hacc E) as Hset.
    destruct (skip_ws rest2) as [|c r3]; [discriminate|].
    destruct (N.eqb c (cp "}")); [intros [= <- _]; exact Hset|].
    destruct (N.eqb c (cp ",")); [|discriminate].
    apply IHo. exact Hset.
Qed.

Lemma loads_str_jsonish s v : loads_str s = Ok v -> jsonish v = true.
Proof.
  unfold loads_str.
  destruct (scan_once (2 * List.length s + 1) (skip_ws s)) as [v0 rest| |] eqn:E;
    try discriminate.
  destruct (skip_ws rest); [|discriminate].
  intros [= <-]. eapply (proj1 (scan_jsonish _)); eauto.
Qed.

(** The encoder accepts every value of a JSON document. *)
Lemma dumps_jsonish R v : jsonish v = true -> exists t, dumps R v = Ok t.
Proof.
  induction v as [| [|] | | | |l IH|l IH|d IH| | |] using pyval_ind;
    intros H; try discriminate H; try (eexists; reflexivity).
  - cbn [dumps].
    assert (He : exists items,
               (fix elems (l : list pyval) : res (list pystr) :=
                  match l with
                  | [] => Ok []
                  | x :: l' =>
                      bind (dumps R x)
                        (fun a => bind (elems l') (fun b => Ok (a :: b)))
                  end) l = Ok items).
    { cbn [jsonish] in H. induction l as [|x l IHl]; [eexists; reflexivity|].
      simpl in H. apply andb_true_iff in H. destruct H as [Hx Hl].
      inversion IH as [|? ? Px Pl]; subst.
      destruct (Px Hx) as [a ->]. destruct (IHl Pl Hl) as [b ->].
      eexists; reflexivity. }
    destruct He as [items ->]. eexists; reflexivity.
  - cbn [dumps].
    assert (He : exists items,
               (fix members (d : list (pyval * pyval)) : res (list pystr) :=
                  match d with
                  | [] => Ok []
                  | kv :: d' =>
                      bind (key_str R (fst kv))
                        (fun k =>
                           bind (dumps R (snd kv))
                             (fun a =>
                                bind (members d')
                                  (fun b =>
                                     Ok ((encode_str k ++ txt ": " ++ a)%list
                                         :: b))))
                  end) d = Ok items).
    { cbn [jsonish] in H. induction d as [|[k x] d IHd]; [eexists; reflexivity|].
      simpl in H. apply andb_true_iff in H. destruct H as [Hx Hd].
      inversion IH as [|? ? Px Pd]; subst. cbn [fst snd] in *.
      destruct k; try discriminate Hx.
      destruct (Px Hx) as [a ->]. destruct (IHd Pd Hd) as [b ->].
      eexists; reflexivity. }
    destruct He as [items ->]. eexists; reflexivity.
Qed.

End json_documents.

Section candidate_text.
Import sonar_reasoning json_values.

(** Outside the chat envelope the candidate text is always text and the
    extraction never raises: the body itself when the body is not JSON,
    the body serialised again when it is JSON but not an object, or an
    object whose [choices] is missing or false in a condition. *)
Theorem extract_candidate_text_outside_chat W resp :
  (forall e, resp_json resp = Raise e ->
             _extract_candidate_text W resp = Ok (PStr (text resp))) /\
  (forall data,
      resp_json resp = Ok data ->
      is_dict data = false \/
      (exists ch, py_get data (txt "choices") PNone = Ok ch /\
                  truthy ch = false) ->
      exists t, Json.dumps (runtime W) data = Ok t /\
                _extract_candidate_text W resp = Ok (PStr t)).
Proof.
  split.
  - intros e H. unfold _extract_candidate_text. rewrite H.
    unfold py_or. destruct (text resp); reflexivity.
  - intros data H Hc. unfold _extract_candidate_text. rewrite H.
    destruct (dumps_jsonish (runtime W) data (loads_str_jsonish _ _ H))
      as [t Ht].
    exists t. split; [exact Ht|].
    assert (Hn : chat_content data = Ok None).
    { unfold chat_content. destruct Hc as [Hd|(ch & Hg & Hf)].
      - rewrite Hd. reflexivity.
      - destruct (is_dict data); [|reflexivity].
        rewrite Hg. cbn [bind]. unfold py_or. rewrite Hf. reflexivity. }
    rewrite Hn. cbn [bind]. rewrite Ht. reflexivity.
Qed.

Lemma extract_candidate_text_outside_chat_witness :
  _extract_candidate_text (samples.world samples.some_key true samples.endpoint_down)
    {| status_code := 502; text := txt "Bad Gateway" |}
  = Ok (PStr (txt "Bad Gateway"))
  /\
  exists t,
    Json.dumps samples.stub_runtime (PList [PInt 1; PInt 2]) = Ok t /\
    _extract_candidate_text
      (samples.world samples.some_key true samples.endpoint_down)
      {| status_code := 200; text := txt "[1, 2]" |}
    = Ok (PStr t).
Proof.
  split.
  - apply (proj1 (extract_candidate_text_outside_chat
                    (samples.world samples.some_key true samples.endpoint_down)
                    {| status_code := 502; text := txt "Bad Gateway" |})
             JSONDecodeError).
    reflexivity.
  - apply (proj2 (extract_candidate_text_outside_chat
                    (samples.world samples.some_key true samples.endpoint_down)
                    {| status_code := 200; text := txt "[1, 2]" |})
             (PList [PInt 1; PInt 2])).
    + reflexivity.
    + left. reflexivity.
Defined.

End candidate_text.

(** ** More on the deterministic runner *)

Section deterministic_runner_more.
Import runner samples.
Local Open Scope string_scope.

(** The verdict of the runner, in full: an answer passes exactly when it
    is true in a condition and, if it is a text with a line break, pandas
    reads at least one row from it.  The result has no check for an empty
    answer and one check otherwise, and the score is 100.0 or 0.0 with
    [passed]. *)
Theorem run_checks_passed_iff W spec candidate_answer :
  exists passed checks,
    run_checks W spec candidate_answer
    = Ok (dict_of [("passed", PBool passed);
                   ("checks", PList checks);
                   ("score_runner",
                    PFloat (if passed then f_100 else S754_zero false))]) /\
    (passed = true <->
     truthy candidate_answer = true /\
     forall s, candidate_answer = PStr s -> contains_newline s = true ->
               exists rows, read_csv W s = Ok rows /\ (0 < rows)%nat) /\
    (checks = [] <-> truthy candidate_answer = false) /\
    (List.length checks <= 1)%nat.
Proof.
  unfold run_checks, run_checks_try.
  destruct (truthy candidate_answer) eqn:Ht.
  2:{ exists false, []. split; [reflexivity|]. repeat split; try discriminate.
      - intros [H _]; discriminate H.
      - simpl; lia. }
  destruct candidate_answer as [| | | |s| | | | | |];
    try (eexists true, [_]; split; [reflexivity|];
         repeat split; try discriminate; try (simpl; lia);
         intros ? [=]).
  destruct (contains_newline s) eqn:En.
  - destruct (read_csv W s) as [rows|e] eqn:Er; cbn [bind].
    + eexists (0 <? rows)%nat, [_]. split; [reflexivity|].
      repeat split; try discriminate; try (simpl; lia).
      * intros t [= <-] _. exists rows. split; [exact Er|].
        apply Nat.ltb_lt. assumption.
      * intros [_ H]. destruct (H s eq_refl En) as (rows' & Hr & Hpos).
        rewrite Er in Hr. injection Hr as <-. apply Nat.ltb_lt. exact Hpos.
    + eexists false, [_]. split; [reflexivity|].
      repeat split; try discriminate; try (simpl; lia).
      intros [_ H]. destruct (H s eq_refl En) as (rows' & Hr & _).
      rewrite Er in Hr. discriminate Hr.
  - eexists true, [_]. split; [reflexivity|].
    repeat split; try discriminate; try (simpl; lia).
    intros t [= <-] Hnl. rewrite En in Hnl. discriminate Hnl.
Qed.

End deterministic_runner_more.

(** ** More on [make_json_safe] *)

Section json_safety_more.
Import utils json_values.

Lemma map_id_Forall {A} (f : A -> A) (l : list A) :
  Forall (fun x => f x = x) l -> map f l = l.
Proof. induction 1 as [|x l Hx _ IH]; simpl; congruence. Qed.

Lemma converted_fixed (obj : pyval) :
  converted obj = true -> make_json_safe obj = obj.
Proof.
  induction obj as [| | | | |l IH|l IH|d IH| | |] using pyval_ind;
    intros H; try reflexivity; try discriminate H; cbn [make_json_safe];
    f_equal; cbn [converted] in H; rewrite forallb_forall in H;
    rewrite Forall_forall in IH.
  - apply map_id_Forall. apply Forall_forall. intros x Hx. auto.
  - apply map_id_Forall. apply Forall_forall. intros [k v] Hx.
    cbn [fst snd]. f_equal. apply (IH (k, v) Hx). apply (H (k, v) Hx).
Qed.

(** The values [make_json_safe] leaves alone are exactly those with no
    UUID, date or tuple where a value stands. *)
Theorem make_json_safe_fixed_points (obj : pyval) :
  make_json_safe obj = obj <-> converted obj = true.
Proof.
  split.
  - intros H. rewrite <- H. apply make_json_safe_converted.
  - apply converted_fixed.
Qed.

Lemma dict_find_map_values (g : pyval -> pyval) d k :
  dict_find (map (fun kv => (fst kv, g (snd kv))) d) k
  = option_map g (dict_find d k).
Proof.
  induction d as [|[key v] d IH]; [reflexivity|].
  cbn [map fst snd dict_find]. destruct key; try exact IH.
  destruct (pystr_eqb s k); [reflexivity | exact IH].
Qed.

(** [make_json_safe] keeps the keys of a dict, in their order, and
    commutes with [.get]: looking a key up in the converted dict gives the
    converted value, or the converted default. *)
Theorem make_json_safe_get d k default :
  (exists d', make_json_safe (PDict d) = PDict d' /\
              map fst d' = map fst d) /\
  py_get (make_json_safe (PDict d)) k (make_json_safe default)
  = bind (py_get (PDict d) k default) (fun v => Ok (make_json_safe v)).
Proof.
  split.
  - eexists. split; [reflexivity|]. rewrite map_map. reflexivity.
  - cbn [make_json_safe py_get bind]. rewrite dict_find_map_values.
    destruct (dict_find d k); reflexivity.
Qed.

(** *** Serialisation after the conversion *)

Section with_runtime.
Variable R : Runtime.

Lemma dumps_list_ok (l : list pyval) :
  (exists t, Json.dumps R (PList l) = Ok t) <->
  Forall (fun x => exists t, Json.dumps R x = Ok t) l.
Proof.
  cbn [Json.dumps].
  match goal with
  | |- (exists t, bind (?F l) _ = _) <-> _ => set (elems := F)
  end.
  assert (He : (exists items, elems l = Ok items) <->
               Forall (fun x => exists t, Json.dumps R x = Ok t) l).
  { induction l as [|x l IH].
    - split; [constructor | eexists; reflexivity].
    - change (elems (x :: l))
        with (bind (Json.dumps R x)
                (fun a => bind (elems l) (fun b => Ok (a :: b)))).
      split.
      + intros [items H]. destruct (Json.dumps R x) as [a|] eqn:Ex;
          [|discriminate H]. cbn [bind] in H.
        destruct (elems l) as [b|] eqn:El; [|discriminate H].
        constructor; [eexists; exact Ex | apply IH; eexists; reflexivity].
      + intros H. inversion H as [|? ? [a Ha] Hl]; subst.
        apply IH in Hl. destruct Hl as [b Hb]. rewrite Ha, Hb.
        eexists; reflexivity. }
  rewrite <- He. split.
  - intros [t H]. destruct (elems l); [eexists; reflexivity | discriminate H].
  - intros [items ->]. eexists; reflexivity.
Qed.

Lemma dumps_tuple_list (l : list pyval) :
  Json.dumps R (PTuple l) = Json.dumps R (PList l).
Proof. reflexivity. Qed.

Lemma dumps_dict_ok (d : list (pyval * pyval)) :
  (exists t, Json.dumps R (PDict d) = Ok t) <->
  Forall (fun kv => dumpable_key (fst kv) = true /\
                    exists t, Json.dumps R (snd kv) = Ok t) d.
Proof.
  cbn [Json.dumps].
  match goal with
  | |- (exists t, bind (?F d) _ = _) <-> _ => set (members := F)
  end.
  assert (Hk : forall k, dumpable_key k = true <->
                         exists t, Json.key_str R k = Ok t).
  { intros k. destruct k as [|[|]| | | | | | | | |]; cbn;
      split; intros H; try reflexivity; try discriminate H;
      try (eexists; reflexivity); destruct H as [t H]; discriminate H. }
  assert (He : (exists items, members d = Ok items) <->
               Forall (fun kv => dumpable_key (fst kv) = true /\
                                 exists t, Json.dumps R (snd kv) = Ok t) d).
  { induction d as [|kv d IH].
    - split; [constructor | eexists; reflexivity].
    - change (members (kv :: d))
        with (bind (Json.key_str R (fst kv))
                (fun k =>
                   bind (Json.dumps R (snd kv))
                     (fun a =>
                        bind (members d)
                          (fun b =>
                             Ok ((Json.encode_str k ++ txt ": " ++ a)%list
                                 :: b))))).
      split.
      + intros [items H].
        destruct (Json.key_str R (fst kv)) as [k|] eqn:Ek; [|discriminate H].
        cbn [bind] in H.
        destruct (Json.dumps R (snd kv)) as [a|] eqn:Ex; [|discriminate H].
        cbn [bind] in H.
        destruct (members d) as [b|] eqn:El; [|discriminate H].
        constructor.
        * split; [apply Hk; eexists; exact Ek | eexists; exact Ex].
        * apply IH. eexists; reflexivity.
      + intros H. inversion H as [|? ? [Hkey [a Ha]] Hl]; subst.
        apply Hk in Hkey. destruct Hkey as [k Hk'].
        apply IH in Hl. destruct Hl as [b Hb]. rewrite Hk', Ha, Hb.
        eexists; reflexivity. }
  rewrite <- He. split.
  - intros [t H]. destruct (members d); [eexists; reflexivity | discriminate H].
  - intros [items ->]. eexists; reflexivity.
Qed.

(** [make_json_safe] reaches the goal of its docstring, a value
    [json.dumps] accepts, exactly when its argument holds no object of
    another class where a value stands and no dict key other than text,
    a number, a boolean or [None]: a UUID or a date used as a key stays
    what it is, and the encoder refuses it. *)
Theorem make_json_safe_serialisable (obj : pyval) :
  (exists t, Json.dumps R (make_json_safe obj) = Ok t) <-> plain obj = true.
Proof.
  induction obj as [| [|] | | | |l IH|l IH|d IH| | |] using pyval_ind;
    try (split; [reflexivity | intros _; eexists; reflexivity]).
  - (* list *)
    cbn [make_json_safe plain]. rewrite dumps_list_ok, forallb_forall.
    rewrite Forall_forall in *. split.
    + intros H x Hx. apply IH; [exact Hx|]. apply H, in_map. exact Hx.
    + intros H y Hy. apply in_map_iff in Hy. destruct Hy as (x & <- & Hx).
      apply IH; auto.
  - (* tuple *)
    cbn [make_json_safe plain]. rewrite dumps_list_ok, forallb_forall.
    rewrite Forall_forall in *. split.
    + intros H x Hx. apply IH; [exact Hx|]. apply H, in_map. exact Hx.
    + intros H y Hy. apply in_map_iff in Hy. destruct Hy as (x & <- & Hx).
      apply IH; auto.
  - (* dict *)
    cbn [make_json_safe plain]. rewrite dumps_dict_ok, forallb_forall.
    rewrite Forall_forall in *. split.
    + intros H kv Hkv. apply andb_true_iff.
      destruct (H (fst kv, make_json_safe (snd kv))) as [Hk Hv].
      { apply in_map_iff. exists kv. split; [reflexivity | exact Hkv]. }
      cbn [fst snd] in *. split; [exact Hk | apply (IH kv Hkv); exact Hv].
    + intros H y Hy. apply in_map_iff in Hy. destruct Hy as (kv & <- & Hkv).
      specialize (H kv Hkv). apply andb_true_iff in H. destruct H as [Hk Hv].
      cbn [fst snd]. split; [exact Hk | apply (IH kv Hkv); exact Hv].
  - (* other object *)
    split; [intros [t' H]; discriminate H | discriminate].
Qed.

End with_runtime.

End json_safety_more.

(** ** More on the submit view *)

Section evaluation_flow_more.
Import views_candidate samples samples_more schemas submission_flow.
Local Open Scope string_scope.


(** The judge's reply holds a [NaN], which the JSON column of the Grade
    does not take: the Submission stays without a Grade, after one call
    to the endpoint. *)
Example submit_answer_nan_in_reply :
  exists submission call,
    submit_answer (world some_key true (endpoint_replying 200 nan_reply))
      submit_request
    = {| created_submission := Some submission;
         created_grade := None;
         http_calls := [call];
         returned := Raise (External (txt "IntegrityError")
                              (txt "CHECK constraint failed: JSON_VALID")) |}.
Proof. eexists. eexists. vm_compute. reflexivity. Qed.

(** The answer is [NaN]: the Submission is refused and nothing is
    stored. *)
Example submit_answer_nan_answer :
  submit_answer (world some_key true (endpoint_replying 200 alias_reply))
    nan_request
  = no_effect (Raise (External (txt "IntegrityError")
                        (txt "CHECK constraint failed: JSON_VALID"))).
Proof. vm_compute. reflexivity. Qed.



(** The score of every persisted Grade is between 0 and 100. *)
Theorem submit_answer_grade_in_range W request grade :
  created_grade (submit_answer W request) = Some grade ->
  score_in_range (grade_score grade) = true.
Proof.
  destruct (submit_answer_cases W request)
    as [(r & -> & _) | (d & a & q & calls & jr & score & _ & _ & _ & _ & _ & _
                        & _ & _ & _ & Hr & ->)].
  - discriminate.
  - destruct (save_grade W (new_grade W (new_submission W a q d) jr score));
      cbn [created_grade]; [|discriminate].
    intros [= <-]. exact Hr.
Qed.

Lemma submit_answer_grade_in_range_witness :
  score_in_range f_100 = true.
Proof.
  apply (submit_answer_grade_in_range
           (world some_key false (endpoint_replying 200 alias_reply))
           submit_request
           {| grade_id := next_grade_id
                            (world some_key false
                               (endpoint_replying 200 alias_reply));
              grade_submission :=
                new_submission
                  (world some_key false (endpoint_replying 200 alias_reply))
                  sample_assignment sample_question submit_fields;
              grade_judge :=
                dict_of
                  [("score", PFloat f_100);
                   ("verdict", PStr []);
                   ("mistakes", PList [PStr (txt "typo")]);
                   ("improvements", PList []);
                   ("citations", PList []);
                   ("debug",
                    dict_of
                      [("http_status", PInt 200);
                       ("raw_excerpt",
                        PStr (txtq "Sure: {'grade': 250, 'errors': 'typo'} done"))])];
              grade_score := f_100 |}).
  vm_compute. reflexivity.
Defined.

(** The view never calls the endpoint more than once. *)
Theorem submit_answer_single_call W request :
  (List.length (http_calls (submit_answer W request)) <= 1)%nat.
Proof.
  destruct (submit_answer_cases W request)
    as [(r & -> & _) | (d & a & q & calls & jr & score & _ & _ & _ & _ & _ & _
                        & Hc & _ & _ & _ & ->)].
  - simpl; lia.
  - destruct (save_grade W (new_grade W (new_submission W a q d) jr score));
      exact Hc.
Qed.

End evaluation_flow_more.

Section debug_policy.
Import views_candidate samples samples_more schemas submission_flow.
Local Open Scope string_scope.

Lemma judged_form_debug W judge_result :
  judged_form judge_result ->
  exists jd,
    utils.make_json_safe judge_result = PDict jd /\
    (DEBUG W = false ->
     exists sd, strip_debug W (PDict jd) = PDict sd /\
                dict_find sd (txt "debug") = None) /\
    (DEBUG W = true -> strip_debug W (PDict jd) = PDict jd) /\
    (forall k, pystr_eqb k (txt "debug") = false ->
               py_get (strip_debug W (PDict jd)) k PNone
               = py_get (PDict jd) k PNone).
Proof.
  intros [f v m i c dbg Hf Hz | imp]; eexists; (split; [reflexivity|]);
    unfold strip_debug; destruct (DEBUG W); cbn [negb];
    repeat split; try discriminate; try reflexivity.
  - intros _. eexists. split; reflexivity.
  - intros k Hk. cbn [py_get]. f_equal.
    cbn [dict_of map fst snd dict_pop dict_find utils.make_json_safe].
    change (pystr_eqb (txt "score") (txt "debug")) with false.
    change (pystr_eqb (txt "verdict") (txt "debug")) with false.
    change (pystr_eqb (txt "mistakes") (txt "debug")) with false.
    change (pystr_eqb (txt "improvements") (txt "debug")) with false.
    change (pystr_eqb (txt "citations") (txt "debug")) with false.
    change (pystr_eqb (txt "debug") (txt "debug")) with true.
    cbv iota. cbn [dict_find].
    rewrite (pystr_eqb_sym (txt "debug") k), Hk. reflexivity.
  - intros _. eexists. split; reflexivity.
Qed.

(** Outside a debugging context the [judge] of the grading response is a
    dict in which the key [debug] is absent, and it agrees with the judge
    of the Grade on every other key; in a debugging context it is the
    judge of the Grade as it is.  The persisted Grade keeps the [debug]
    bag in every context, whenever the judge returned. *)
Theorem submit_answer_debug_policy W request submission grade calls response :
  submit_answer W request
  = {| created_submission := Some submission;
       created_grade := Some grade;
       http_calls := calls;
       returned := Ok (JsonResponse response) |} ->
  exists judge,
    py_get response (txt "judge") PNone = Ok (PDict judge) /\
    (DEBUG W = false -> dict_find judge (txt "debug") = None) /\
    (DEBUG W = true -> PDict judge = grade_judge grade) /\
    (forall k, pystr_eqb k (txt "debug") = false ->
               py_get (PDict judge) k PNone
               = py_get (grade_judge grade) k PNone) /\
    (forall j,
        snd (sonar_reasoning.judge_answer W
               (question_payload (submission_question submission))
               (submission_payload W submission) PNone) = Ok j ->
        exists gd debug,
          grade_judge grade = PDict gd /\
          dict_find gd (txt "debug") = Some (PDict debug)).
Proof.
  intros H.
  destruct (submit_answer_cases W request)
    as [(r & Hr & _) | (d & a & q & cs & jr & score & _ & _ & _ & _ & _ & Hj
                        & _ & Hform & _ & _ & Hs)].
  { rewrite Hr in H. discriminate H. }
  rewrite Hs in H.
  destruct (save_grade W (new_grade W (new_submission W a q d) jr score));
    [|discriminate H].
  injection H as <- <- <- <-.
  destruct (judged_form_debug W jr Hform) as (jd & Hjd & Hoff & Hon & Hk).
  unfold grading_response. cbn [new_grade grade_judge]. rewrite Hjd in *.
  assert (Hsd : exists sd, strip_debug W (PDict jd) = PDict sd).
  { unfold strip_debug. destruct (negb (DEBUG W)); eexists; reflexivity. }
  destruct Hsd as [sd Hsd]. rewrite Hsd in *.
  exists sd. split; [reflexivity|].
  split; [|split; [exact Hon | split; [exact Hk|]]].
  - intros Hd. destruct (Hoff Hd) as (sd' & [= <-] & Hnone). exact Hnone.
  - intros j Hjj. unfold call_judge in Hj.
    change (submission_question (new_submission W a q d)) with q in Hjj.
    destruct (sonar_reasoning.judge_answer W (question_payload q)
                (submission_payload W (new_submission W a q d)) PNone)
      as [cs' r'] eqn:Eja.
    cbn [snd] in Hjj. subst r'. injection Hj as <- <-.
    destruct (judge_answer_result_form _ _ _ _ _ _ Eja)
      as (_ & f & v & m & i & c & dbg & -> & _).
    assert (Hdbg : exists x, dbg = PDict x).
    { revert Eja. unfold sonar_reasoning.judge_answer.
      destruct (sonar_reasoning.has_api_key W); cbn [negb].
      2:{ intros Heq; inversion Heq; subst. eexists; reflexivity. }
      destruct (sonar_reasoning.judge_prompt W (question_payload q)
                  (submission_payload W (new_submission W a q d)) PNone)
        as [user|]; [|discriminate].
      destruct (requests_post W (sonar_reasoning.judge_call W user))
        as [resp|e].
      2:{ intros Heq; inversion Heq; subst. eexists; reflexivity. }
      intros [= _ Hresp]. unfold sonar_reasoning.judge_response in Hresp.
      destruct (sonar_reasoning.extract_block W resp) as [[ct|] raw];
        [|discriminate].
      destruct (sonar_reasoning._safe_parse_json ct) as [p|]; [|discriminate].
      cbn [bind] in Hresp. destruct (truthy p); cbn [negb] in Hresp.
      - destruct (normalize_six_keys _ _ _ _ _ Hresp)
          as (f' & v' & m' & i' & c' & Heq).
        inversion Heq; subst. eexists; reflexivity.
      - inversion Hresp; subst. eexists; reflexivity. }
    destruct Hdbg as [x ->]. injection Hjd as <-.
    eexists. eexists. split; reflexivity.
Qed.

(** The sample request without a credential, outside a debugging
    context: the Grade keeps the bag with the reason, the response has no
    [debug] key. *)
Lemma submit_answer_debug_policy_witness :
  exists judge,
    py_get
      (grading_response (world None false endpoint_down)
         (new_submission (world None false endpoint_down)
            sample_assignment sample_question submit_fields)
         (new_grade (world None false endpoint_down)
            (new_submission (world None false endpoint_down)
               sample_assignment sample_question submit_fields)
            sonar_reasoning.no_api_key_result (S754_zero false)))
      (txt "judge") PNone = Ok (PDict judge) /\
    dict_find judge (txt "debug") = None /\
    exists gd debug,
      utils.make_json_safe sonar_reasoning.no_api_key_result = PDict gd /\
      dict_find gd (txt "debug") = Some (PDict debug).
Proof.
  destruct (submit_answer_debug_policy (world None false endpoint_down)
              submit_request
              (new_submission (world None false endpoint_down)
                 sample_assignment sample_question submit_fields)
              (new_grade (world None false endpoint_down)
                 (new_submission (world None false endpoint_down)
                    sample_assignment sample_question submit_fields)
                 sonar_reasoning.no_api_key_result (S754_zero false))
              []
              (grading_response (world None false endpoint_down)
                 (new_submission (world None false endpoint_down)
                    sample_assignment sample_question submit_fields)
                 (new_grade (world None false endpoint_down)
                    (new_submission (world None false endpoint_down)
                       sample_assignment sample_question submit_fields)
                    sonar_reasoning.no_api_key_result (S754_zero false)))
              ltac:(vm_compute; reflexivity))
    as (judge & Hj & Hoff & _ & _ & Hkeep).
  exists judge. split; [exact Hj|]. split; [apply Hoff; reflexivity|].
  exact (Hkeep sonar_reasoning.no_api_key_result eq_refl).
Defined.

End debug_policy.

(** ** The question generator *)

Section question_generator.
Import pplx samples samples_more.
Local Open Scope string_scope.

Lemma class_run_in_class (s run rest : pystr) :
  class_run s = (run, rest) -> forallb in_class run = true.
Proof.
  revert run rest; induction s as [|c r IH]; intros run rest; cbn [class_run].
  - intros [= <- _]. reflexivity.
  - destruct (in_class c) eqn:Ec; [|intros [= <- _]; reflexivity].
    destruct (class_run r) as [run' rest'] eqn:E. intros [= <- _].
    simpl. rewrite Ec. eapply IH; eauto.
Qed.

Lemma re_search_group (s group : pystr) :
  re_search s = Some group ->
  exists run, group = (cp "{" :: run ++ [cp "}"])%list /\
              forallb in_class run = true.
Proof.
  induction s as [|c r IH]; [discriminate|].
  cbn [re_search].
  destruct (N.eqb c (cp "{")) eqn:Ec; [|exact IH].
  destruct (class_run r) as [run rest] eqn:E.
  destruct rest as [|x rest']; [exact IH|].
  destruct (N.eqb x (cp "}")) eqn:Ex; [|exact IH].
  intros [= <-]. apply N.eqb_eq in Ec, Ex. subst c x.
  exists run. split; [reflexivity | eapply class_run_in_class; eauto].
Qed.

Lemma in_class_cases c :
  in_class c = true -> c = cp "\" \/ c = cp "s" \/ c = cp "S".
Proof.
  unfold in_class. intros H.
  apply orb_true_iff in H. destruct H as [H|H].
  - apply orb_true_iff in H. destruct H as [H|H]; apply N.eqb_eq in H; auto.
  - apply N.eqb_eq in H; auto.
Qed.

(** Of the groups the pattern can match, only [{}] is a JSON document. *)
Lemma loads_group (run : pystr) :
  forallb in_class run = true ->
  Json.loads_str (cp "{" :: run ++ [cp "}"])%list
  = match run with
    | [] => Ok (PDict [])
    | _ => Raise JSONDecodeError
    end.
Proof.
  destruct run as [|c run]; [reflexivity|].
  intros H. simpl in H. apply andb_true_iff in H. destruct H as [Hc _].
  unfold Json.loads_str.
  change (Json.skip_ws (cp "{" :: (c :: run) ++ [cp "}"])%list)
    with (cp "{" :: c :: run ++ [cp "}"])%list.
  assert (Hf : exists f,
             (2 * List.length (cp "{" :: (c :: run) ++ [cp "}"])%list + 1
              = S (S f))%nat).
  { simpl. eexists. rewrite Nat.add_comm. simpl. reflexivity. }
  destruct Hf as [f ->].
  cbn [Json.scan_once].
  change (N.eqb (cp "{") dquote) with false.
  change (N.eqb (cp "{") (cp "{")) with true. cbv iota.
  destruct (in_class_cases c Hc) as [ -> | [ -> | -> ] ]; reflexivity.
Qed.

Lemma safe_parse_json_fallback_value (s : pystr) (e : exn) :
  Json.loads_str s = Raise e ->
  _safe_parse_json (PStr s) = Ok PNone \/
  _safe_parse_json (PStr s) = Ok (PDict []).
Proof.
  intros Hl. unfold _safe_parse_json. cbn [Json.loads]. rewrite Hl.
  destruct (re_search s) as [group|] eqn:E; [|left; reflexivity].
  destruct (re_search_group _ _ E) as (run & -> & Hrun).
  rewrite (loads_group run Hrun).
  destruct run; [right | left]; reflexivity.
Qed.

(** When the text is not a JSON document, the fallback of this extractor
    gives [None] or the empty dict, both false in a condition: with its
    doubled backslashes the pattern matches an opening brace, backslashes
    and letters s, and a closing brace, and no object with a member. *)
Theorem pplx_safe_parse_json_fallback (s : pystr) (e : exn) :
  Json.loads_str s = Raise e ->
  exists v, _safe_parse_json (PStr s) = Ok v /\
            (v = PNone \/ v = PDict []) /\
            truthy v = false.
Proof.
  intros Hl.
  destruct (safe_parse_json_fallback_value s e Hl) as [H|H]; rewrite H.
  - exists PNone. split; [reflexivity|]. split; [left|]; reflexivity.
  - exists (PDict []). split; [reflexivity|]. split; [right|]; reflexivity.
Qed.

Lemma pplx_safe_parse_json_fallback_witness :
  exists v,
    _safe_parse_json (PStr (txtq "Here it is: {'type': 'practical'} Enjoy."))
    = Ok v /\
    (v = PNone \/ v = PDict []) /\ truthy v = false.
Proof.
  apply (pplx_safe_parse_json_fallback
           (txtq "Here it is: {'type': 'practical'} Enjoy.") JSONDecodeError).
  reflexivity.
Defined.

Lemma normalize_question_shape E admin_prompt parsed r :
  normalize_question E admin_prompt parsed = Ok r -> question_shape r = true.
Proof.
  destruct parsed; try discriminate.
  unfold normalize_question. cbn [py_get bind].
  match goal with
  | |- context [py_int E ?v] => destruct (py_int E v); [|discriminate]
  end.
  cbn [bind]. intros [= <-]. reflexivity.
Qed.

Lemma generate_try_shape E admin_prompt resp r :
  generate_try E admin_prompt resp = Ok r -> question_shape r = true.
Proof.
  unfold generate_try.
  destruct (raise_for_status E resp); [|discriminate]. cbn [bind].
  destruct (resp_json resp) as [data|]; [|discriminate]. cbn [bind].
  destruct (chat_content data) as [content|]; [|discriminate]. cbn [bind].
  match goal with
  | |- context [bind ?m _] => destruct m as [parsed|]; [|discriminate]
  end.
  cbn [bind].
  match goal with
  | |- context [bind ?m _] => destruct m as [parsed'|]; [|discriminate]
  end.
  cbn [bind].
  destruct (negb (truthy parsed')).
  - intros [= <-]. reflexivity.
  - apply normalize_question_shape.
Qed.

(** [generate_question] never raises and never calls the endpoint twice:
    whatever the endpoint does, it returns a dict with the six keys of a
    question and an [int] as version.  Without a credential that dict is
    the stub, and no call is made. *)
Theorem generate_question_shape E admin_prompt :
  (exists calls r,
      generate_question E admin_prompt = (calls, Ok r) /\
      question_shape r = true /\
      (List.length calls <= 1)%nat) /\
  (has_api_key E = false ->
   generate_question E admin_prompt = ([], Ok (stub_question admin_prompt))).
Proof.
  unfold generate_question. split.
  - destruct (has_api_key E); cbn [negb].
    + destruct (requests_post (pplx.world E) (generate_call E admin_prompt))
        as [resp|e].
      * destruct (generate_try E admin_prompt resp) as [r|e] eqn:Et.
        -- eexists. eexists. split; [reflexivity|].
           split; [eapply generate_try_shape; eauto | simpl; lia].
        -- eexists. eexists. split; [reflexivity|].
           split; [reflexivity | simpl; lia].
      * eexists. eexists. split; [reflexivity|].
        split; [reflexivity | simpl; lia].
    + eexists. eexists. split; [reflexivity|].
      split; [reflexivity | simpl; lia].
  - intros ->. reflexivity.
Qed.

Lemma generate_question_shape_witness :
  generate_question (pplx_world None endpoint_down) (txt "Pivot tables")
  = ([], Ok (stub_question (txt "Pivot tables"))).
Proof.
  apply (proj2 (generate_question_shape (pplx_world None endpoint_down)
                  (txt "Pivot tables"))).
  reflexivity.
Defined.

(** A response with a 4xx or 5xx status is a failure here: the body is not
    read, and the result is the fallback stub with the text of the
    [HTTPError] under [spec.error]. *)
Theorem generate_question_http_error E admin_prompt resp :
  has_api_key E = true ->
  requests_post (pplx.world E) (generate_call E admin_prompt) = Ok resp ->
  (400 <= status_code resp < 600)%Z ->
  generate_question E admin_prompt
  = ([generate_call E admin_prompt],
     Ok (dict_of
           [("type", PStr (txt "theory"));
            ("title", PStr (txt "VLOOKUP concept (fallback)"));
            ("spec", dict_of [("prompt", PStr admin_prompt);
                              ("error", PStr (http_error_text E resp))]);
            ("rubric", key_points);
            ("ideal_answer", PStr ideal_answer_stub);
            ("version", PInt 1)])).
Proof.
  intros Hk Hr [H1 H2]. unfold generate_question. rewrite Hk, Hr.
  cbn [negb]. unfold generate_try, raise_for_status.
  replace ((400 <=? status_code resp) && (status_code resp <? 600))%Z
    with true.
  - reflexivity.
  - symmetry. apply andb_true_iff.
    split; [apply Z.leb_le | apply Z.ltb_lt]; lia.
Qed.

Lemma generate_question_http_error_witness :
  generate_question
    (pplx_world some_key (endpoint_replying 500 question_reply))
    (txt "Pivot tables")
  = ([generate_call
        (pplx_world some_key (endpoint_replying 500 question_reply))
        (txt "Pivot tables")],
     Ok (dict_of
           [("type", PStr (txt "theory"));
            ("title", PStr (txt "VLOOKUP concept (fallback)"));
            ("spec", dict_of [("prompt", PStr (txt "Pivot tables"));
                              ("error", PStr (txt "500 Server Error"))]);
            ("rubric", key_points);
            ("ideal_answer", PStr ideal_answer_stub);
            ("version", PInt 1)])).
Proof.
  apply (generate_question_http_error
           (pplx_world some_key (endpoint_replying 500 question_reply))
           (txt "Pivot tables")
           {| status_code := 500; text := question_reply |});
    try reflexivity.
  cbn. lia.
Defined.

(** A reply whose text is not a JSON document on its own is not used, even
    when it holds an object: without [metadata] in the body, the result is
    the default question made from the prompt. *)
Theorem generate_question_prose_ignored E admin_prompt resp data s e :
  has_api_key E = true ->
  requests_post (pplx.world E) (generate_call E admin_prompt) = Ok resp ->
  raise_for_status E resp = Ok tt ->
  resp_json resp = Ok data ->
  chat_content data = Ok (PStr s) ->
  Json.loads_str s = Raise e ->
  (forall m, py_get data (txt "metadata") PNone = Ok m -> truthy m = false) ->
  generate_question E admin_prompt
  = ([generate_call E admin_prompt],
     Ok (dict_of
           [("type", PStr (txt "theory"));
            ("title", PStr (txt "Generated: " ++ firstn 40 admin_prompt)%list);
            ("spec", dict_of [("prompt", PStr admin_prompt)]);
            ("rubric", PDict []);
            ("ideal_answer", PStr []);
            ("version", PInt 1)])).
Proof.
  intros Hk Hr Hs Hj Hc Hl Hm. unfold generate_question. rewrite Hk, Hr.
  cbn [negb]. unfold generate_try. rewrite Hs. cbn [bind]. rewrite Hj. cbn [bind].
  rewrite Hc. cbn [bind].
  assert (Hp : exists v, _safe_parse_json (PStr s) = Ok v /\ truthy v = false).
  { destruct (safe_parse_json_fallback_value s e Hl) as [H|H];
      rewrite H; eexists; split; reflexivity. }
  destruct Hp as (v & Hv & Hf).
  destruct (truthy (PStr s)).
  - rewrite Hv. cbn [bind]. rewrite Hf. cbn [negb].
    destruct data; try (cbn; reflexivity).
    cbn [is_dict].
    destruct (py_get (PDict d) (txt "metadata") PNone) as [m|] eqn:Em;
      [|discriminate Em].
    cbn [bind]. rewrite (Hm m eq_refl). reflexivity.
  - cbn [bind truthy negb].
    destruct data; try (cbn; reflexivity).
    cbn [is_dict].
    destruct (py_get (PDict d) (txt "metadata") PNone) as [m|] eqn:Em;
      [|discriminate Em].
    cbn [bind]. rewrite (Hm m eq_refl). reflexivity.
Qed.

Lemma generate_question_prose_ignored_witness :
  generate_question
    (pplx_world some_key (endpoint_replying 200 prose_reply))
    (txt "Pivot tables")
  = ([generate_call
        (pplx_world some_key (endpoint_replying 200 prose_reply))
        (txt "Pivot tables")],
     Ok (dict_of
           [("type", PStr (txt "theory"));
            ("title", PStr (txt "Generated: Pivot tables"));
            ("spec", dict_of [("prompt", PStr (txt "Pivot tables"))]);
            ("rubric", PDict []);
            ("ideal_answer", PStr []);
            ("version", PInt 1)])).
Proof.
  eapply (generate_question_prose_ignored
            (pplx_world some_key (endpoint_replying 200 prose_reply))
            (txt "Pivot tables")
            {| status_code := 200; text := prose_reply |}
            _ (txtq "Here it is: {'type': 'practical'} Enjoy.")
            JSONDecodeError).
  - reflexivity.
  - reflexivity.
  - reflexivity.
  - vm_compute. reflexivity.
  - reflexivity.
  - reflexivity.
  - intros m Hm. vm_compute in Hm. inversion Hm. reflexivity.
Defined.

(** With a reply that is a JSON document, the fields of the document are
    the question. *)
Example generate_question_document :
  snd (generate_question
         (pplx_world some_key (endpoint_replying 200 question_reply))
         (txt "Pivot tables"))
  = Ok (dict_of
          [("type", PStr (txt "theory"));
           ("title", PStr (txt "Pivot tables"));
           ("spec", dict_of [("prompt", PStr (txt "Pivot tables"))]);
           ("rubric", PDict []);
           ("ideal_answer", PStr []);
           ("version", PInt 2)]).
Proof. vm_compute. reflexivity. Qed.

End question_generator.

(** ** The report of an assignment *)

Section reports.
Import views_reports samples_more.
Local Open Scope string_scope.

Lemma submissions_out_graded D subs :
  (exists sub, In sub subs /\ first_grade D sub <> None) ->
  submissions_out D subs = Raise AttributeError.
Proof.
  induction subs as [|s r IH]; intros (sub & Hin & Hg); [destruct Hin|].
  cbn [submissions_out]. unfold submission_entry.
  destruct (first_grade D s) as [g|] eqn:Es; [reflexivity|].
  destruct Hin as [->|Hin]; [congruence|].
  rewrite IH; [reflexivity|]. exists sub. split; assumption.
Qed.

Lemma submissions_out_ungraded D subs :
  (forall sub, In sub subs -> first_grade D sub = None) ->
  exists entries,
    submissions_out D subs = Ok entries /\
    List.length entries = List.length subs /\
    Forall (fun e => py_get e (txt "score") (PInt 0) = Ok PNone /\
                     py_get e (txt "runner") (PInt 0) = Ok PNone /\
                     py_get e (txt "judge") (PInt 0) = Ok PNone) entries.
Proof.
  induction subs as [|s r IH]; intros Hall.
  - exists []. repeat split. constructor.
  - destruct IH as (entries & He & Hl & Hf).
    { intros sub Hin. apply Hall. right. exact Hin. }
    cbn [submissions_out]. unfold submission_entry.
    rewrite (Hall s (or_introl eq_refl)), He.
    eexists. split; [reflexivity|]. split; [simpl; congruence|].
    constructor; [|exact Hf]. repeat split.
Qed.

(** The report of an assignment with a graded submission cannot be built:
    the view reads [grade.runner], an attribute the model [Grade] does not
    have, and raises [AttributeError].  Only while no submission has a
    grade does the view answer, and then each entry has [None] as score,
    runner and judge, and the average is 0.0 when the database has none. *)
Theorem assignment_report_grades D assignment_id assignment :
  find_assignment D assignment_id = Ok assignment ->
  ((exists sub, In sub (submissions_of D assignment) /\
                first_grade D sub <> None) ->
   assignment_report D true assignment_id = Raise AttributeError) /\
  ((forall sub, In sub (submissions_of D assignment) ->
                first_grade D sub = None) ->
   exists data entries,
     assignment_report D true assignment_id = Ok (JsonResponse data) /\
     py_get data (txt "submissions") PNone = Ok (PList entries) /\
     py_get data (txt "average_score") PNone
       = Ok (py_or (average_score D assignment) (PFloat f_zero)) /\
     List.length entries = List.length (submissions_of D assignment) /\
     Forall (fun e => py_get e (txt "score") (PInt 0) = Ok PNone /\
                      py_get e (txt "runner") (PInt 0) = Ok PNone /\
                      py_get e (txt "judge") (PInt 0) = Ok PNone) entries).
Proof.
  intros Hf. unfold assignment_report. cbn [negb]. rewrite Hf. split.
  - intros Hg. rewrite (submissions_out_graded D _ Hg). reflexivity.
  - intros Hu.
    destruct (submissions_out_ungraded D _ Hu) as (entries & -> & Hl & Hall).
    eexists. exists entries. split; [reflexivity|].
    split; [reflexivity|]. split; [reflexivity|]. split; assumption.
Qed.

Lemma assignment_report_grades_witness :
  assignment_report (report_db true) true (PInt 1) = Raise AttributeError /\
  exists data entries,
    assignment_report (report_db false) true (PInt 1)
    = Ok (JsonResponse data) /\
    py_get data (txt "submissions") PNone = Ok (PList entries) /\
    py_get data (txt "average_score") PNone = Ok (PFloat f_zero) /\
    List.length entries = 1%nat.
Proof.
  split.
  - apply (proj1 (assignment_report_grades (report_db true) (PInt 1)
                    sample_row eq_refl)).
    exists sample_submission. split; [left; reflexivity | discriminate].
  - destruct (proj2 (assignment_report_grades (report_db false) (PInt 1)
                       sample_row eq_refl))
      as (data & entries & H1 & H2 & H3 & H4 & _).
    + intros sub _. reflexivity.
    + exists data, entries. repeat split; assumption.
Defined.

End reports.

(** ** The health endpoint of the staff *)

Section health_endpoint.
Import views_admin sonar_reasoning samples samples_more.
Local Open Scope string_scope.

(** The health endpoint: anyone who is not an active staff member is sent
    to the login page and no call is made.  For the staff the view is
    [ping] with its default timeout of 8 seconds: outside a debugging
    context it raises [UnboundLocalError] before any call, in a debugging
    context it answers with the two keys [ok] and [info] after at most one
    call, and [ok] needs a credential. *)
Theorem sonar_health_cases W user :
  (is_active user && is_staff user = false ->
   sonar_health W user = ([], Ok RedirectToLogin)) /\
  (is_active user && is_staff user = true ->
   (DEBUG W = false ->
    sonar_health W user = ([], Raise UnboundLocalError)) /\
   (DEBUG W = true ->
    exists calls ok info,
      sonar_health W user
      = (calls,
         Ok (JsonResponse (dict_of [("ok", PBool ok); ("info", info)]))) /\
      (calls = [] \/ calls = [ping_call W (PInt 8)]) /\
      (ok = true -> has_api_key W = true))).
Proof.
  unfold sonar_health. split; [intros ->; reflexivity|].
  intros ->. split.
  - intros Hd. rewrite (ping_raises_outside_debug W (PInt 8) Hd). reflexivity.
  - intros Hd. unfold ping. rewrite Hd. cbn [negb].
    destruct (has_api_key W); cbn [negb].
    + destruct (requests_post W (ping_call W (PInt 8))).
      * eexists. eexists. eexists. split; [reflexivity|].
        split; [right; reflexivity | reflexivity].
      * eexists. eexists. eexists. split; [reflexivity|].
        split; [right; reflexivity | reflexivity].
    + eexists. eexists. eexists. split; [reflexivity|].
      split; [left; reflexivity | discriminate].
Qed.

Lemma sonar_health_cases_witness :
  sonar_health (world some_key false endpoint_down) staff
  = ([], Raise UnboundLocalError).
Proof.
  apply (proj2 (sonar_health_cases (world some_key false endpoint_down) staff)
           eq_refl).
  reflexivity.
Defined.

End health_endpoint.
